(** * sistema_deposito: company registration, tenant stores, login and
      user maintenance of [main.py], embedded and verified.

    A Python [str] is modelled by the [string] of its UTF-8 bytes, which
    is also what [s.encode()] hands to SHA-256.  [len] and [strip] below
    are Python's on every text; the character classes [\w] and [\s] of
    the patterns and the case maps [lower] and [upper] are Python's on
    ASCII text, and the theorems that depend on them say so.  SQLite
    tables are modelled by their column declarations and their rows; a
    row is a finite map from column names to values. *)

From Stdlib Require Import ZArith List String Ascii Bool Lia.
From stdpp Require Import base option list gmap strings pretty.

(** ** Text *)

Module Texto.

Definition cod (c : ascii) : N := N_of_ascii c.

Definition entre (a b : N) (c : ascii) : bool :=
  ((a <=? cod c) && (cod c <=? b))%N.

Definition eh_maiuscula : ascii -> bool := entre 65 90.
Definition eh_minuscula : ascii -> bool := entre 97 122.
Definition eh_digito : ascii -> bool := entre 48 57.

(** [\w] on ASCII text: a letter, a digit or the underscore. *)
Definition eh_palavra (c : ascii) : bool :=
  eh_minuscula c || eh_maiuscula c || eh_digito c || (cod c =? 95)%N.

(** [\s] on ASCII text: tab, line feed, vertical tab, form feed, carriage
    return, the four separators 28..31 and the space. *)
Definition eh_espaco (c : ascii) : bool :=
  entre 9 13 c || entre 28 31 c || (cod c =? 32)%N.

Definition lower_c (c : ascii) : ascii :=
  if eh_maiuscula c then ascii_of_N (cod c + 32) else c.

Definition upper_c (c : ascii) : ascii :=
  if eh_minuscula c then ascii_of_N (cod c - 32) else c.

Fixpoint mapear (f : ascii -> ascii) (s : string) : string :=
  match s with
  | EmptyString => EmptyString
  | String c r => String (f c) (mapear f r)
  end.

(** [s.lower()] and [s.upper()] on ASCII text. *)
Definition lower : string -> string := mapear lower_c.
Definition upper : string -> string := mapear upper_c.

Fixpoint todos (p : ascii -> bool) (s : string) : bool :=
  match s with
  | EmptyString => true
  | String c r => p c && todos p r
  end.

(** [re.sub(r"\W+", "_", s)] on ASCII text: every maximal run of
    characters outside [\w] becomes one underscore.  [em_seq] tells that
    the previous character already belonged to the run being replaced. *)
Fixpoint sub_nao_palavra (em_seq : bool) (s : string) : string :=
  match s with
  | EmptyString => EmptyString
  | String c r =>
      if eh_palavra c then String c (sub_nao_palavra false r)
      else if em_seq then sub_nao_palavra true r
      else String "_" (sub_nao_palavra true r)
  end.

(** [s.replace(' ', '')] *)
Fixpoint sem_espacos (s : string) : string :=
  match s with
  | EmptyString => EmptyString
  | String c r =>
      if (cod c =? 32)%N then sem_espacos r else String c (sem_espacos r)
  end.

(** [s.split('.')[-1]]: what follows the last dot, the whole text when it
    has none.  [acc] is the piece read since the last dot, reversed. *)
Fixpoint apos_ultimo_ponto_aux (acc : string) (s : string) : string :=
  match s with
  | EmptyString => String.rev acc
  | String c r =>
      if (cod c =? 46)%N then apos_ultimo_ponto_aux EmptyString r
      else apos_ultimo_ponto_aux (String c acc) r
  end.

Definition apos_ultimo_ponto : string -> string :=
  apos_ultimo_ponto_aux EmptyString.

(** [s[:n]] *)
Fixpoint prefixo (n : nat) (s : string) : string :=
  match n, s with
  | S k, String c r => String c (prefixo k r)
  | _, _ => EmptyString
  end.

(** [len(s)]: the number of characters, that is, of bytes that do not
    continue a character (a continuation byte of UTF-8 is 10xxxxxx). *)
Fixpoint len (s : string) : nat :=
  match s with
  | EmptyString => O
  | String c r => if entre 128 191 c then len r else S (len r)
  end.

Definition de_bytes (l : list N) : string :=
  string_of_list_ascii (map ascii_of_N l).

(** The characters [str.strip()] removes, in UTF-8: the ASCII whitespace,
    U+0085, U+00A0, U+1680, U+2000 to U+200A, U+2028, U+2029, U+202F, U+205F
    and U+3000. *)
Definition espacos : list string :=
  map de_bytes
    [ [9]; [10]; [11]; [12]; [13]; [28]; [29]; [30]; [31]; [32];
      [194; 133]; [194; 160]; [225; 154; 128];
      [226; 128; 128]; [226; 128; 129]; [226; 128; 130]; [226; 128; 131];
      [226; 128; 132]; [226; 128; 133]; [226; 128; 134]; [226; 128; 135];
      [226; 128; 136]; [226; 128; 137]; [226; 128; 138];
      [226; 128; 168]; [226; 128; 169]; [226; 128; 175]; [226; 129; 159];
      [227; 128; 128] ]%N.

(** [s] without the prefix [p], when it starts with it. *)
Fixpoint sem_prefixo (p s : string) : option string :=
  match p, s with
  | EmptyString, _ => Some s
  | String a p', String b s' =>
      if (cod a =? cod b)%N then sem_prefixo p' s' else None
  | String _ _, EmptyString => None
  end.

(** [s] without the first of the texts [ps] it starts with. *)
Fixpoint sem_um (ps : list string) (s : string) : option string :=
  match ps with
  | [] => None
  | p :: r => match sem_prefixo p s with
              | Some s' => Some s'
              | None => sem_um r s
              end
  end.

(** Prefixes among [ps] removed for as long as there is one; [n] bounds the
    number of removals. *)
Fixpoint sem_prefixos (ps : list string) (n : nat) (s : string) : string :=
  match n with
  | O => s
  | S k => match sem_um ps s with
           | Some s' => sem_prefixos ps k s'
           | None => s
           end
  end.

(** [s.strip()]: leading and trailing whitespace removed; the trailing
    one is the leading one of the reversed text. *)
Definition strip (s : string) : string :=
  let e := sem_prefixos espacos (String.length s) s in
  String.rev
    (sem_prefixos (map String.rev espacos) (String.length e) (String.rev e)).

(** Truth value of a [str]: [not s] holds for the empty text only. *)
Definition vazio (s : string) : bool :=
  match s with EmptyString => true | _ => false end.

End Texto.

(** ** Regular expressions

    The patterns of the source are small; they are kept as terms and
    matched by derivatives.  [casa r s] is [re.match] with a pattern
    anchored at both ends. *)

Module Regex.

Inductive regex : Type :=
  | Nada
  | Eps
  | Classe (p : ascii -> bool)
  | Seq (r1 r2 : regex)
  | Alt (r1 r2 : regex)
  | Estrela (r : regex).

Definition Mais (r : regex) : regex := Seq r (Estrela r).
Definition Opc (r : regex) : regex := Alt Eps r.

Fixpoint anulavel (r : regex) : bool :=
  match r with
  | Nada => false
  | Eps => true
  | Classe _ => false
  | Seq r1 r2 => anulavel r1 && anulavel r2
  | Alt r1 r2 => anulavel r1 || anulavel r2
  | Estrela _ => true
  end.

Fixpoint derivada (c : ascii) (r : regex) : regex :=
  match r with
  | Nada => Nada
  | Eps => Nada
  | Classe p => if p c then Eps else Nada
  | Seq r1 r2 =>
      if anulavel r1
      then Alt (Seq (derivada c r1) r2) (derivada c r2)
      else Seq (derivada c r1) r2
  | Alt r1 r2 => Alt (derivada c r1) (derivada c r2)
  | Estrela r1 => Seq (derivada c r1) (Estrela r1)
  end.

Fixpoint casa (r : regex) (s : string) : bool :=
  match s with
  | EmptyString => anulavel r
  | String c t => casa (derivada c r) t
  end.

Definition car (n : N) : regex := Classe (fun c => (Texto.cod c =? n)%N).

(** [$] matches at the end and before a final line feed. *)
Definition fim : regex := Opc (car 10).

(** [^[\w\s\-\.]+$], the company name accepted by [cadastrar_empresa],
    on ASCII text. *)
Definition re_nome_empresa : regex :=
  Seq (Mais (Classe (fun c =>
         Texto.eh_palavra c || Texto.eh_espaco c
         || (Texto.cod c =? 45)%N || (Texto.cod c =? 46)%N)))
      fim.

(** [^[\w\.-]+@[\w\.-]+\.\w+$], the e-mail accepted by [salvar_usuario],
    on ASCII text. *)
Definition re_email : regex :=
  let local := Classe (fun c =>
    Texto.eh_palavra c || (Texto.cod c =? 46)%N || (Texto.cod c =? 45)%N) in
  Seq (Mais local)
   (Seq (car 64)
    (Seq (Mais local)
     (Seq (car 46)
      (Seq (Mais (Classe Texto.eh_palavra)) fim)))).

End Regex.

(** ** SHA-256

    [hashlib.sha256(s.encode()).hexdigest()], following FIPS 180-4 on
    32-bit words held in [Z]. *)

Module Sha256.

Local Open Scope Z_scope.

Definition w32 (x : Z) : Z := x mod 4294967296.

Definition rotr (n x : Z) : Z :=
  Z.lor (Z.shiftr x n) (w32 (Z.shiftl x (32 - n))).

Definition mais (x y : Z) : Z := w32 (x + y).

Definition ch (x y z : Z) : Z :=
  Z.lxor (Z.land x y) (Z.land (Z.lxor x 4294967295) z).
Definition maj (x y z : Z) : Z :=
  Z.lxor (Z.lxor (Z.land x y) (Z.land x z)) (Z.land y z).
Definition Sigma0 (x : Z) : Z :=
  Z.lxor (Z.lxor (rotr 2 x) (rotr 13 x)) (rotr 22 x).
Definition Sigma1 (x : Z) : Z :=
  Z.lxor (Z.lxor (rotr 6 x) (rotr 11 x)) (rotr 25 x).
Definition sigma0 (x : Z) : Z :=
  Z.lxor (Z.lxor (rotr 7 x) (rotr 18 x)) (Z.shiftr x 3).
Definition sigma1 (x : Z) : Z :=
  Z.lxor (Z.lxor (rotr 17 x) (rotr 19 x)) (Z.shiftr x 10).

(** The largest [r] below [2 ^ n] with [r ^ 3 <= x] on top of [r0], bit by
    bit from the highest. *)
Fixpoint raiz_cubica (n : nat) (x r0 : Z) : Z :=
  match n with
  | O => r0
  | S k =>
      let r := r0 + Z.shiftl 1 (Z.of_nat k) in
      raiz_cubica k x (if r * r * r <=? x then r else r0)
  end.

Definition primos : list Z :=
  [ 2; 3; 5; 7; 11; 13; 17; 19; 23; 29; 31; 37; 41; 43; 47; 53; 59; 61; 67;
    71; 73; 79; 83; 89; 97; 101; 103; 107; 109; 113; 127; 131; 137; 139; 149;
    151; 157; 163; 167; 173; 179; 181; 191; 193; 197; 199; 211; 223; 227;
    229; 233; 239; 241; 251; 257; 263; 269; 271; 277; 281; 283; 293; 307;
    311 ].

(** The round constants: the first 32 bits of the fractional parts of the
    cube roots of the first 64 primes. *)
Definition K : list Z :=
  Eval vm_compute in
    (map (fun p => w32 (raiz_cubica 40 (Z.shiftl p 96) 0)) primos).

(** The initial hash value: the same of the square roots of the first 8
    primes. *)
Definition H0 : list Z :=
  Eval vm_compute in
    (map (fun p => w32 (Z.sqrt (Z.shiftl p 64))) (firstn 8 primos)).

(** Bytes of the message followed by the padding: one bit, zeros up to
    56 modulo 64, and the bit length on eight bytes. *)
Definition bytes_be (n : nat) (x : Z) : list Z :=
  map (fun i => Z.land (Z.shiftr x (8 * Z.of_nat i)) 255) (rev (seq 0 n)).

Definition preencher (msg : list Z) : list Z :=
  let l := Z.of_nat (length msg) in
  let z := Z.to_nat ((55 - l) mod 64) in
  msg ++ [128] ++ repeat 0 z ++ bytes_be 8 (8 * l).

Fixpoint palavras (bs : list Z) : list Z :=
  match bs with
  | a :: b :: c :: d :: r =>
      (Z.shiftl a 24 + Z.shiftl b 16 + Z.shiftl c 8 + d) :: palavras r
  | _ => []
  end.

Definition el (l : list Z) (i : nat) : Z := nth i l 0.

(** The message schedule, built backwards: the head of [ws] is the word
    computed last. *)
Fixpoint agenda (n : nat) (ws : list Z) : list Z :=
  match n with
  | O => ws
  | S k =>
      let w := mais (mais (sigma1 (el ws 1)) (el ws 6))
                    (mais (sigma0 (el ws 14)) (el ws 15)) in
      agenda k (w :: ws)
  end.

Definition rodada (st : list Z) (kw : Z * Z) : list Z :=
  match st with
  | [a; b; c; d; e; f; g; h] =>
      let t1 := mais (mais (mais h (Sigma1 e)) (mais (ch e f g) (fst kw)))
                     (snd kw) in
      let t2 := mais (Sigma0 a) (maj a b c) in
      [mais t1 t2; a; b; c; mais d t1; e; f; g]
  | _ => st
  end.

Definition comprimir (h : list Z) (bloco : list Z) : list Z :=
  let w := rev (agenda 48 (rev bloco)) in
  let st := fold_left rodada (combine K w) h in
  map (fun p => mais (fst p) (snd p)) (combine h st).

Fixpoint blocos (n : nat) (h : list Z) (ws : list Z) : list Z :=
  match n with
  | O => h
  | S k => blocos k (comprimir h (firstn 16 ws)) (skipn 16 ws)
  end.

Definition digest (msg : list Z) : list Z :=
  let ws := palavras (preencher msg) in
  blocos (length ws / 16) H0 ws.

Definition hex_c (x : Z) : ascii :=
  ascii_of_N (Z.to_N (if x <? 10 then 48 + x else 87 + x)).

Definition hex_palavra (w : Z) : string :=
  string_of_list_ascii
    (map (fun i => hex_c (Z.land (Z.shiftr w (4 * Z.of_nat i)) 15))
         (rev (seq 0 8))).

(** [s.encode()] on ASCII text. *)
Definition encode (s : string) : list Z :=
  map (fun c => Z.of_N (N_of_ascii c)) (list_ascii_of_string s).

Definition hexdigest (s : string) : string :=
  fold_right String.append EmptyString (map hex_palavra (digest (encode s))).

End Sha256.

(** ** SQLite tables

    A table is its column declarations, its [CHECK (col IN (...))]
    constraints, its rows and the counter behind [AUTOINCREMENT].  A row
    maps column names to values; a column the row does not store reads as
    [NULL].  A value is [NULL], an integer or a text: SQLite stores a text
    in a [TEXT] column and an integer of 64 bits in an [INTEGER] column as
    they are given, and converts what is given otherwise; the theorems
    about values handed in by a caller are stated for the former.
    Foreign keys are declared by the source but SQLite does not enforce
    them unless the pragma is switched on, which the source never does,
    so they are left out. *)

Module Sql.

Inductive valor : Type :=
  | VNull
  | VInt (n : Z)
  | VTexto (s : string).

#[global] Instance valor_eq_dec : EqDecision valor.
Proof. solve_decision. Defined.

Inductive tipo : Type := TInteger | TText | TReal | TDate | TDatetime.

Inductive padrao : Type :=
  | SemPadrao
  | PadraoValor (v : valor)
  | PadraoAgora          (* DEFAULT CURRENT_TIMESTAMP *)
  | PadraoAuto.          (* INTEGER PRIMARY KEY AUTOINCREMENT *)

Record coluna : Type := Coluna {
  c_nome : string;
  c_tipo : tipo;
  c_nao_nulo : bool;
  c_unico : bool;
  c_padrao : padrao }.

Record tabela : Type := Tabela {
  t_colunas : list coluna;
  t_check : list (string * list string);
  t_linhas : list (gmap string valor);
  t_seq : Z }.

Inductive motivo : Type :=
  | SemTabela            (* no such table *)
  | SemColuna            (* no such column *)
  | SemColunaInsert      (* table has no column named *)
  | ColunaDuplicada      (* duplicate column name *)
  | TabelaExiste         (* table already exists *)
  | Externo.             (* raised by the environment: locked, full disk *)

Inductive excecao : Type :=
  | IntegrityError
  | OperationalError (m : motivo)
  | PermissionError
  | OverflowError        (* no [sqlite3.Error]: an integer outside 64 bits *)
  | OutraExcecao.

Definition res (A : Type) : Type := excecao + A.

Definition sem_excecao {A : Type} (r : res A) : bool :=
  match r with inr _ => true | inl _ => false end.

(** An integer SQLite can hold. *)
Definition int64 (n : Z) : bool :=
  ((- 2 ^ 63 <=? n) && (n <? 2 ^ 63))%Z.

(** The value binds to a parameter of a statement: [sqlite3] raises
    [OverflowError] for a Python integer outside 64 bits. *)
Definition cabe (v : valor) : bool :=
  match v with
  | VInt n => int64 n
  | _ => true
  end.

(** [cursor.execute(sql, params)], where [r] is what the statement does
    once its parameters are bound: the statement is compiled first, which
    raises [OperationalError] when it names a table or a column the file
    lacks; then the parameters are bound; then it runs. *)
Definition com_parametros {A : Type} (params : list valor) (r : res A)
    : res A :=
  match r with
  | inl (OperationalError m) => inl (OperationalError m)
  | _ => if forallb cabe params then r else inl OverflowError
  end.

Definition nomes (t : tabela) : list string := c_nome <$> t_colunas t.

Definition tem_coluna (t : tabela) (c : string) : bool :=
  bool_decide (c ∈ nomes t).

(** [linha[c]] on a [sqlite3.Row] of table [t]. *)
Definition campo (l : gmap string valor) (c : string) : valor :=
  default VNull (l !! c).

(** [col = ?] in a [WHERE] clause: never true of [NULL]. *)
Definition igual (c : string) (v : valor) (l : gmap string valor) : bool :=
  match v with
  | VNull => false
  | _ => bool_decide (campo l c = v)
  end.

Definition valor_padrao (agora : string) (seq : Z) (p : padrao) : valor :=
  match p with
  | SemPadrao => VNull
  | PadraoValor v => v
  | PadraoAgora => VTexto agora
  | PadraoAuto => VInt (seq + 1)
  end.

(** The row an [INSERT] stores: the given values, defaults elsewhere. *)
Definition montar_linha (agora : string) (t : tabela)
    (vals : gmap string valor) : gmap string valor :=
  foldr (fun c l =>
           <[c_nome c := match vals !! c_nome c with
                         | Some v => v
                         | None => valor_padrao agora (t_seq t) (c_padrao c)
                         end]> l)
        ∅ (t_colunas t).

Definition nao_nulos_ok (cs : list coluna) (l : gmap string valor) : bool :=
  forallb (fun c => negb (c_nao_nulo c)
                    || negb (bool_decide (campo l (c_nome c) = VNull)))
          cs.

(** No row of [ls] holds the value [l] has in a column declared [UNIQUE]. *)
Definition unicos_ok (cs : list coluna) (ls : list (gmap string valor))
    (l : gmap string valor) : bool :=
  forallb (fun c => negb (c_unico c)
                    || negb (existsb (igual (c_nome c) (campo l (c_nome c))) ls))
          cs.

Definition check_ok (chk : list (string * list string))
    (l : gmap string valor) : bool :=
  forallb (fun ch : string * list string =>
             match campo l ch.1 with
             | VNull => true
             | VTexto s => bool_decide (s ∈ ch.2)
             | VInt _ => false
             end)
          chk.

(** [INSERT INTO t (cols) VALUES (vals)] *)
Definition inserir (agora : string) (vals : list (string * valor))
    (t : tabela) : res tabela :=
  if negb (forallb (tem_coluna t) vals.*1)
  then inl (OperationalError SemColunaInsert)
  else
    let l := montar_linha agora t (list_to_map vals) in
    if nao_nulos_ok (t_colunas t) l
       && unicos_ok (t_colunas t) (t_linhas t) l
       && check_ok (t_check t) l
    then inr (Tabela (t_colunas t) (t_check t) (t_linhas t ++ [l]) (t_seq t + 1))
    else inl IntegrityError.

(** [SELECT ... FROM t WHERE p], the statement naming the columns [cols]. *)
Definition selecionar (cols : list string)
    (p : gmap string valor -> bool) (t : tabela)
    : res (list (gmap string valor)) :=
  if forallb (tem_coluna t) cols
  then inr (filter (fun l => p l = true) (t_linhas t))
  else inl (OperationalError SemColuna).

Definition aplicar (sets : list (string * valor))
    (l : gmap string valor) : gmap string valor :=
  foldr (fun kv m => <[kv.1 := kv.2]> m) l sets.

Fixpoint linhas_unicas (cs : list coluna)
    (ls : list (gmap string valor)) : bool :=
  match ls with
  | [] => true
  | l :: r => unicos_ok cs r l && linhas_unicas cs r
  end.

(** [UPDATE t SET sets WHERE p], the [WHERE] clause naming [cols].  The
    declarations of the columns being set are checked on the result. *)
Definition atualizar (cols : list string) (sets : list (string * valor))
    (p : gmap string valor -> bool) (t : tabela) : res tabela :=
  if negb (forallb (tem_coluna t) (sets.*1 ++ cols))
  then inl (OperationalError SemColuna)
  else
    let ls := (fun l => if p l then aplicar sets l else l) <$> t_linhas t in
    let cs := filter (fun c => c_nome c ∈ sets.*1) (t_colunas t) in
    let chk := filter (fun ch : string * list string => ch.1 ∈ sets.*1)
                 (t_check t) in
    if forallb (fun l => nao_nulos_ok cs l && check_ok chk l) ls
       && linhas_unicas cs ls
    then inr (Tabela (t_colunas t) (t_check t) ls (t_seq t))
    else inl IntegrityError.

(** [DELETE FROM t WHERE p] *)
Definition apagar (cols : list string)
    (p : gmap string valor -> bool) (t : tabela) : res tabela :=
  if forallb (tem_coluna t) cols
  then inr (Tabela (t_colunas t) (t_check t)
              (filter (fun l => p l = false) (t_linhas t)) (t_seq t))
  else inl (OperationalError SemColuna).

(** [ALTER TABLE t ADD COLUMN c]: existing rows read the default. *)
Definition adicionar_coluna (c : coluna) (t : tabela) : res tabela :=
  if tem_coluna t (c_nome c) then inl (OperationalError ColunaDuplicada)
  else inr (Tabela (t_colunas t ++ [c]) (t_check t)
              ((fun l => <[c_nome c := valor_padrao EmptyString 0 (c_padrao c)]> l)
                 <$> t_linhas t)
              (t_seq t)).

Definition tabela_vazia (cols : list coluna)
    (chk : list (string * list string)) : tabela :=
  Tabela cols chk [] 0.

(** A database file: its tables by name. *)
Definition em_tabela {A : Type} (nome : string) (f : tabela -> res A)
    (b : gmap string tabela) : res A :=
  match b !! nome with
  | None => inl (OperationalError SemTabela)
  | Some t => f t
  end.

Definition alterar_tabela (nome : string) (f : tabela -> res tabela)
    (b : gmap string tabela) : res (gmap string tabela) :=
  match em_tabela nome f b with
  | inl e => inl e
  | inr t' => inr (<[nome := t']> b)
  end.

(** [CREATE TABLE IF NOT EXISTS nome (...)] *)
Definition criar_se_ausente (nome : string) (cols : list coluna)
    (chk : list (string * list string)) (b : gmap string tabela)
    : gmap string tabela :=
  match b !! nome with
  | Some _ => b
  | None => <[nome := tabela_vazia cols chk]> b
  end.

(** [CREATE TABLE nome (...)] *)
Definition criar (nome : string) (cols : list coluna)
    (chk : list (string * list string)) (b : gmap string tabela)
    : res (gmap string tabela) :=
  match b !! nome with
  | Some _ => inl (OperationalError TabelaExiste)
  | None => inr (<[nome := tabela_vazia cols chk]> b)
  end.

(** [SELECT name FROM sqlite_master WHERE type='table' AND name=nome],
    then [fetchone()] read as a truth value. *)
Definition tabela_existe (nome : string) (b : gmap string tabela) : bool :=
  bool_decide (is_Some (b !! nome)).

(** Column declarations as the source writes them. *)
Definition col_id : coluna := Coluna "id" TInteger false true PadraoAuto.
Definition col (n : string) (ty : tipo) : coluna := Coluna n ty false false SemPadrao.
Definition col_nn (n : string) (ty : tipo) : coluna := Coluna n ty true false SemPadrao.
Definition col_un (n : string) (ty : tipo) : coluna := Coluna n ty false true SemPadrao.
Definition col_unn (n : string) (ty : tipo) : coluna := Coluna n ty true true SemPadrao.
Definition col_def (n : string) (ty : tipo) (v : valor) : coluna :=
  Coluna n ty false false (PadraoValor v).
Definition col_nn_def (n : string) (ty : tipo) (v : valor) : coluna :=
  Coluna n ty true false (PadraoValor v).
Definition col_agora (n : string) : coluna :=
  Coluna n TDatetime false false PadraoAgora.

End Sql.

(** ** Table declarations of the source *)

Module Esquema.
Import Sql.

Definition texto (s : string) : valor := VTexto s.

(** [criar_banco_principal], first [CREATE TABLE IF NOT EXISTS empresas]. *)
Definition empresas : list coluna :=
  [ col_id;
    col_unn "nome" TText;
    col_nn "senha" TText;
    col "logo_path" TText;
    col_unn "db_nome" TText;
    col_nn "admin_user" TText;
    col_def "tipo_usuario" TText (texto "CEO");
    col "cnpj" TText;
    col "endereco" TText;
    col "telefone" TText ].

(** [criar_banco_principal], second [CREATE TABLE IF NOT EXISTS empresas]. *)
Definition empresas_v2 : list coluna :=
  [ col_id;
    col_unn "nome" TText;
    col "razao_social" TText;
    col_nn "senha" TText;
    col "logo_path" TText;
    col_unn "db_nome" TText;
    col_def "cnpj" TText (texto EmptyString);
    col_def "inscricao_estadual" TText (texto EmptyString);
    col_def "endereco" TText (texto EmptyString);
    col_def "cidade" TText (texto EmptyString);
    col_def "estado" TText (texto EmptyString);
    col_def "cep" TText (texto EmptyString);
    col_def "telefone" TText (texto EmptyString);
    col_def "email" TText (texto EmptyString);
    col_def "website" TText (texto EmptyString);
    col_def "admin_user" TText (texto EmptyString);
    col_agora "data_cadastro";
    col_def "plano_assinatura" TText (texto "basic");
    col_def "status" TText (texto "active") ].

Definition produtos : list coluna :=
  [ col_id;
    col_un "codigo_barras" TText;
    col_un "sku" TText;
    col_nn "nome" TText;
    col "descricao" TText;
    col "categoria" TText;
    col "marca" TText;
    col_nn "quantidade" TInteger;
    col_def "quantidade_minima" TInteger (VInt 0);
    col_nn "preco_custo" TReal;
    col_nn "preco_venda" TReal;
    col "localizacao" TText;
    col "fornecedor" TText;
    col_agora "data_cadastro";
    col_agora "ultima_atualizacao" ].

Definition usuarios : list coluna :=
  [ col_id;
    col_nn "codigo_empresa" TText;
    col_nn "empresa_nome" TText;
    col_nn "usuario" TText;
    col_nn "nome_completo" TText;
    col_nn "nome_supervisor" TText;
    col_nn "turno" TText;
    col_unn "email" TText;
    col_nn "senha" TText;
    col_nn "tipo_acesso" TText;
    col "departamento" TText;
    col "cargo" TText;
    col "data_admissao" TDate;
    col "ultimo_acesso" TDatetime;
    col "criado_por" TText ].

(** [CHECK(tipo_acesso IN ('CEO', 'Administrador', 'Gerente', 'Operador'))] *)
Definition tipos_acesso : list string :=
  [ "CEO"; "Administrador"; "Gerente"; "Operador" ].

Definition check_usuarios : list (string * list string) :=
  [ ("tipo_acesso", tipos_acesso) ].

Definition movimentacoes_estoque : list coluna :=
  [ col_id;
    col_nn "produto_id" TInteger;
    col_nn "tipo_movimentacao" TText;
    col_nn "quantidade" TInteger;
    col "motivo" TText;
    col "nota_fiscal" TText;
    col_nn "usuario_id" TInteger;
    col_agora "data_movimentacao" ].

Definition depositos : list coluna :=
  [ col_id;
    col_nn "nome" TText;
    col_nn "tipo" TText;
    col "endereco" TText;
    col "cidade" TText;
    col "estado" TText;
    col "cep" TText;
    col "responsavel_id" TInteger;
    col "capacidade_total" TReal;
    col_def "status" TText (texto "ativo") ].

Definition localizacao_produtos : list coluna :=
  [ col_id;
    col_nn "deposito_id" TInteger;
    col_nn "produto_id" TInteger;
    col_nn "quantidade" TInteger;
    col "corredor" TText;
    col "prateleira" TText;
    col "nivel" TText;
    col "posicao" TText;
    col_agora "data_atualizacao" ].

Definition fornecedores : list coluna :=
  [ col_id;
    col_nn "razao_social" TText;
    col "nome_fantasia" TText;
    col_un "cnpj" TText;
    col "inscricao_estadual" TText;
    col "endereco" TText;
    col "cidade" TText;
    col "estado" TText;
    col "cep" TText;
    col "telefone" TText;
    col "email" TText;
    col "contato_nome" TText;
    col "prazo_entrega" TInteger;
    col "condicao_pagamento" TText;
    col_def "status" TText (texto "ativo") ].

Definition pedidos : list coluna :=
  [ col_id;
    col_unn "numero_pedido" TText;
    col "cliente_id" TInteger;
    col_nn "usuario_id" TInteger;
    col_def "status" TText (texto "pendente");
    col_nn "tipo_pedido" TText;
    col_agora "data_pedido";
    col "data_entrega_prevista" TDate;
    col "data_entrega_real" TDate;
    col "valor_total" TReal;
    col "observacoes" TText ].

Definition itens_pedido : list coluna :=
  [ col_id;
    col_nn "pedido_id" TInteger;
    col_nn "produto_id" TInteger;
    col_nn "quantidade" TInteger;
    col_nn "preco_unitario" TReal;
    col_def "desconto" TReal (VInt 0);
    col_nn "subtotal" TReal ].

Definition rastreamento_entregas : list coluna :=
  [ col_id;
    col_nn "pedido_id" TInteger;
    col_nn "status" TText;
    col "localizacao" TText;
    col_agora "data_atualizacao";
    col "observacoes" TText;
    col_nn "usuario_id" TInteger ].

(** The seven tables both [criar_banco_principal] and
    [criar_banco_empresa] create after their own, in the source's order. *)
Definition tabelas_comuns : list (string * list coluna) :=
  [ ("movimentacoes_estoque", movimentacoes_estoque);
    ("depositos", depositos);
    ("localizacao_produtos", localizacao_produtos);
    ("fornecedores", fornecedores);
    ("pedidos", pedidos);
    ("itens_pedido", itens_pedido);
    ("rastreamento_entregas", rastreamento_entregas) ].

End Esquema.

(** ** Connections

    The statements a function runs on one connection, in a state and error
    monad.  [falha] is what the environment still holds against the
    connection: [Some (n, e)] raises [e] at the [n]-th statement from now,
    which is then not applied.  Schema statements run in autocommit mode,
    so what ran before an exception stays in the file. *)

Module Conexao.
Import Sql.

Record conexao : Type := Con {
  db : gmap string tabela;
  falha : option (nat * excecao) }.

Definition M (A : Type) : Type := conexao -> res A * conexao.

Definition ret {A : Type} (a : A) : M A := fun c => (inr a, c).

Definition bind {A B : Type} (m : M A) (k : A -> M B) : M B :=
  fun c => match m c with
           | (inl e, c') => (inl e, c')
           | (inr a, c') => k a c'
           end.

Definition raise {A : Type} (e : excecao) : M A := fun c => (inl e, c).

(** [cursor.execute(...)]: one statement [f] against the file. *)
Definition execute {A : Type} (f : gmap string tabela -> res (A * gmap string tabela))
    : M A :=
  fun c =>
    match falha c with
    | Some (O, e) => (inl e, Con (db c) None)
    | fl =>
        let fl' := match fl with
                   | Some (S n, e) => Some (n, e)
                   | _ => None
                   end in
        match f (db c) with
        | inl e => (inl e, Con (db c) fl')
        | inr (a, b') => (inr a, Con b' fl')
        end
    end.

(** A statement that cannot fail by itself. *)
Definition executar (f : gmap string tabela -> gmap string tabela) : M unit :=
  execute (fun b => inr (tt, f b)).

(** A statement that may raise. *)
Definition executar_res (f : gmap string tabela -> res (gmap string tabela))
    : M unit :=
  execute (fun b => match f b with inl e => inl e | inr b' => inr (tt, b') end).

(** A query. *)
Definition consultar {A : Type} (f : gmap string tabela -> A) : M A :=
  execute (fun b => inr (f b, b)).

(** [try: m except sqlite3.OperationalError: pass] *)
Definition ignorar_operational (m : M unit) : M unit :=
  fun c => match m c with
           | (inl (OperationalError _), c') => (inr tt, c')
           | r => r
           end.

(** [for x in xs: f x] *)
Fixpoint para_cada {A : Type} (xs : list A) (f : A -> M unit) : M unit :=
  match xs with
  | [] => ret tt
  | x :: r => bind (f x) (fun _ => para_cada r f)
  end.

End Conexao.

Notation "x <- m ;; k" := (Conexao.bind m (fun x => k))
  (at level 100, m at next level, right associativity).
Notation "m ;;; k" := (Conexao.bind m (fun _ => k))
  (at level 100, right associativity).

(** ** The application *)

Module App.
Import Sql Conexao Esquema.

(** What the functions read and write outside the process: the shared
    directory [deposito_principal.db], the files under
    [deposito_empresas/] by path, and the paths [os.remove] cannot remove
    because the file is in use ([PermissionError]). *)
Record mundo : Type := Mundo {
  principal : gmap string tabela;
  arquivos : gmap string (gmap string tabela);
  bloqueados : gset string }.

(** What the environment decides during one call: the clock readings,
    whether the logo file can be moved, and the exceptions it raises while
    a tenant store is provisioned (by attempt of [cadastrar_empresa]). *)
Record ambiente : Type := Ambiente {
  agora : string;                 (* CURRENT_TIMESTAMP *)
  hoje : string;                  (* DATE('now') *)
  tempo : nat -> Z;               (* int(time.time()) *)
  logo_movido : bool;             (* os.replace succeeds *)
  falha_criar : nat -> option (nat * excecao);
  falha_semear : nat -> option excecao }.

(** The dictionary [self.empresa_logada]. *)
Abbreviation sessao := (gmap string valor).

Definition caminho_db (db_nome : string) : string :=
  "deposito_empresas/" +:+ db_nome +:+ ".db".

Definition caminho_alternativo (db_nome : string) (t : Z) : string :=
  "deposito_empresas/" +:+ db_nome +:+ "_" +:+ pretty t +:+ ".db".

(** [os.path.exists], [os.remove] and writing a file back. *)
Definition existe (w : mundo) (p : string) : bool :=
  bool_decide (is_Some (arquivos w !! p)).

Definition remover (p : string) (w : mundo) : mundo :=
  Mundo (principal w) (delete p (arquivos w)) (bloqueados w).

Definition gravar (p : string) (b : gmap string tabela) (w : mundo) : mundo :=
  Mundo (principal w) (<[p := b]> (arquivos w)) (bloqueados w).

Definition gravar_principal (b : gmap string tabela) (w : mundo) : mundo :=
  Mundo b (arquivos w) (bloqueados w).

(** What [sqlite3.connect(p)] opens: the file, empty when it is new. *)
Definition abrir (w : mundo) (p : string) : gmap string tabela :=
  default ∅ (arquivos w !! p).

(** [str(v)] inside an f-string. *)
Definition str_de (v : valor) : string :=
  match v with
  | VNull => "None"
  | VInt n => pretty n
  | VTexto s => s
  end.

(** [hashlib.sha256(s.encode()).hexdigest()] *)
Definition hash_senha (s : string) : string := Sha256.hexdigest s.

(** [row[c]] on a [sqlite3.Row] selected with [*] from [t]: an
    [IndexError] when the table has no such column. *)
Definition ler (t : tabela) (l : gmap string valor) (c : string) : res valor :=
  if tem_coluna t c then inr (campo l c) else inl OutraExcecao.

(** *** [criar_banco_principal] *)

Definition esquema_principal : M unit :=
  executar (criar_se_ausente "empresas" empresas []) ;;;
  executar (criar_se_ausente "empresas" empresas_v2 []) ;;;
  para_cada ["cnpj"; "endereco"; "telefone"; "admin_user"]
    (fun c => ignorar_operational
       (executar_res (alterar_tabela "empresas"
          (adicionar_coluna (col_def c TText (texto EmptyString)))))) ;;;
  para_cada tabelas_comuns
    (fun nc => executar (criar_se_ausente nc.1 nc.2 [])).

Definition criar_banco_principal (w : mundo) : mundo :=
  gravar_principal (db (esquema_principal (Con (principal w) None)).2) w.

(** *** [criar_banco_empresa] *)

Definition colunas_necessarias : list string :=
  [ "codigo_empresa"; "empresa_nome"; "usuario"; "nome_supervisor"; "turno" ].

(** The statements [criar_banco_empresa] runs once connected. *)
Definition esquema_empresa : M unit :=
  executar (criar_se_ausente "produtos" produtos []) ;;;
  tabela_existe_ <- consultar (tabela_existe "usuarios") ;;
  (if negb tabela_existe_
   then executar_res (criar "usuarios" usuarios check_usuarios)
   else para_cada colunas_necessarias
          (fun c => ignorar_operational
             (executar_res (alterar_tabela "usuarios"
                (adicionar_coluna (col_nn_def c TText (texto EmptyString))))))) ;;;
  para_cada tabelas_comuns
    (fun nc => executar (criar_se_ausente nc.1 nc.2 [])) ;;;
  executar (fun b => b).          (* conn.commit() *)

(** The fault left for the statements once the connection is open. *)
Definition apos_conectar (f : option (nat * excecao)) : option (nat * excecao) :=
  match f with
  | Some (S n, e) => Some (n, e)
  | _ => None
  end.

Definition criar_banco_empresa (amb : ambiente) (tent : nat)
    (db_nome : string) (w : mundo) : res unit * mundo :=
  let caminho0 := caminho_db db_nome in
  let '(caminho, w1) :=
    if existe w caminho0 then
      if bool_decide (caminho0 ∈ bloqueados w)
      then (caminho_alternativo db_nome (tempo amb tent), w)
      else (caminho0, remover caminho0 w)
    else (caminho0, w) in
  match falha_criar amb tent with
  | Some (O, e) => (inl e, w1)
  | fl =>
      let '(r, c) := esquema_empresa (Con (abrir w1 caminho) (apos_conectar fl)) in
      (r, gravar caminho (db c) w1)
  end.

(** *** [cadastrar_empresa] (the second definition, which is the one the
    class keeps) *)

Inductive msg_cadastro : Type :=
  | PreenchaTodosOsCampos
  | NomeInvalido
  | SenhaCurta
  | BancoEmUso
  | EmpresaJaCadastrada
  | ErroAoCadastrar
  | TabelaUsuariosNaoEncontrada
  | ErroAoCriarAdministrador
  | CadastradaComSucesso
  | NaoFoiPossivelCriarBanco
  | ErroAoCriarBanco
  | SemMensagem.

(** [db_nome]: the name in lower case with every run of non-word
    characters replaced by an underscore, an underscore, and the first six
    hexadecimal digits of the SHA-256 digest of the name. *)
Definition db_nome_de (nome : string) : string :=
  Texto.sub_nao_palavra false (Texto.lower nome)
  +:+ "_" +:+ Texto.prefixo 6 (hash_senha nome).

(** [logo_final]: the path the logo is moved to, [None] without a logo or
    when moving it fails. *)
Definition logo_final (amb : ambiente) (nome : string)
    (logo_path : option string) : valor :=
  match logo_path with
  | Some p =>
      if negb (Texto.vazio p) && logo_movido amb
      then VTexto ("logos/" +:+ "logo_" +:+ nome +:+ "." +:+ Texto.apos_ultimo_ponto p)
      else VNull
  | None => VNull
  end.

Definition email_admin (admin nome : string) : string :=
  admin +:+ "@" +:+ Texto.sem_espacos (Texto.lower nome) +:+ ".com".

(** The row of the company's owner. *)
Definition linha_ceo (amb : ambiente) (db_nome nome senha admin : string)
    : list (string * valor) :=
  [ ("codigo_empresa", VTexto db_nome);
    ("empresa_nome", VTexto nome);
    ("usuario", VTexto admin);
    ("nome_completo", VTexto admin);
    ("nome_supervisor", VTexto "N/A");
    ("turno", VTexto "Integral");
    ("email", VTexto (email_admin admin nome));
    ("senha", VTexto (hash_senha senha));
    ("tipo_acesso", VTexto "CEO");
    ("departamento", VTexto "Diretoria");
    ("cargo", VTexto "CEO");
    ("data_admissao", VTexto (hoje amb));
    ("criado_por", VTexto "SISTEMA") ].

(** The inner [try] of the loop: the owner is written into
    [deposito_empresas/{db_nome}.db]. *)
Definition semear_ceo (amb : ambiente) (tent : nat)
    (db_nome nome senha admin : string) (w : mundo) : msg_cadastro * mundo :=
  let p := caminho_db db_nome in
  let b := abrir w p in
  let w1 := gravar p b w in
  if negb (tabela_existe "usuarios" b) then (TabelaUsuariosNaoEncontrada, w1)
  else
    match em_tabela "usuarios"
            (selecionar ["id"; "usuario"] (igual "usuario" (VTexto admin))) b with
    | inl _ => (ErroAoCriarAdministrador, w1)
    | inr (_ :: _) => (CadastradaComSucesso, w1)
    | inr [] =>
        match falha_semear amb tent with
        | Some _ => (ErroAoCriarAdministrador, w1)
        | None =>
            match alterar_tabela "usuarios"
                    (inserir (agora amb) (linha_ceo amb db_nome nome senha admin)) b with
            | inl _ => (ErroAoCriarAdministrador, w1)
            | inr b' => (CadastradaComSucesso, gravar p b' w)
            end
        end
    end.

(** [for tentativa in range(3)] *)
Fixpoint tentativas (amb : ambiente) (ts : list nat)
    (db_nome nome senha admin : string) (w : mundo) : msg_cadastro * mundo :=
  match ts with
  | [] => (SemMensagem, w)
  | tent :: r =>
      match criar_banco_empresa amb tent db_nome w with
      | (inr _, w1) => semear_ceo amb tent db_nome nome senha admin w1
      | (inl PermissionError, w1) =>
          if (tent <? 2)%nat then tentativas amb r db_nome nome senha admin w1
          else (NaoFoiPossivelCriarBanco, w1)
      | (inl _, w1) => (ErroAoCriarBanco, w1)
      end
  end.

(** The two handlers around the directory transaction. *)
Definition msg_de_excecao (e : excecao) : msg_cadastro :=
  match e with
  | IntegrityError => EmpresaJaCadastrada
  | _ => ErroAoCadastrar
  end.

(** The directory transaction: duplicate check, insert, commit. *)
Definition registrar_no_diretorio (amb : ambiente)
    (nome senha admin db_nome : string) (logo_path : option string)
    (b : gmap string tabela) : msg_cadastro + gmap string tabela :=
  match em_tabela "empresas"
          (selecionar ["id"; "nome"] (igual "nome" (VTexto nome))) b with
  | inl e => inl (msg_de_excecao e)
  | inr (_ :: _) => inl EmpresaJaCadastrada
  | inr [] =>
      match alterar_tabela "empresas"
              (inserir (agora amb)
                 [ ("nome", VTexto nome);
                   ("senha", VTexto (hash_senha senha));
                   ("logo_path", logo_final amb nome logo_path);
                   ("db_nome", VTexto db_nome);
                   ("admin_user", VTexto admin) ]) b with
      | inl e => inl (msg_de_excecao e)
      | inr b' => inr b'
      end
  end.

Definition cadastrar_empresa (amb : ambiente)
    (entry_nome entry_senha entry_admin : string)
    (logo_path : option string) (w : mundo) : msg_cadastro * mundo :=
  let nome := Texto.strip entry_nome in
  let senha := Texto.strip entry_senha in
  let admin := Texto.strip entry_admin in
  if Texto.vazio nome || Texto.vazio senha || Texto.vazio admin
  then (PreenchaTodosOsCampos, w)
  else if negb (Regex.casa Regex.re_nome_empresa nome) then (NomeInvalido, w)
  else if (Texto.len senha <? 6)%nat then (SenhaCurta, w)
  else
    let db_nome := db_nome_de nome in
    let db_path := caminho_db db_nome in
    if existe w db_path && bool_decide (db_path ∈ bloqueados w)
    then (BancoEmUso, w)
    else
      let w1 := if existe w db_path then remover db_path w else w in
      match registrar_no_diretorio amb nome senha admin db_nome logo_path
              (principal w1) with
      | inl m => (m, w1)
      | inr b' =>
          tentativas amb (seq 0 3) db_nome nome senha admin
            (gravar_principal b' w1)
      end.

(** *** [fazer_login] *)

Inductive msg_login : Type :=
  | TodosOsCamposObrigatorios
  | EmpresaNaoEncontrada
  | BancoNaoEncontrado
  | EstruturaIncorreta
  | NenhumUsuarioCadastrado
  | UsuarioNaoEncontrado
  | SenhaIncorreta
  | TipoDeAcessoInvalido
  | ErroNoLogin
  | MenuPrincipal.

Definition niveis_login : list string :=
  [ "CEO"; "ADMINISTRADOR"; "GERENTE"; "OPERADOR" ].

(** [tipo_acesso.upper() in ["CEO", "ADMINISTRADOR", "GERENTE", "OPERADOR"]] *)
Definition tipo_acesso_valido (tipo_acesso : string) : bool :=
  bool_decide (Texto.upper tipo_acesso ∈ niveis_login).

(** [WHERE usuario = ? OR nome_completo = ? OR email = ?] *)
Definition identifica (usuario : string) (l : gmap string valor) : bool :=
  igual "usuario" (VTexto usuario) l
  || igual "nome_completo" (VTexto usuario) l
  || igual "email" (VTexto usuario) l.

(** [empresa[c] if c in empresa.keys() else ""] *)
Definition ler_ou_vazio (t : tabela) (l : gmap string valor) (c : string) : valor :=
  if tem_coluna t c then campo l c else VTexto EmptyString.

(** The dictionary stored in [self.empresa_logada]. *)
Definition montar_sessao (te : tabela) (empresa : gmap string valor)
    (tu : tabela) (usuario_encontrado : gmap string valor) : res sessao :=
  match ler te empresa "id", ler te empresa "nome", ler te empresa "logo_path",
        ler te empresa "db_nome", ler tu usuario_encontrado "usuario",
        ler tu usuario_encontrado "tipo_acesso" with
  | inr vid, inr vnome, inr vlogo, inr vdb, inr vusuario, inr vtipo =>
      inr (<["id" := vid]>
           (<["nome" := vnome]>
            (<["logo_path" := vlogo]>
             (<["db_nome" := vdb]>
              (<["cnpj" := ler_ou_vazio te empresa "cnpj"]>
               (<["endereco" := ler_ou_vazio te empresa "endereco"]>
                (<["telefone" := ler_ou_vazio te empresa "telefone"]>
                 (<["usuario" := vusuario]>
                  (<["tipo_acesso" := vtipo]> ∅)))))))))
  | _, _, _, _, _, _ => inl OutraExcecao
  end.

(** What the branch taken when no user matches reports. *)
Definition msg_sem_usuario (tu : tabela) : msg_login :=
  if negb (tem_coluna tu "usuario") then EstruturaIncorreta
  else match t_linhas tu with
       | [] => NenhumUsuarioCadastrado
       | _ :: _ => UsuarioNaoEncontrado
       end.

(** After the password matched: access level, session, last access. *)
Definition concluir_login (amb : ambiente) (w : mundo)
    (logada : option sessao) (db_path : string) (b : gmap string tabela)
    (te : tabela) (empresa : gmap string valor)
    (tu : tabela) (usuario_encontrado : gmap string valor)
    : msg_login * mundo * option sessao :=
  match ler tu usuario_encontrado "tipo_acesso" with
  | inr (VTexto tipo_acesso) =>
      if negb (tipo_acesso_valido tipo_acesso)
      then (TipoDeAcessoInvalido, w, logada)
      else
        match montar_sessao te empresa tu usuario_encontrado with
        | inl _ => (ErroNoLogin, w, logada)
        | inr s =>
            match ler tu usuario_encontrado "id" with
            | inl _ => (ErroNoLogin, w, Some s)
            | inr vid =>
                match atualizar ["id"] [("ultimo_acesso", VTexto (agora amb))]
                        (igual "id" vid) tu with
                | inl _ => (ErroNoLogin, w, Some s)
                | inr tu' =>
                    (MenuPrincipal, gravar db_path (<["usuarios" := tu']> b) w,
                     Some s)
                end
            end
        end
  | _ => (ErroNoLogin, w, logada)
  end.

(** Once the store is open: the user, then the password. *)
Definition autenticar_usuario (amb : ambiente) (w : mundo)
    (logada : option sessao) (db_path : string) (b : gmap string tabela)
    (te : tabela) (empresa : gmap string valor) (senha usuario : string)
    : msg_login * mundo * option sessao :=
  match b !! "usuarios" with
  | None => (ErroNoLogin, w, logada)
  | Some tu =>
      match selecionar ["usuario"; "nome_completo"; "email"]
              (identifica usuario) tu with
      | inl _ => (ErroNoLogin, w, logada)
      | inr [] => (msg_sem_usuario tu, w, logada)
      | inr (usuario_encontrado :: _) =>
          match ler tu usuario_encontrado "senha" with
          | inl _ => (ErroNoLogin, w, logada)
          | inr vsenha =>
              if negb (bool_decide (vsenha = VTexto (hash_senha senha)))
              then (SenhaIncorreta, w, logada)
              else concluir_login amb w logada db_path b
                     te empresa tu usuario_encontrado
          end
      end
  end.

Definition fazer_login (amb : ambiente)
    (entry_nome entry_senha entry_admin : string)
    (w : mundo) (logada : option sessao) : msg_login * mundo * option sessao :=
  let nome := Texto.strip entry_nome in
  let senha := Texto.strip entry_senha in
  let usuario := Texto.strip entry_admin in
  if Texto.vazio nome || Texto.vazio senha || Texto.vazio usuario
  then (TodosOsCamposObrigatorios, w, logada)
  else
    match principal w !! "empresas" with
    | None => (ErroNoLogin, w, logada)
    | Some te =>
        match selecionar ["nome"] (igual "nome" (VTexto nome)) te with
        | inl _ => (ErroNoLogin, w, logada)
        | inr [] => (EmpresaNaoEncontrada, w, logada)
        | inr (empresa :: _) =>
            match ler te empresa "db_nome" with
            | inl _ => (ErroNoLogin, w, logada)
            | inr vdb =>
                let db_path := caminho_db (str_de vdb) in
                match arquivos w !! db_path with
                | None => (BancoNaoEncontrado, w, logada)
                | Some b =>
                    autenticar_usuario amb w logada db_path b te empresa
                      senha usuario
                end
            end
        end
    end.

(** *** [obter_conexao_empresa] *)

(** The path the connection is opened on and the world once the file
    exists; [None] when nobody is logged in; a [KeyError] without
    [db_nome]. *)
Definition obter_conexao_empresa (s : sessao) (w : mundo)
    : res (option (string * mundo)) :=
  if bool_decide (s = ∅) then inr None
  else match s !! "db_nome" with
       | None => inl OutraExcecao
       | Some v =>
           let p := caminho_db (str_de v) in
           inr (Some (p, gravar p (abrir w p) w))
       end.

(** *** [excluir_usuario] *)

Inductive msg_excluir : Type :=
  | SelecioneUmUsuario
  | NaoPodeExcluirAdministrador
  | ExclusaoCancelada
  | UsuarioExcluido
  | ErroAoExcluir.

Definition excluir_usuario (usuario_atual : string) (confirmacao : bool)
    (s : sessao) (w : mundo) : msg_excluir * mundo :=
  if Texto.vazio usuario_atual then (SelecioneUmUsuario, w)
  else if bool_decide (s !! "admin_user" = Some (VTexto usuario_atual))
  then (NaoPodeExcluirAdministrador, w)
  else if negb confirmacao then (ExclusaoCancelada, w)
  else
    match obter_conexao_empresa s w with
    | inl _ | inr None => (ErroAoExcluir, w)
    | inr (Some (p, w1)) =>
        match alterar_tabela "usuarios"
                (apagar ["usuario"] (igual "usuario" (VTexto usuario_atual)))
                (abrir w1 p) with
        | inl _ => (ErroAoExcluir, w1)
        | inr b' => (UsuarioExcluido, gravar p b' w1)
        end
    end.

(** *** [salvar_usuario] (the second definition) *)

Inductive msg_usuario : Type :=
  | JanelaFechada
  | PreenchaCamposObrigatorios
  | CodigoDaEmpresaInvalido
  | FormatoDeEmailInvalido
  | SenhaComMenosDeSeis
  | ApenasCeoCadastraAdministradores
  | ApenasCeoEAdministradoresCadastramGerentes
  | UsuarioCadastrado
  | EmailJaCadastrado
  | BancoDesatualizado
  | ErroNoBanco
  | ErroInesperado.

(** The form of the user window. *)
Record dados_usuario : Type := Dados {
  d_cod_empresa : string;
  d_empresa_nome : string;
  d_usuario : string;
  d_nome : string;
  d_supervisor : string;
  d_turno : string;
  d_email : string;
  d_senha : string;
  d_tipo : string }.

Definition campos_obrigatorios (d : dados_usuario) : list string :=
  [ d_cod_empresa d; d_usuario d; d_nome d; d_supervisor d; d_turno d;
    d_email d; d_senha d; d_tipo d ].

(** [tipo_atual]: the access level of the row whose [usuario] is the
    session's [nome], ['CEO'] when there is none. *)
Definition tipo_atual_de (linhas : list (gmap string valor)) : valor :=
  match linhas with
  | l :: _ => campo l "tipo_acesso"
  | [] => VTexto "CEO"
  end.

(** The two tests of the hierarchy; [None] lets the insertion proceed. *)
Definition hierarquia (tipo_atual : valor) (tipo : string) : option msg_usuario :=
  if negb (bool_decide (tipo_atual = VTexto "CEO"))
     && bool_decide (tipo ∈ ["CEO"; "Administrador"])
  then Some ApenasCeoCadastraAdministradores
  else if negb (bool_decide (tipo_atual ∈ [VTexto "CEO"; VTexto "Administrador"]))
          && bool_decide (tipo = "Gerente")
  then Some ApenasCeoEAdministradoresCadastramGerentes
  else None.

Definition linha_usuario (d : dados_usuario) (criado_por : valor)
    : list (string * valor) :=
  [ ("codigo_empresa", VTexto (d_cod_empresa d));
    ("empresa_nome", VTexto (d_empresa_nome d));
    ("usuario", VTexto (d_usuario d));
    ("nome_completo", VTexto (d_nome d));
    ("nome_supervisor", VTexto (d_supervisor d));
    ("turno", VTexto (d_turno d));
    ("email", VTexto (d_email d));
    ("senha", VTexto (hash_senha (d_senha d)));
    ("tipo_acesso", VTexto (d_tipo d));
    ("criado_por", criado_por) ].

(** The handlers of [salvar_usuario]. *)
Definition msg_de_excecao_usuario (e : excecao) : msg_usuario :=
  match e with
  | IntegrityError => EmailJaCadastrado
  | OperationalError SemColuna => BancoDesatualizado
  | OperationalError _ => ErroNoBanco
  | _ => ErroInesperado
  end.

Definition salvar_usuario (amb : ambiente) (janela_aberta : bool)
    (d : dados_usuario) (s : sessao) (w : mundo) : msg_usuario * mundo :=
  if negb janela_aberta then (JanelaFechada, w)
  else if existsb Texto.vazio (campos_obrigatorios d)
  then (PreenchaCamposObrigatorios, w)
  else if bool_decide (d_empresa_nome d = "Empresa não encontrada!")
  then (CodigoDaEmpresaInvalido, w)
  else if negb (Regex.casa Regex.re_email (d_email d))
  then (FormatoDeEmailInvalido, w)
  else if (Texto.len (d_senha d) <? 6)%nat then (SenhaComMenosDeSeis, w)
  else
    match obter_conexao_empresa s w with
    | inl _ | inr None => (ErroInesperado, w)
    | inr (Some (p, w1)) =>
        let b := abrir w1 p in
        match s !! "nome" with
        | None => (ErroInesperado, w1)
        | Some vnome =>
            match em_tabela "usuarios"
                    (selecionar ["tipo_acesso"; "usuario"] (igual "usuario" vnome)) b with
            | inl e => (msg_de_excecao_usuario e, w1)
            | inr linhas =>
                match hierarquia (tipo_atual_de linhas) (d_tipo d) with
                | Some m => (m, w1)
                | None =>
                    match alterar_tabela "usuarios"
                            (inserir (agora amb) (linha_usuario d vnome)) b with
                    | inl e => (msg_de_excecao_usuario e, w1)
                    | inr b' => (UsuarioCadastrado, gravar p b' w1)
                    end
                end
            end
        end
    end.

(** *** [atualizar_empresa] *)

Inductive msg_empresa : Type :=
  | RazaoSocialObrigatoria
  | DadosAtualizados
  | ErroAoAtualizar.

Definition atualizar_empresa (nome cnpj endereco telefone : string)
    (s : sessao) (w : mundo) : msg_empresa * mundo * sessao :=
  if Texto.vazio nome then (RazaoSocialObrigatoria, w, s)
  else
    match s !! "id" with
    | None => (ErroAoAtualizar, w, s)
    | Some vid =>
        match alterar_tabela "empresas"
                (atualizar ["id"]
                   [ ("nome", VTexto nome); ("cnpj", VTexto cnpj);
                     ("endereco", VTexto endereco);
                     ("telefone", VTexto telefone) ]
                   (igual "id" vid))
                (principal w) with
        | inl _ => (ErroAoAtualizar, w, s)
        | inr b' =>
            (DadosAtualizados, gravar_principal b' w,
             <["telefone" := VTexto telefone]>
               (<["endereco" := VTexto endereco]>
                  (<["cnpj" := VTexto cnpj]>
                     (<["nome" := VTexto nome]> s))))
        end
    end.

End App.

(** ** Deposits and products

    The methods below open the store of the session, run their
    statements and catch [sqlite3.Error]; the identifiers they take are
    Python integers.  An [OverflowError] raised while the parameters are
    bound is not caught: it leaves the method, and nothing is written. *)

Module Estoque.
Import Sql Conexao Esquema App.

(** The columns [obter_deposito] and [listar_depositos] select. *)
Definition colunas_deposito : list string :=
  [ "id"; "nome"; "tipo"; "endereco"; "cidade"; "estado"; "cep";
    "responsavel_id"; "capacidade_total"; "status" ].

(** The dictionary built from a selected row. *)
Definition dicionario (cols : list string) (l : gmap string valor)
    : gmap string valor :=
  list_to_map ((fun c => (c, campo l c)) <$> cols).

(** [criar_deposito]: the [lastrowid], [None] when nobody is logged in or
    SQLite raises. *)
Definition criar_deposito (amb : ambiente)
    (nome tipo endereco cidade estado cep responsavel_id capacidade_total : valor)
    (s : sessao) (w : mundo) : res (option Z) * mundo :=
  match obter_conexao_empresa s w with
  | inl e => (inl e, w)
  | inr None => (inr None, w)
  | inr (Some (p, w1)) =>
      let b := abrir w1 p in
      match b !! "depositos" with
      | None => (inr None, w1)
      | Some t =>
          match com_parametros
                  [ nome; tipo; endereco; cidade; estado; cep; responsavel_id;
                    capacidade_total ]
                  (inserir (agora amb)
                     [ ("nome", nome); ("tipo", tipo); ("endereco", endereco);
                       ("cidade", cidade); ("estado", estado); ("cep", cep);
                       ("responsavel_id", responsavel_id);
                       ("capacidade_total", capacidade_total) ] t) with
          | inl OverflowError => (inl OverflowError, w1)
          | inl _ => (inr None, w1)
          | inr t' =>
              (inr (Some (t_seq t + 1)%Z),
               gravar p (<["depositos" := t']> b) w1)
          end
      end
  end.

Definition obter_deposito (deposito_id : Z) (s : sessao) (w : mundo)
    : res (option (gmap string valor)) * mundo :=
  match obter_conexao_empresa s w with
  | inl e => (inl e, w)
  | inr None => (inr None, w)
  | inr (Some (p, w1)) =>
      match com_parametros [VInt deposito_id]
              (em_tabela "depositos"
                 (selecionar colunas_deposito (igual "id" (VInt deposito_id)))
                 (abrir w1 p)) with
      | inr (l :: _) => (inr (Some (dicionario colunas_deposito l)), w1)
      | inl OverflowError => (inl OverflowError, w1)
      | _ => (inr None, w1)
      end
  end.

(** The [WHERE] clause [listar_depositos] builds from its filter. *)
Definition filtro_depositos (filtro : gmap string valor)
    (l : gmap string valor) : bool :=
  forallb (fun c => match filtro !! c with
                    | Some v => igual c v l
                    | None => true
                    end)
          [ "status"; "tipo"; "cidade" ].

(** The parameters that clause takes. *)
Definition parametros_filtro (filtro : gmap string valor) : list valor :=
  omap (fun c => filtro !! c) [ "status"; "tipo"; "cidade" ].

(** [listar_depositos]; no filter is the empty one. *)
Definition listar_depositos (filtro : gmap string valor) (s : sessao)
    (w : mundo) : res (list (gmap string valor)) * mundo :=
  match obter_conexao_empresa s w with
  | inl e => (inl e, w)
  | inr None => (inr [], w)
  | inr (Some (p, w1)) =>
      match com_parametros (parametros_filtro filtro)
              (em_tabela "depositos"
                 (selecionar colunas_deposito (filtro_depositos filtro))
                 (abrir w1 p)) with
      | inr ls => (inr (dicionario colunas_deposito <$> ls), w1)
      | inl OverflowError => (inl OverflowError, w1)
      | inl _ => (inr [], w1)
      end
  end.

Definition campos_permitidos : list string :=
  [ "nome"; "tipo"; "endereco"; "cidade"; "estado"; "cep";
    "responsavel_id"; "capacidade_total"; "status" ].

(** [atualizar_deposito]: the entries of [dados] under an allowed key go
    into the [UPDATE]. *)
Definition atualizar_deposito (deposito_id : Z) (dados : gmap string valor)
    (s : sessao) (w : mundo) : res bool * mundo :=
  match obter_conexao_empresa s w with
  | inl e => (inl e, w)
  | inr None => (inr false, w)
  | inr (Some (p, w1)) =>
      let updates :=
        filter (fun kv : string * valor => kv.1 ∈ campos_permitidos)
               (map_to_list dados) in
      match updates with
      | [] => (inr false, w1)
      | _ :: _ =>
          match com_parametros (updates.*2 ++ [VInt deposito_id])
                  (alterar_tabela "depositos"
                     (atualizar ["id"] updates (igual "id" (VInt deposito_id)))
                     (abrir w1 p)) with
          | inl OverflowError => (inl OverflowError, w1)
          | inl _ => (inr false, w1)
          | inr b' => (inr true, gravar p b' w1)
          end
      end
  end.

(** [excluir_deposito]: refused while a product is located in the
    deposit, a change of [status] otherwise. *)
Definition excluir_deposito (deposito_id : Z) (s : sessao) (w : mundo)
    : res bool * mundo :=
  match obter_conexao_empresa s w with
  | inl e => (inl e, w)
  | inr None => (inr false, w)
  | inr (Some (p, w1)) =>
      let b := abrir w1 p in
      match com_parametros [VInt deposito_id]
              (em_tabela "localizacao_produtos"
                 (selecionar ["deposito_id"]
                    (igual "deposito_id" (VInt deposito_id))) b) with
      | inl OverflowError => (inl OverflowError, w1)
      | inl _ => (inr false, w1)
      | inr (_ :: _) => (inr false, w1)
      | inr [] =>
          match alterar_tabela "depositos"
                  (atualizar ["id"] [("status", VTexto "inativo")]
                     (igual "id" (VInt deposito_id))) b with
          | inl _ => (inr false, w1)
          | inr b' => (inr true, gravar p b' w1)
          end
      end
  end.

(** [criar_produto]: the [lastrowid], [None] when nobody is logged in or
    SQLite raises. *)
Definition criar_produto (amb : ambiente)
    (codigo_barras sku nome descricao categoria marca quantidade
     quantidade_minima preco_custo preco_venda localizacao fornecedor : valor)
    (s : sessao) (w : mundo) : res (option Z) * mundo :=
  match obter_conexao_empresa s w with
  | inl e => (inl e, w)
  | inr None => (inr None, w)
  | inr (Some (p, w1)) =>
      let b := abrir w1 p in
      match b !! "produtos" with
      | None => (inr None, w1)
      | Some t =>
          match com_parametros
                  [ codigo_barras; sku; nome; descricao; categoria; marca;
                    quantidade; quantidade_minima; preco_custo; preco_venda;
                    localizacao; fornecedor ]
                  (inserir (agora amb)
                     [ ("codigo_barras", codigo_barras); ("sku", sku);
                       ("nome", nome); ("descricao", descricao);
                       ("categoria", categoria); ("marca", marca);
                       ("quantidade", quantidade);
                       ("quantidade_minima", quantidade_minima);
                       ("preco_custo", preco_custo);
                       ("preco_venda", preco_venda);
                       ("localizacao", localizacao);
                       ("fornecedor", fornecedor) ] t) with
          | inl OverflowError => (inl OverflowError, w1)
          | inl _ => (inr None, w1)
          | inr t' =>
              (inr (Some (t_seq t + 1)%Z),
               gravar p (<["produtos" := t']> b) w1)
          end
      end
  end.

(** The columns [obter_produto] selects. *)
Definition colunas_produto : list string :=
  [ "id"; "codigo_barras"; "sku"; "nome"; "descricao"; "categoria"; "marca";
    "quantidade"; "quantidade_minima"; "preco_custo"; "preco_venda";
    "localizacao"; "fornecedor"; "data_cadastro"; "ultima_atualizacao" ].

Definition obter_produto (produto_id : Z) (s : sessao) (w : mundo)
    : res (option (gmap string valor)) * mundo :=
  match obter_conexao_empresa s w with
  | inl e => (inl e, w)
  | inr None => (inr None, w)
  | inr (Some (p, w1)) =>
      match com_parametros [VInt produto_id]
              (em_tabela "produtos"
                 (selecionar colunas_produto (igual "id" (VInt produto_id)))
                 (abrir w1 p)) with
      | inr (l :: _) => (inr (Some (dicionario colunas_produto l)), w1)
      | inl OverflowError => (inl OverflowError, w1)
      | _ => (inr None, w1)
      end
  end.

(** [excluir_produto]: refused while a stock movement or an order item
    names the product, a [DELETE] otherwise. *)
Definition excluir_produto (produto_id : Z) (s : sessao) (w : mundo)
    : res bool * mundo :=
  match obter_conexao_empresa s w with
  | inl e => (inl e, w)
  | inr None => (inr false, w)
  | inr (Some (p, w1)) =>
      let b := abrir w1 p in
      match com_parametros [VInt produto_id]
              (em_tabela "movimentacoes_estoque"
                 (selecionar ["produto_id"]
                    (igual "produto_id" (VInt produto_id))) b) with
      | inl OverflowError => (inl OverflowError, w1)
      | inl _ => (inr false, w1)
      | inr (_ :: _) => (inr false, w1)
      | inr [] =>
          match em_tabela "itens_pedido"
                  (selecionar ["produto_id"]
                     (igual "produto_id" (VInt produto_id))) b with
          | inl _ => (inr false, w1)
          | inr (_ :: _) => (inr false, w1)
          | inr [] =>
              match alterar_tabela "produtos"
                      (apagar ["id"] (igual "id" (VInt produto_id))) b with
              | inl _ => (inr false, w1)
              | inr b' => (inr true, gravar p b' w1)
              end
          end
      end
  end.

End Estoque.

(** ** Well-formed stores

    What the theorems assume of the files they read: the tables carry the
    declarations the source gives them and the rows hold values of the
    declared kinds. *)

Module Forma.
Import Sql Esquema App.

#[global] Instance tipo_eq_dec : EqDecision tipo.
Proof. solve_decision. Defined.

#[global] Instance padrao_eq_dec : EqDecision padrao.
Proof. solve_decision. Defined.

#[global] Instance coluna_eq_dec : EqDecision coluna.
Proof. solve_decision. Defined.

#[global] Instance tabela_eq_dec : EqDecision tabela.
Proof. solve_decision. Defined.

#[global] Instance mundo_eq_dec : EqDecision mundo.
Proof. solve_decision. Defined.

#[global] Instance motivo_eq_dec : EqDecision motivo.
Proof. solve_decision. Defined.

#[global] Instance excecao_eq_dec : EqDecision excecao.
Proof. solve_decision. Defined.

#[global] Instance msg_cadastro_eq_dec : EqDecision msg_cadastro.
Proof. solve_decision. Defined.

#[global] Instance msg_login_eq_dec : EqDecision msg_login.
Proof. solve_decision. Defined.

#[global] Instance msg_excluir_eq_dec : EqDecision msg_excluir.
Proof. solve_decision. Defined.

#[global] Instance msg_usuario_eq_dec : EqDecision msg_usuario.
Proof. solve_decision. Defined.

#[global] Instance msg_empresa_eq_dec : EqDecision msg_empresa.
Proof. solve_decision. Defined.

(** ASCII text, the scope of the character classes of [Texto]. *)
Definition eh_ascii (c : ascii) : bool := (Texto.cod c <? 128)%N.

(** The directory table has the columns [fazer_login] reads. *)
Definition diretorio_legivel (te : tabela) : bool :=
  forallb (tem_coluna te) ["id"; "nome"; "logo_path"; "db_nome"].

(** The table [usuarios] as [criar_banco_empresa] declares it. *)
Definition usuarios_declarada (tu : tabela) : bool :=
  bool_decide (t_colunas tu = usuarios)
  && bool_decide (t_check tu = check_usuarios).

(** A row of [usuarios] as SQLite keeps it: the [id] is an integer.  An
    access level that is a text is in ASCII, where [Texto.upper] is
    Python's [upper()]. *)
Definition linha_de_usuario (l : gmap string valor) : bool :=
  match campo l "id" with
  | VInt _ =>
      match campo l "tipo_acesso" with
      | VTexto papel => Texto.todos eh_ascii papel
      | _ => true
      end
  | _ => false
  end.

(** The user table a login reads is the declared one and holds such
    rows.  Nothing is asked of the access levels themselves. *)
Definition usuarios_legivel (tu : tabela) : bool :=
  usuarios_declarada tu && forallb linha_de_usuario (t_linhas tu).

(** *** What a login is expected to do, said without the code *)

(** The directory row is the company's: its name is [nome]. *)
Definition eh_empresa (nome : string) (l : gmap string valor) : Prop :=
  l !! "nome" = Some (VTexto nome).

#[global] Instance eh_empresa_dec (nome : string) (l : gmap string valor) :
  Decision (eh_empresa nome l).
Proof. unfold eh_empresa. apply _. Defined.

(** The identifier names the user: it is the login name, the full name
    or the e-mail of the row. *)
Definition nomeia (usuario : string) (l : gmap string valor) : Prop :=
  l !! "usuario" = Some (VTexto usuario)
  \/ l !! "nome_completo" = Some (VTexto usuario)
  \/ l !! "email" = Some (VTexto usuario).

#[global] Instance nomeia_dec (usuario : string) (l : gmap string valor) :
  Decision (nomeia usuario l).
Proof. unfold nomeia. apply _. Defined.

(** The path of the store a directory row names, its [db_nome] written
    into the path as an f-string writes a value. *)
Definition caminho_da_loja (empresa : gmap string valor) : string :=
  "deposito_empresas/"
  +:+ match empresa !! "db_nome" with
      | Some (VTexto db) => db
      | Some (VInt n) => pretty n
      | _ => "None"
      end
  +:+ ".db".

(** The access level is one of the four, in any letter case. *)
Definition nivel_aceito (papel : string) : Prop :=
  Exists (fun nivel => Texto.upper papel = Texto.upper nivel) tipos_acesso.

#[global] Instance nivel_aceito_dec (papel : string) :
  Decision (nivel_aceito papel).
Proof. unfold nivel_aceito. apply _. Defined.

(** What the session holds under a key the directory may lack. *)
Definition dado_da_empresa (te : tabela) (empresa : gmap string valor)
    (c : string) : valor :=
  if tem_coluna te c then campo empresa c else VTexto EmptyString.

(** [UPDATE usuarios SET ultimo_acesso = CURRENT_TIMESTAMP WHERE id = vid],
    on the rows. *)
Definition carimbar (agora : string) (vid : valor)
    (ls : list (gmap string valor)) : list (gmap string valor) :=
  (fun l => if igual "id" vid l
            then <["ultimo_acesso" := VTexto agora]> l else l) <$> ls.

(** The form passes the validations of [salvar_usuario]: no required
    field empty, a company found for the code, an e-mail in ASCII of the
    accepted shape, a password of six characters or more. *)
Definition dados_validos (d : dados_usuario) : bool :=
  negb (existsb Texto.vazio (campos_obrigatorios d))
  && negb (bool_decide (d_empresa_nome d = "Empresa não encontrada!"))
  && Texto.todos eh_ascii (d_email d)
  && Regex.casa Regex.re_email (d_email d)
  && negb (Texto.len (d_senha d) <? 6)%nat.

(** The row is named like the company: its login name is [nome]. *)
Definition homonimo (nome : string) (l : gmap string valor) : Prop :=
  l !! "usuario" = Some (VTexto nome).

#[global] Instance homonimo_dec (nome : string) (l : gmap string valor) :
  Decision (homonimo nome l).
Proof. unfold homonimo. apply _. Defined.

(** The access level of the first row named like the company, CEO when
    there is none. *)
Definition nivel_da_homonima (nome : string) (tu : tabela) : valor :=
  match filter (homonimo nome) (t_linhas tu) with
  | l :: _ => default VNull (l !! "tipo_acesso")
  | [] => VTexto "CEO"
  end.

(** What the [INSERT] of [salvar_usuario] makes of the call once the
    hierarchy let it through. *)
Definition resultado_insercao (amb : ambiente) (d : dados_usuario)
    (vnome : valor) (p : string) (b : gmap string tabela) (tu : tabela)
    (w : mundo) : msg_usuario * mundo :=
  match inserir (agora amb) (linha_usuario d vnome) tu with
  | inl e => (msg_de_excecao_usuario e, w)
  | inr tu' => (UsuarioCadastrado, gravar p (<["usuarios" := tu']> b) w)
  end.

(** A script run on a file while the environment raises nothing: what it
    returns and the file it leaves. *)
Definition rodar {A : Type} (m : Conexao.M A) (b : gmap string tabela)
    : res A * gmap string tabela :=
  let r := m (Conexao.Con b None) in (r.1, Conexao.db r.2).

(** One [ALTER TABLE usuarios ADD COLUMN] inside its [try]: the column is
    added unless the statement raises. *)
Definition migrar_coluna (b : gmap string tabela) (c : string)
    : gmap string tabela :=
  match alterar_tabela "usuarios"
          (adicionar_coluna (col_nn_def c TText (texto EmptyString))) b with
  | inr b' => b'
  | inl _ => b
  end.

(** The file the statements of [criar_banco_empresa] leave. *)
Definition esquema_final (b : gmap string tabela) : gmap string tabela :=
  let b1 := criar_se_ausente "produtos" produtos [] b in
  let b2 := if tabela_existe "usuarios" b1
            then foldl migrar_coluna b1 colunas_necessarias
            else <["usuarios" := tabela_vazia usuarios check_usuarios]> b1 in
  foldl (fun b nc => criar_se_ausente nc.1 nc.2 [] b) b2 tabelas_comuns.

(** [t'] is [t] with columns added at the end: same constraints and
    counter, the rows in the same order, each with the values it had in
    the columns of [t]. *)
Definition estende (t t' : tabela) : Prop :=
  t_seq t' = t_seq t
  /\ t_check t' = t_check t
  /\ t_colunas t `prefix_of` t_colunas t'
  /\ length (t_linhas t') = length (t_linhas t)
  /\ forall (i : nat) (l : gmap string valor),
       t_linhas t !! i = Some l ->
       exists l', t_linhas t' !! i = Some l'
                  /\ forall c, tem_coluna t c = true -> l' !! c = l !! c.

(** The user table a login to company [nome] reads: the one in the store
    of the first directory row of that name. *)
Definition usuarios_da_empresa (w : mundo) (nome : string) : option tabela :=
  te ← principal w !! "empresas";
  empresa ← head (filter (eh_empresa nome) (t_linhas te));
  b ← arquivos w !! caminho_da_loja empresa;
  b !! "usuarios".

(** The row the identifier selects: the first one it names. *)
Definition usuario_encontrado (tu : tabela) (usuario : string)
    : option (gmap string valor) :=
  head (filter (nomeia usuario) (t_linhas tu)).

(** *** Relations between files and worlds used by the later properties *)

(** Every statement of the script [m] takes a file to one related by
    [R], whatever the environment raises and wherever the script
    stops. *)
Definition passo (R : relation (gmap string tabela)) {A : Type}
    (m : Conexao.M A) : Prop :=
  forall c, R (Conexao.db c) (Conexao.db (m c).2).

(** Every table of [b] is in [b'], extended. *)
Definition conserva (b b' : gmap string tabela) : Prop :=
  forall (n : string) (t : tabela),
    b !! n = Some t -> exists t', b' !! n = Some t' /\ estende t t'.

(** The file has the nine tables and [usuarios] the columns the
    migration adds. *)
Definition completo (b : gmap string tabela) : Prop :=
  is_Some (b !! "produtos")
  /\ (exists tu, b !! "usuarios" = Some tu
                 /\ Forall (fun c => tem_coluna tu c = true) colunas_necessarias)
  /\ Forall (fun nc : string * list coluna => is_Some (b !! nc.1)) tabelas_comuns.

(** The user table of a file is absent or as [criar_banco_empresa]
    creates it, without a row. *)
Definition usuarios_nova (b : gmap string tabela) : Prop :=
  forall t, b !! "usuarios" = Some t -> t = tabela_vazia usuarios check_usuarios.

(** The same of the file at path [p], when there is one. *)
Definition loja_nova (p : string) (w : mundo) : Prop :=
  forall b, arquivos w !! p = Some b -> usuarios_nova b.

(** No two rows hold the same value, other than [NULL], in column [c]. *)
Definition unico_em (c : string) (ls : list (gmap string valor)) : Prop :=
  forall (i j : nat) (li lj : gmap string valor),
    ls !! i = Some li -> ls !! j = Some lj -> i ≠ j ->
    campo li c ≠ VNull -> campo li c ≠ campo lj c.

(** The directory declares [nome] and [db_nome] as
    [criar_banco_principal] does: [TEXT UNIQUE NOT NULL]. *)
Definition diretorio_unico (te : tabela) : Prop :=
  col_unn "nome" TText ∈ t_colunas te /\ col_unn "db_nome" TText ∈ t_colunas te.

(** [b'] is [b] but for the column [ultimo_acesso] of the rows of
    [usuarios]. *)
Definition so_ultimo_acesso (b b' : gmap string tabela) : Prop :=
  (forall n, n ≠ "usuarios" -> b' !! n = b !! n)
  /\ (b !! "usuarios" = None -> b' !! "usuarios" = None)
  /\ forall tu, b !! "usuarios" = Some tu ->
       exists tu',
         b' !! "usuarios" = Some tu'
         /\ t_colunas tu' = t_colunas tu
         /\ t_check tu' = t_check tu
         /\ t_seq tu' = t_seq tu
         /\ length (t_linhas tu') = length (t_linhas tu)
         /\ forall (i : nat) (l : gmap string valor),
              t_linhas tu !! i = Some l ->
              exists l', t_linhas tu' !! i = Some l'
                         /\ forall c, c ≠ "ultimo_acesso" -> l' !! c = l !! c.

(** The row holds one of the four access levels. *)
Definition papel_valido (l : gmap string valor) : bool :=
  match campo l "tipo_acesso" with
  | VTexto s => bool_decide (s ∈ tipos_acesso)
  | _ => false
  end.

(** The user table of a file, when it has one, carries the [CHECK] of
    the source and every row one of the four access levels. *)
Definition papeis_da_loja (b : gmap string tabela) : bool :=
  match b !! "usuarios" with
  | Some tu => bool_decide (t_check tu = check_usuarios)
               && forallb papel_valido (t_linhas tu)
  | None => true
  end.

(** The same of every file on disk. *)
Definition papeis_no_disco (w : mundo) : Prop :=
  map_Forall (fun _ b => papeis_da_loja b = true) (arquivos w).

(** A lower-case letter, a digit or the underscore. *)
Definition eh_identificador (c : ascii) : bool :=
  Texto.eh_minuscula c || Texto.eh_digito c || (Texto.cod c =? 95)%N.

(** [w'] differs from [w] on disk at most at the store of [db_nome] and
    at its alternative paths. *)
Definition so_a_loja (db_nome : string) (w w' : mundo) : Prop :=
  forall q : string,
    q ≠ caminho_db db_nome ->
    (forall t : Z, q ≠ caminho_alternativo db_nome t) ->
    arquivos w' !! q = arquivos w !! q.

(** A table with the columns [cs] and no [CHECK], as the schema
    statements create the stock tables. *)
Definition declarada (cs : list coluna) (t : tabela) : bool :=
  bool_decide (t_colunas t = cs) && bool_decide (t_check t = []).

(** The rows after the [UPDATE] of [excluir_deposito]. *)
Definition inativar (deposito_id : Z) (l : gmap string valor)
    : gmap string valor :=
  if igual "id" (VInt deposito_id) l
  then <["status" := VTexto "inativo"]> l else l.

(** A value SQLite stores as it is given in a column of type [ty]:
    [NULL], a text in a [TEXT] column, an integer of 64 bits in an
    [INTEGER] column. *)
Definition guardado_como_dado (ty : tipo) (v : valor) : bool :=
  match v, ty with
  | VNull, _ => true
  | VTexto _, TText => true
  | VInt n, TInteger => int64 n
  | _, _ => false
  end.

(** The same of the values given for columns of [cs], by name. *)
Definition bem_tipados (cs : list coluna) (vals : list (string * valor))
    : bool :=
  forallb (fun kv : string * valor =>
             existsb (fun c => bool_decide (c_nome c = kv.1)
                               && guardado_como_dado (c_tipo c) kv.2) cs)
          vals.

(** The identifiers of the rows are integers the counter has passed, as
    [AUTOINCREMENT] keeps them. *)
Definition ids_contados (t : tabela) : Prop :=
  Forall (fun l => exists n : Z, campo l "id" = VInt n /\ (n <= t_seq t)%Z)
         (t_linhas t).

(** *** What provisioning is expected to do, said without the code *)

(** The row's access level is [papel]. *)
Definition tem_nivel (papel : string) (l : gmap string valor) : Prop :=
  l !! "tipo_acesso" = Some (VTexto papel).

#[global] Instance tem_nivel_dec (papel : string) (l : gmap string valor) :
  Decision (tem_nivel papel l).
Proof. unfold tem_nivel. apply _. Defined.

(** The marks of a name in ASCII: its letters, digits and underscores,
    the letters in lower case, and [None] for every other character. *)
Fixpoint marcas (s : string) : list (option ascii) :=
  match s with
  | EmptyString => []
  | String c r =>
      (if Texto.eh_palavra c then Some (Texto.lower_c c) else None) :: marcas r
  end.

(** Every run of [None] shortened to one. *)
Fixpoint uma_por_seq (l : list (option ascii)) : list (option ascii) :=
  match l with
  | [] => []
  | x :: r =>
      match x, r with
      | None, None :: _ => uma_por_seq r
      | _, _ => x :: uma_por_seq r
      end
  end.

(** The marks written out, an underscore for [None]. *)
Fixpoint escrever (l : list (option ascii)) : string :=
  match l with
  | [] => EmptyString
  | x :: r => String (default "_"%char x) (escrever r)
  end.

(** The token of a name: lower case, one underscore for each run of
    characters that are no letter, digit or underscore. *)
Definition ficha (nome : string) : string :=
  escrever (uma_por_seq (marcas nome)).

(** The store name of a company name: the token, an underscore and the
    first six hexadecimal digits of the SHA-256 digest of the name. *)
Definition nome_da_loja (nome : string) : string :=
  ficha nome +:+ "_" +:+ Texto.prefixo 6 (Sha256.hexdigest nome).


(** The names of the tables of the file and of their columns hold no
    capital letter, as the statements of the source write them.  SQLite
    compares such names without regard to the case of the ASCII letters;
    on names without capitals that is equality. *)
Definition sem_maiusculas (s : string) : bool :=
  Texto.todos (fun c => negb (Texto.eh_maiuscula c)) s.

Definition nomes_em_minusculas (b : gmap string tabela) : Prop :=
  map_Forall (fun (n : string) (t : tabela) =>
                sem_maiusculas n = true
                /\ Forall (fun c => sem_maiusculas (c_nome c) = true)
                          (t_colunas t))
             b.

(** The columns of [cs] that table [t] lacks. *)
Definition em_falta (cs : list string) (t : tabela) : list string :=
  filter (fun c => c ∉ nomes t) cs.

(** [t] with the columns [cs] added after its own, each
    [TEXT NOT NULL DEFAULT ''], the rows reading the empty text there
    and what they held elsewhere. *)
Definition acrescentar (cs : list string) (t : tabela) : tabela :=
  Tabela (t_colunas t
          ++ ((fun c => Coluna c TText true false (PadraoValor (VTexto EmptyString)))
                <$> cs))
         (t_check t)
         ((fun l => foldl (fun l c => <[c := VTexto EmptyString]> l) l cs)
            <$> t_linhas t)
         (t_seq t).

End Forma.

(** ** Scenarios used by the examples *)

Module Cenario.
Import Sql App.

(** An environment that raises nothing. *)
Definition amb0 : ambiente :=
  Ambiente "2024-01-01 10:00:00" "2024-01-01" (fun _ => 1700000000%Z) true
           (fun _ => None) (fun _ => None).

(** The seeding of the owner raises at the first attempt. *)
Definition amb_falha_semear : ambiente :=
  Ambiente "2024-01-01 10:00:00" "2024-01-01" (fun _ => 1700000000%Z) true
           (fun _ => None)
           (fun t => match t with O => Some OutraExcecao | _ => None end).

(** The fourth statement of the schema raises at the first attempt. *)
Definition amb_falha_esquema : ambiente :=
  Ambiente "2024-01-01 10:00:00" "2024-01-01" (fun _ => 1700000000%Z) true
           (fun t => match t with
                     | O => Some (4%nat, OperationalError Externo)
                     | _ => None
                     end)
           (fun _ => None).

(** A fresh installation, then the company Acme owned by [dono]. *)
Definition inicial : mundo :=
  Eval vm_compute in
    (criar_banco_principal (Mundo ∅ ∅ ∅)).

Definition acme : mundo :=
  Eval vm_compute in
    ((cadastrar_empresa amb0 "Acme" "segredo1" "dono" None inicial).2).

Definition banco_acme : string := caminho_db "acme_37036c".

(** The rows of [usuarios] in the file at path [p], as the listed columns. *)
Definition usuarios_em (p : string) (cs : list string) (w : mundo)
    : option (list (list valor)) :=
  t ← (arquivos w !! p ≫= (.!! "usuarios"));
  Some ((fun l => (fun c => campo l c) <$> cs) <$> t_linhas t).

Definition empresas_em (cs : list string) (w : mundo)
    : option (list (list valor)) :=
  t ← principal w !! "empresas";
  Some ((fun l => (fun c => campo l c) <$> cs) <$> t_linhas t).

Definition diretorio_de (w : mundo) : tabela :=
  default (tabela_vazia [] []) (principal w !! "empresas").

(** The session [fazer_login] leaves, empty when the login failed. *)
Definition sessao_de (r : msg_login * mundo * option sessao) : sessao :=
  default ∅ r.2.

Definition login_dono :=
  Eval vm_compute in
    (fazer_login amb0 "Acme" "segredo1" "dono" acme None).

(** The objects that login reads, by name. *)
Definition linha_acme : gmap string valor :=
  Eval vm_compute in
    (default ∅ (head (t_linhas (diretorio_de acme)))).

Definition loja_acme : gmap string tabela :=
  Eval vm_compute in
    (default ∅ (arquivos acme !! banco_acme)).

Definition usuarios_acme : tabela :=
  Eval vm_compute in
    (default (tabela_vazia [] []) (loja_acme !! "usuarios")).

Definition linha_dono : gmap string valor :=
  Eval vm_compute in
    (default ∅ (head (t_linhas usuarios_acme))).

(** Acme's store edited by hand: the owner's access level overwritten
    with one the [CHECK] constraint refuses. *)
Definition acme_visitante : mundo :=
  Eval vm_compute in
    (gravar banco_acme
       (<["usuarios" :=
            Tabela (t_colunas usuarios_acme) (t_check usuarios_acme)
              [<["tipo_acesso" := VTexto "Visitante"]> linha_dono]
              (t_seq usuarios_acme)]> loja_acme)
       acme).

Definition loja_visitante : gmap string tabela :=
  Eval vm_compute in
    (default ∅ (arquivos acme_visitante !! banco_acme)).

Definition usuarios_visitante : tabela :=
  Eval vm_compute in
    (default (tabela_vazia [] []) (loja_visitante !! "usuarios")).

Definition linha_visitante : gmap string valor :=
  Eval vm_compute in
    (default ∅ (head (t_linhas usuarios_visitante))).

(** Acme with an administrator and an operator besides the owner. *)
Definition dados_adm : dados_usuario :=
  Dados "1" "Acme" "adm" "Ana Dias" "dono" "Tarde" "adm@acme.com" "senha-adm"
        "Administrador".

Definition dados_op : dados_usuario :=
  Dados "1" "Acme" "op" "Oto Paz" "adm" "Noite" "op@acme.com" "senha-op"
        "Operador".

Definition acme3 : mundo :=
  Eval vm_compute in
    ((salvar_usuario amb0 true dados_op (sessao_de login_dono)
     (salvar_usuario amb0 true dados_adm (sessao_de login_dono)
        login_dono.1.2).2).2).

Definition login_op :=
  Eval vm_compute in
    (fazer_login amb0 "Acme" "senha-op" "op" acme3 None).

Definition login_adm :=
  Eval vm_compute in
    (fazer_login amb0 "Acme" "senha-adm" "adm" acme3 None).

Definition dados_adm2 : dados_usuario :=
  Dados "1" "Acme" "bia" "Bia Reis" "dono" "Manha" "bia@acme.com"
        "senha-bia" "Administrador".

(** A company whose owner's login is the company's name. *)
Definition beta : mundo :=
  Eval vm_compute in
    ((cadastrar_empresa amb0 "Beta" "segredo2" "Beta" None inicial).2).

Definition banco_beta : string :=
  Eval vm_compute in
    (caminho_db (db_nome_de "Beta")).

Definition login_beta :=
  Eval vm_compute in
    (fazer_login amb0 "Beta" "segredo2" "Beta" beta None).

Definition dados_ceo2 : dados_usuario :=
  Dados "1" "Beta" "socio" "Caio Reis" "Beta" "Tarde" "socio@beta.com"
        "senha-socio" "CEO".

Definition dados_gerente : dados_usuario :=
  Dados "1" "Beta" "ger" "Gil Luz" "Beta" "Tarde" "ger@beta.com"
        "senha-ger" "Gerente".

(** Beta once its owner is logged in. *)
Definition beta_logada : mundo :=
  Eval vm_compute in
    (login_beta.1.2).

Definition loja_beta : gmap string tabela :=
  Eval vm_compute in
    (default ∅ (arquivos beta_logada !! banco_beta)).

Definition usuarios_beta : tabela :=
  Eval vm_compute in
    (default (tabela_vazia [] []) (loja_beta !! "usuarios")).

(** Acme once its operator is logged in, and a form for a second CEO. *)
Definition acme3_logada : mundo :=
  Eval vm_compute in
    (login_op.1.2).

Definition loja_acme3 : gmap string tabela :=
  Eval vm_compute in
    (default ∅ (arquivos acme3_logada !! banco_acme)).

Definition usuarios_acme3 : tabela :=
  Eval vm_compute in
    (default (tabela_vazia [] []) (loja_acme3 !! "usuarios")).

Definition dados_ceo_acme : dados_usuario :=
  Dados "1" "Acme" "novo" "Nina Vaz" "dono" "Tarde" "novo@acme.com"
        "senha-novo" "CEO".

(** Acme once its owner is logged in, then with a deposit. *)
Definition sessao_dono : sessao :=
  Eval vm_compute in
    (sessao_de login_dono).

Definition acme_logada : mundo :=
  Eval vm_compute in
    (login_dono.1.2).

(** Acme once its owner registered an operator whose login name is the
    company's name, and a form for a manager. *)
Definition dados_homonimo : dados_usuario :=
  Dados "1" "Acme" "Acme" "Ari Melo" "dono" "Tarde" "ari@acme.com"
        "senha-ari" "Operador".

Definition acme_homonimo : mundo :=
  Eval vm_compute in
    ((salvar_usuario amb0 true dados_homonimo sessao_dono acme_logada).2).

Definition loja_homonimo : gmap string tabela :=
  Eval vm_compute in
    (default ∅ (arquivos acme_homonimo !! banco_acme)).

Definition usuarios_homonimo : tabela :=
  Eval vm_compute in
    (default (tabela_vazia [] []) (loja_homonimo !! "usuarios")).

Definition dados_gerente_acme : dados_usuario :=
  Dados "1" "Acme" "ger" "Gil Luz" "dono" "Tarde" "ger@acme.com"
        "senha-ger" "Gerente".

Definition loja_logada : gmap string tabela :=
  Eval vm_compute in
    (default ∅ (arquivos acme_logada !! banco_acme)).

Definition acme_dep : mundo :=
  Eval vm_compute in
    ((Estoque.criar_deposito amb0 (VTexto "Central") (VTexto "Geral")
        (VTexto "Rua A, 1") (VTexto "Recife") (VTexto "PE")
        (VTexto "50000-000") (VInt 1) VNull
        sessao_dono acme_logada).2).

Definition loja_dep : gmap string tabela :=
  Eval vm_compute in
    (default ∅ (arquivos acme_dep !! banco_acme)).

Definition tabela_de (b : gmap string tabela) (n : string) : tabela :=
  default (tabela_vazia [] []) (b !! n).

Definition depositos_logada : tabela :=
  Eval vm_compute in
    (tabela_de loja_logada "depositos").

Definition depositos_dep : tabela :=
  Eval vm_compute in
    (tabela_de loja_dep "depositos").

Definition localizacoes_dep : tabela :=
  Eval vm_compute in
    (tabela_de loja_dep "localizacao_produtos").

(** The same with a product, and a row of [localizacao_produtos], which
    no method of the source writes, placing it in the deposit.  The
    prices, whole numbers, stand for the floating-point numbers of the
    same value SQLite keeps in a [REAL] column. *)
Definition loja_prod : gmap string tabela :=
  Eval vm_compute in
    (let w := (Estoque.criar_produto amb0 (VTexto "789") (VTexto "P-1")
                 (VTexto "Parafuso") VNull VNull VNull (VInt 10) (VInt 2)
                 (VInt 1) (VInt 2) VNull VNull sessao_dono acme_dep).2 in
     let b := default ∅ (arquivos w !! banco_acme) in
     match alterar_tabela "localizacao_produtos"
             (inserir "2024-01-01 10:00:00"
                [ ("deposito_id", VInt 1); ("produto_id", VInt 1);
                  ("quantidade", VInt 10) ]) b with
     | inr b' => b'
     | inl _ => b
     end).

Definition acme_prod : mundo :=
  Eval vm_compute in
    (gravar banco_acme loja_prod acme_dep).

Definition produtos_prod : tabela :=
  Eval vm_compute in
    (tabela_de loja_prod "produtos").

Definition movimentacoes_prod : tabela :=
  Eval vm_compute in
    (tabela_de loja_prod "movimentacoes_estoque").

Definition itens_prod : tabela :=
  Eval vm_compute in
    (tabela_de loja_prod "itens_pedido").

Definition localizacoes_prod : tabela :=
  Eval vm_compute in
    (tabela_de loja_prod "localizacao_produtos").

(** A company whose name, in another spelling, derives the same store
    name. *)
Definition mercado : mundo :=
  Eval vm_compute in
    ((cadastrar_empresa amb0 "meRcaDo CEnTral" "segredo3" "ana" None
        inicial).2).

Definition linha_mercado : gmap string valor :=
  Eval vm_compute in
    (default ∅ (head (t_linhas (diretorio_de mercado)))).

Definition banco_mercado : string :=
  Eval vm_compute in
    (caminho_db (db_nome_de "meRcaDo CEnTral")).

(** The third statement of the schema raises [PermissionError] at the
    first attempt, which [cadastrar_empresa] then repeats. *)
Definition amb_repete : ambiente :=
  Ambiente "2024-01-02 09:00:00" "2024-01-02" (fun _ => 1700086400%Z) true
           (fun t => match t with
                     | O => Some (3%nat, PermissionError)
                     | _ => None
                     end)
           (fun _ => None).

(** A store of an older version: its user table lacks the five columns
    the migration adds and holds one row. *)
Definition usuarios_antiga : tabela :=
  Tabela [ col_id; col_nn "nome_completo" TText; col_unn "email" TText;
           col_nn "senha" TText; col_nn "tipo_acesso" TText ]
         Esquema.check_usuarios
         [ list_to_map [ ("id", VInt 1); ("nome_completo", VTexto "Ana Dias");
                         ("email", VTexto "ana@acme.com");
                         ("senha", VTexto "c0ffee");
                         ("tipo_acesso", VTexto "CEO") ] ]
         1.

Definition loja_antiga : gmap string tabela :=
  list_to_map [ ("usuarios", usuarios_antiga) ].

(** A second company beside Acme, registered at the second attempt from
    fields typed with blanks around them. *)
Definition acme_e_sol : mundo :=
  Eval vm_compute in
    ((cadastrar_empresa amb_repete "  Sol Nascente " "segredo5 " " lia"
        None acme).2).

Definition diretorio_acme_e_sol : tabela :=
  Eval vm_compute in (diretorio_de acme_e_sol).

End Cenario.

(** * Properties *)

Import Sql Conexao Esquema App Forma.

(** A closed decidable statement, settled by evaluation. *)
Ltac calcular := apply (bool_decide_unpack _); vm_compute; exact I.

(** In [H], the closed term [t] replaced by its value [v], and the
    [match] on it taken. *)
Ltac avaliar t v H :=
  replace t with v in H by calcular; cbv beta iota in H.

(** In [H], the test of the closed decidable statement [P] taken on the
    side that holds. *)
Ltac decidir P H :=
  let Hp := fresh "Hdec" in
  destruct (decide P) as [Hp|Hp] in H;
  [ try (exfalso; revert Hp; calcular)
  | try (exfalso; apply Hp; calcular) ];
  clear Hp; cbv beta iota in H.

(** ** The library functions on known inputs *)

Example sha256_abc :
  Sha256.hexdigest "abc"
  = "ba7816bf8f01cfea414140de5dae2223b00361a396177a9cb410ff61f20015ad".
Proof. vm_compute. reflexivity. Qed.

Example sha256_vazio :
  Sha256.hexdigest EmptyString
  = "e3b0c44298fc1c149afbf4c8996fb92427ae41e4649b934ca495991b7852b855".
Proof. vm_compute. reflexivity. Qed.

(** A message of 56 bytes needs a second block. *)
Example sha256_dois_blocos :
  Sha256.hexdigest "abcdbcdecdefdefgefghfghighijhijkijkljklmklmnlmnomnopnopq"
  = "248d6a61d20638b8e5c026930c3e6039a33ce45964ff2167f6ecedd419db06c1".
Proof. vm_compute. reflexivity. Qed.

Example db_nome_acme : db_nome_de "Acme" = "acme_37036c".
Proof. vm_compute. reflexivity. Qed.

Example sub_nao_palavra_ex :
  Texto.sub_nao_palavra false "  A--b  c!" = "_A_b_c_".
Proof. reflexivity. Qed.

Example strip_ex : Texto.strip "  a b  " = "a b".
Proof. reflexivity. Qed.

(** [strip()] removes the whitespace of Unicode, here a no-break space
    (U+00A0) and an em space (U+2003), and [len()] counts characters, not
    bytes. *)
Example strip_unicode :
  Texto.strip (Texto.de_bytes [32; 194; 160; 97; 32; 98; 226; 128; 131; 10]%N)
  = "a b".
Proof. vm_compute. reflexivity. Qed.

Example len_ex : Texto.len "çççç" = 4%nat /\ String.length "çççç" = 8%nat.
Proof. split; reflexivity. Qed.

Example re_email_ex :
  Regex.casa Regex.re_email "a.b@c-d.com" = true
  /\ Regex.casa Regex.re_email "a@b" = false
  /\ Regex.casa Regex.re_email "a@b.c@d.e" = false.
Proof. calcular. Qed.

(** ** A registration and a login, end to end *)

Example cadastro_acme :
  (cadastrar_empresa Cenario.amb0 "Acme" "segredo1" "dono" None Cenario.inicial).1
  = CadastradaComSucesso
  /\ Cenario.empresas_em ["id"; "nome"; "db_nome"; "admin_user"] Cenario.acme
     = Some [[VInt 1; VTexto "Acme"; VTexto "acme_37036c"; VTexto "dono"]]
  /\ Cenario.usuarios_em Cenario.banco_acme
       ["id"; "usuario"; "email"; "tipo_acesso"; "criado_por"] Cenario.acme
     = Some [[VInt 1; VTexto "dono"; VTexto "dono@acme.com"; VTexto "CEO";
              VTexto "SISTEMA"]].
Proof. calcular. Qed.

Example login_acme :
  Cenario.login_dono.1.1 = MenuPrincipal
  /\ Cenario.sessao_de Cenario.login_dono !! "usuario" = Some (VTexto "dono")
  /\ Cenario.sessao_de Cenario.login_dono !! "tipo_acesso" = Some (VTexto "CEO")
  /\ Cenario.usuarios_em Cenario.banco_acme ["usuario"; "ultimo_acesso"]
       Cenario.login_dono.1.2
     = Some [[VTexto "dono"; VTexto "2024-01-01 10:00:00"]].
Proof. calcular. Qed.

(** A password of four characters in eight bytes is too short, and a
    password typed with a no-break space after it logs in. *)
Example senha_em_unicode :
  (cadastrar_empresa Cenario.amb0 "Acme" "çççç" "dono" None Cenario.inicial).1
  = SenhaCurta
  /\ (fazer_login Cenario.amb0 "Acme"
        ("segredo1" +:+ Texto.de_bytes [194; 160]%N) "dono" Cenario.acme None).1.1
     = MenuPrincipal.
Proof. calcular. Qed.

(** ** Registering a name twice *)

(** C3 (evaluation at the failing input).  Acme is registered and its
    store holds the owner's row.  Registering the name Acme again is
    refused with "Empresa já cadastrada!" and leaves the directory as it
    was, but the store of the registered company has been removed from
    disk: [os.remove(db_path)] runs before the duplicate check. *)
Theorem cadastro_duplicado_remove_banco :
  let r := cadastrar_empresa Cenario.amb0 "Acme" "outrasenha" "intruso" None
             Cenario.acme in
  Cenario.usuarios_em Cenario.banco_acme ["usuario"; "tipo_acesso"] Cenario.acme
    = Some [[VTexto "dono"; VTexto "CEO"]]
  /\ r.1 = EmpresaJaCadastrada
  /\ principal r.2 = principal Cenario.acme
  /\ arquivos r.2 !! Cenario.banco_acme = None
  /\ arquivos r.2 = ∅.
Proof. cbv zeta. calcular. Qed.

(** ** Provisioning that fails *)

(** C4 (evaluation at the failing input).  When the insertion of the owner
    raises, the registration reports "Erro ao criar usuário
    administrador" and returns: the company's row stays in the directory,
    already committed, the store file stays on disk with its tables and no
    user, and logging in to the company finds no user. *)
Theorem cadastro_falho_deixa_empresa_e_banco :
  let r := cadastrar_empresa Cenario.amb_falha_semear "Acme" "segredo1" "dono"
             None Cenario.inicial in
  r.1 = ErroAoCriarAdministrador
  /\ Cenario.empresas_em ["nome"; "db_nome"] r.2
     = Some [[VTexto "Acme"; VTexto "acme_37036c"]]
  /\ Cenario.usuarios_em Cenario.banco_acme ["usuario"] r.2 = Some []
  /\ (fazer_login Cenario.amb0 "Acme" "segredo1" "dono" r.2 None).1.1
     = NenhumUsuarioCadastrado.
Proof. cbv zeta. calcular. Qed.

(** The same when a statement of the schema raises: the directory keeps
    the company and the file keeps the tables created so far. *)
Example cadastro_falho_no_esquema :
  let r := cadastrar_empresa Cenario.amb_falha_esquema "Acme" "segredo1" "dono"
             None Cenario.inicial in
  r.1 = ErroAoCriarBanco
  /\ Cenario.empresas_em ["nome"; "db_nome"] r.2
     = Some [[VTexto "Acme"; VTexto "acme_37036c"]]
  /\ (dom <$> arquivos r.2 !! Cenario.banco_acme)
     = Some ({[ "produtos"; "usuarios" ]} : gset string).
Proof. cbv zeta. calcular. Qed.

#[global] Instance VTexto_inj : Inj (=) (=) VTexto.
Proof. by intros ?? [= ->]. Qed.

(** ** Generic facts about the tables *)

Lemma vazio_false (s : string) : s ≠ EmptyString -> Texto.vazio s = false.
Proof. by destruct s. Qed.

Lemma tem_coluna_declarada (t : tabela) (cs : list coluna) (c : string) :
  t_colunas t = cs -> tem_coluna t c = bool_decide (c ∈ c_nome <$> cs).
Proof. intros <-. reflexivity. Qed.

Lemma nao_nulos_livre (cs : list coluna) (l : gmap string valor) :
  forallb (fun c => negb (c_nao_nulo c)) cs = true -> nao_nulos_ok cs l = true.
Proof.
  unfold nao_nulos_ok. induction cs as [|c cs IH]; simpl; [done|].
  intros [Hc Hcs]%andb_true_iff. rewrite Hc, IH; done.
Qed.

Lemma unicos_livre (cs : list coluna) (ls : list (gmap string valor))
    (l : gmap string valor) :
  forallb (fun c => negb (c_unico c)) cs = true -> unicos_ok cs ls l = true.
Proof.
  unfold unicos_ok. induction cs as [|c cs IH]; simpl; [done|].
  intros [Hc Hcs]%andb_true_iff. rewrite Hc, IH; done.
Qed.

Lemma linhas_unicas_livre (cs : list coluna) (ls : list (gmap string valor)) :
  forallb (fun c => negb (c_unico c)) cs = true -> linhas_unicas cs ls = true.
Proof.
  intros H. induction ls as [|l ls IH]; simpl; [done|].
  by rewrite unicos_livre, IH.
Qed.

(** Stamping the last access is an update no declaration can refuse. *)
Lemma atualizar_ultimo_acesso (agora : string) (vid : valor) (tu : tabela) :
  usuarios_declarada tu = true ->
  atualizar ["id"] [("ultimo_acesso", VTexto agora)] (igual "id" vid) tu
  = inr (Tabela (t_colunas tu) (t_check tu)
           (carimbar agora vid (t_linhas tu)) (t_seq tu)).
Proof.
  intros [Hc Hk]%andb_true_iff.
  apply bool_decide_eq_true in Hc. apply bool_decide_eq_true in Hk.
  unfold atualizar.
  assert (Hcols : forallb (tem_coluna tu) ([("ultimo_acesso", VTexto agora)].*1 ++ ["id"]) = true).
  { simpl. rewrite !(tem_coluna_declarada tu usuarios) by done. reflexivity. }
  rewrite Hcols. simpl negb. cbv iota.
  rewrite Hc, Hk.
  replace (filter (fun c => c_nome c ∈ [("ultimo_acesso", VTexto agora)].*1) usuarios)
    with [col "ultimo_acesso" TDatetime] by (vm_compute; reflexivity).
  replace (filter (fun ch : string * list string => ch.1 ∈ [("ultimo_acesso", VTexto agora)].*1) check_usuarios)
    with (@nil (string * list string)) by (vm_compute; reflexivity).
  rewrite linhas_unicas_livre by reflexivity.
  rewrite andb_true_r.
  match goal with |- (if forallb ?f ?ls then _ else _) = _ =>
    assert (Hf : forallb f ls = true) end.
  { apply forallb_forall. intros l _. reflexivity. }
  rewrite Hf. reflexivity.
Qed.

(** [col = ?] with a text: the row stores that text in the column. *)
Lemma igual_texto (c s : string) (l : gmap string valor) :
  igual c (VTexto s) l = true <-> l !! c = Some (VTexto s).
Proof.
  unfold igual, campo. rewrite bool_decide_eq_true.
  destruct (l !! c) as [v|]; simpl; split; congruence.
Qed.

Lemma campo_lookup (l : gmap string valor) (c : string) (v : valor) :
  l !! c = Some v -> campo l c = v.
Proof. intros H. unfold campo. by rewrite H. Qed.

Lemma usuarios_declarada_colunas (tu : tabela) (c : string) :
  usuarios_declarada tu = true ->
  tem_coluna tu c = bool_decide (c ∈ c_nome <$> usuarios).
Proof.
  intros [Hc _]%andb_true_iff. apply bool_decide_eq_true in Hc.
  by apply tem_coluna_declarada.
Qed.

Lemma filter_cons_elem {A : Type} (P : A -> Prop) `{!forall x, Decision (P x)}
    (l : list A) (x : A) (r : list A) :
  filter P l = x :: r -> x ∈ l /\ P x.
Proof.
  intros Hf. assert (Hx : x ∈ filter P l) by (rewrite Hf; left).
  by apply list_elem_of_filter in Hx as [? ?].
Qed.

(** The test of [fazer_login] on the access level accepts the four
    levels in any letter case. *)
Lemma tipo_acesso_valido_aceito (papel : string) :
  tipo_acesso_valido papel = true <-> nivel_aceito papel.
Proof.
  unfold tipo_acesso_valido, nivel_aceito, niveis_login, tipos_acesso.
  rewrite bool_decide_eq_true, !Exists_cons, Exists_nil.
  rewrite !elem_of_cons, elem_of_nil.
  replace (Texto.upper "CEO") with "CEO" by reflexivity.
  replace (Texto.upper "Administrador") with "ADMINISTRADOR" by reflexivity.
  replace (Texto.upper "Gerente") with "GERENTE" by reflexivity.
  replace (Texto.upper "Operador") with "OPERADOR" by reflexivity.
  reflexivity.
Qed.

Lemma selecionar_ok (cols : list string) (p : gmap string valor -> bool)
    (t : tabela) :
  forallb (tem_coluna t) cols = true ->
  selecionar cols p t = inr (filter (fun l => p l = true) (t_linhas t)).
Proof. intros H. unfold selecionar. by rewrite H. Qed.

Lemma ler_ok (t : tabela) (l : gmap string valor) (c : string) :
  tem_coluna t c = true -> ler t l c = inr (campo l c).
Proof. intros H. unfold ler. by rewrite H. Qed.

(** ** [fazer_login], step by step *)

Section Login.

Context (amb : ambiente) (w : mundo) (logada : option sessao).

(** Steps 1 and 2: the company in the directory, its store on disk. *)
Lemma login_resolve (entry_nome entry_senha entry_admin : string) (te : tabela) :
  Texto.strip entry_nome ≠ EmptyString ->
  Texto.strip entry_senha ≠ EmptyString ->
  Texto.strip entry_admin ≠ EmptyString ->
  principal w !! "empresas" = Some te ->
  diretorio_legivel te = true ->
  fazer_login amb entry_nome entry_senha entry_admin w logada
  = match filter (fun l => igual "nome" (VTexto (Texto.strip entry_nome)) l = true)
            (t_linhas te) with
    | [] => (EmpresaNaoEncontrada, w, logada)
    | empresa :: _ =>
        let db_path := caminho_db (str_de (campo empresa "db_nome")) in
        match arquivos w !! db_path with
        | None => (BancoNaoEncontrado, w, logada)
        | Some b =>
            autenticar_usuario amb w logada db_path b te empresa
              (Texto.strip entry_senha) (Texto.strip entry_admin)
        end
    end.
Proof.
  intros Hn Hs Hu Hte Hdir.
  unfold fazer_login. cbv zeta.
  rewrite !vazio_false by done. simpl orb. cbv iota. rewrite Hte.
  unfold diretorio_legivel in Hdir. simpl in Hdir.
  apply andb_true_iff in Hdir as [Hid Hdir].
  apply andb_true_iff in Hdir as [Hnome Hdir].
  apply andb_true_iff in Hdir as [Hlogo Hdir].
  apply andb_true_iff in Hdir as [Hdb _].
  rewrite selecionar_ok by (simpl; by rewrite Hnome).
  destruct (filter _ (t_linhas te)) as [|empresa resto]; [reflexivity|].
  by rewrite (ler_ok te empresa "db_nome").
Qed.

(** Steps 3 and 4: the first row the identifier matches, its password. *)
Lemma autenticar_usuario_eq (db_path : string) (b : gmap string tabela)
    (te : tabela) (empresa : gmap string valor) (senha usuario : string)
    (tu : tabela) :
  b !! "usuarios" = Some tu ->
  usuarios_declarada tu = true ->
  autenticar_usuario amb w logada db_path b te empresa senha usuario
  = match filter (fun l => identifica usuario l = true) (t_linhas tu) with
    | [] => (msg_sem_usuario tu, w, logada)
    | u :: _ =>
        if bool_decide (campo u "senha" = VTexto (hash_senha senha))
        then concluir_login amb w logada db_path b te empresa tu u
        else (SenhaIncorreta, w, logada)
    end.
Proof.
  intros Htu Hdecl. unfold autenticar_usuario. rewrite Htu.
  rewrite selecionar_ok
    by (simpl; by rewrite !(usuarios_declarada_colunas tu) by done).
  destruct (filter _ (t_linhas tu)) as [|u resto]; [reflexivity|].
  rewrite (ler_ok tu u "senha") by (by rewrite usuarios_declarada_colunas).
  by destruct (bool_decide _).
Qed.

Lemma msg_sem_usuario_eq (tu : tabela) :
  usuarios_declarada tu = true ->
  msg_sem_usuario tu
  = match t_linhas tu with
    | [] => NenhumUsuarioCadastrado
    | _ :: _ => UsuarioNaoEncontrado
    end.
Proof.
  intros Hdecl. unfold msg_sem_usuario.
  by rewrite (usuarios_declarada_colunas tu).
Qed.

(** Step 5 refusing. *)
Lemma concluir_login_invalido (db_path : string) (b : gmap string tabela)
    (te : tabela) (empresa : gmap string valor) (tu : tabela)
    (u : gmap string valor) (papel : string) :
  usuarios_declarada tu = true ->
  campo u "tipo_acesso" = VTexto papel ->
  tipo_acesso_valido papel = false ->
  concluir_login amb w logada db_path b te empresa tu u
  = (TipoDeAcessoInvalido, w, logada).
Proof.
  intros Hdecl Hpapel Hv. unfold concluir_login.
  rewrite (ler_ok tu u "tipo_acesso") by (by rewrite usuarios_declarada_colunas).
  by rewrite Hpapel, Hv.
Qed.

(** Steps 5 and 6 accepting: the session and the stamped table. *)
Lemma concluir_login_ok (db_path : string) (b : gmap string tabela)
    (te : tabela) (empresa : gmap string valor) (tu : tabela)
    (u : gmap string valor) (papel : string) :
  diretorio_legivel te = true ->
  usuarios_declarada tu = true ->
  campo u "tipo_acesso" = VTexto papel ->
  tipo_acesso_valido papel = true ->
  exists s,
    concluir_login amb w logada db_path b te empresa tu u
    = (MenuPrincipal,
       gravar db_path
         (<["usuarios" := Tabela (t_colunas tu) (t_check tu)
                            (carimbar (agora amb) (campo u "id") (t_linhas tu))
                            (t_seq tu)]> b) w,
       Some s)
    /\ s !! "usuario" = Some (campo u "usuario")
    /\ s !! "tipo_acesso" = Some (VTexto papel)
    /\ s !! "id" = Some (campo empresa "id")
    /\ s !! "nome" = Some (campo empresa "nome")
    /\ s !! "db_nome" = Some (campo empresa "db_nome")
    /\ s !! "logo_path" = Some (campo empresa "logo_path")
    /\ s !! "admin_user" = None
    /\ s !! "cnpj" = Some (ler_ou_vazio te empresa "cnpj")
    /\ s !! "endereco" = Some (ler_ou_vazio te empresa "endereco")
    /\ s !! "telefone" = Some (ler_ou_vazio te empresa "telefone").
Proof.
  intros Hdir Hdecl Hpapel Hv. unfold concluir_login.
  unfold diretorio_legivel in Hdir. simpl in Hdir.
  apply andb_true_iff in Hdir as [Hid Hdir].
  apply andb_true_iff in Hdir as [Hnome Hdir].
  apply andb_true_iff in Hdir as [Hlogo Hdir].
  apply andb_true_iff in Hdir as [Hdb _].
  rewrite (ler_ok tu u "tipo_acesso") by (by rewrite usuarios_declarada_colunas).
  rewrite Hpapel, Hv. simpl negb. cbv iota.
  unfold montar_sessao.
  rewrite !(ler_ok te) by done.
  rewrite !(ler_ok tu) by (by rewrite usuarios_declarada_colunas).
  rewrite atualizar_ultimo_acesso by done.
  eexists. split; [reflexivity|].
  rewrite Hpapel. repeat split.
Qed.

(** An access level that is no text: [upper()] raises. *)
Lemma concluir_login_sem_texto (db_path : string) (b : gmap string tabela)
    (te : tabela) (empresa : gmap string valor) (tu : tabela)
    (u : gmap string valor) :
  usuarios_declarada tu = true ->
  (forall papel, campo u "tipo_acesso" ≠ VTexto papel) ->
  concluir_login amb w logada db_path b te empresa tu u
  = (ErroNoLogin, w, logada).
Proof.
  intros Hdecl Hpapel. unfold concluir_login.
  rewrite (ler_ok tu u "tipo_acesso") by (by rewrite usuarios_declarada_colunas).
  destruct (campo u "tipo_acesso") as [| |papel]; try done.
  by destruct (Hpapel papel).
Qed.

(** The path the login opens is the one the directory row names. *)
Lemma caminho_da_loja_eq (empresa : gmap string valor) :
  caminho_db (str_de (campo empresa "db_nome")) = caminho_da_loja empresa.
Proof.
  unfold caminho_da_loja, caminho_db, campo.
  by destruct (empresa !! "db_nome") as [[| |]|].
Qed.

(** Steps 1 and 2, by the rows the name selects. *)
Lemma login_empresa (entry_nome entry_senha entry_admin : string) (te : tabela) :
  Texto.strip entry_nome ≠ EmptyString ->
  Texto.strip entry_senha ≠ EmptyString ->
  Texto.strip entry_admin ≠ EmptyString ->
  principal w !! "empresas" = Some te ->
  diretorio_legivel te = true ->
  fazer_login amb entry_nome entry_senha entry_admin w logada
  = match filter (eh_empresa (Texto.strip entry_nome)) (t_linhas te) with
    | [] => (EmpresaNaoEncontrada, w, logada)
    | empresa :: _ =>
        match arquivos w !! caminho_da_loja empresa with
        | None => (BancoNaoEncontrado, w, logada)
        | Some b =>
            autenticar_usuario amb w logada (caminho_da_loja empresa) b
              te empresa (Texto.strip entry_senha) (Texto.strip entry_admin)
        end
    end.
Proof.
  intros Hn Hs Hu Hte Hdir.
  rewrite (login_resolve _ _ _ te) by done.
  rewrite (list_filter_iff _ (eh_empresa (Texto.strip entry_nome)))
    by (intros l; apply igual_texto).
  destruct (filter _ (t_linhas te)) as [|empresa resto]; [reflexivity|].
  cbv zeta. by rewrite caminho_da_loja_eq.
Qed.

Lemma identifica_nomeia (usuario : string) (l : gmap string valor) :
  identifica usuario l = true <-> nomeia usuario l.
Proof.
  unfold identifica, nomeia. rewrite !orb_true_iff, !igual_texto. tauto.
Qed.

(** Steps 3 and 4, by the rows the identifier names. *)
Lemma autenticar_nomeado (db_path : string) (b : gmap string tabela)
    (te : tabela) (empresa : gmap string valor) (senha usuario : string)
    (tu : tabela) :
  b !! "usuarios" = Some tu ->
  usuarios_declarada tu = true ->
  autenticar_usuario amb w logada db_path b te empresa senha usuario
  = match filter (nomeia usuario) (t_linhas tu) with
    | [] =>
        (match t_linhas tu with
         | [] => NenhumUsuarioCadastrado
         | _ :: _ => UsuarioNaoEncontrado
         end, w, logada)
    | u :: _ =>
        if decide (u !! "senha" = Some (VTexto (Sha256.hexdigest senha)))
        then concluir_login amb w logada db_path b te empresa tu u
        else (SenhaIncorreta, w, logada)
    end.
Proof.
  intros Htu Hdecl.
  rewrite (autenticar_usuario_eq db_path b te empresa senha usuario tu)
    by done.
  rewrite (list_filter_iff _ (nomeia usuario))
    by (intros l; apply identifica_nomeia).
  destruct (filter _ (t_linhas tu)) as [|u resto].
  - by rewrite msg_sem_usuario_eq.
  - unfold hash_senha, campo.
    destruct (decide (u !! "senha" = _)) as [Hs|Hs].
    + rewrite Hs. simpl. by rewrite bool_decide_eq_true_2.
    + rewrite bool_decide_eq_false_2; [done|].
      destruct (u !! "senha") as [v|]; simpl; congruence.
Qed.

(** The store a login to the company opens and its user table. *)
Lemma usuarios_da_empresa_eq (nome : string) (te : tabela)
    (empresa : gmap string valor) (resto : list (gmap string valor))
    (b : gmap string tabela) :
  principal w !! "empresas" = Some te ->
  filter (eh_empresa nome) (t_linhas te) = empresa :: resto ->
  arquivos w !! caminho_da_loja empresa = Some b ->
  usuarios_da_empresa w nome = b !! "usuarios".
Proof.
  intros Hte Hf Hb. unfold usuarios_da_empresa.
  rewrite Hte. simpl. rewrite Hf. simpl. by rewrite Hb.
Qed.

End Login.

Lemma linha_de_usuario_id (l : gmap string valor) :
  linha_de_usuario l = true -> exists n, campo l "id" = VInt n.
Proof.
  unfold linha_de_usuario. destruct (campo l "id") as [|n|]; try done.
  by exists n.
Qed.

(** The four levels of the [CHECK] constraint are accepted levels, and
    the test of [fazer_login] accepts levels the constraint refuses. *)
Example nivel_aceito_ex :
  Forall nivel_aceito tipos_acesso
  /\ nivel_aceito "ceo" /\ ("ceo" ∉ tipos_acesso)
  /\ (~ nivel_aceito "Visitante").
Proof. calcular. Qed.

(** C1.  A login with a company name, a password and an identifier that
    are not empty once stripped goes through the checks in this order
    and stops at the first that fails, leaving the stores and the session
    as they were:
    - the first directory row whose name is the one entered ("Empresa não
      encontrada!" without one);
    - the store that row names, on disk ("Banco de dados da empresa não
      encontrado!" without it);
    - in the user table of that store, the first row whose login name,
      full name or e-mail is the identifier ("Nenhum usuário cadastrado
      para esta empresa!" when the table is empty, "Usuário não
      encontrado!" otherwise);
    - the SHA-256 digest of the password against the one that row stores
      ("Senha incorreta!");
    - the access level of that row among the four, in any letter case
      ("Tipo de acesso inválido!"; a level that is no text makes
      [upper()] raise, "Erro no login").
    When all pass, the answer is the main menu, the rows with the matched
    user's [id], that user's among them, get the current time as last
    access and nothing else on disk changes, and the session holds the
    company's [id], [nome], [logo_path], [db_nome], [cnpj], [endereco]
    and [telefone] (the empty text for one the directory lacks) with the
    user's login name and access level.  Asked of the disk: the
    directory has the four columns read first, and the user table of the
    store the login opens, if it has one, is the declared one, with
    integer identifiers and with access levels in ASCII; nothing is asked
    of any other store. *)
Theorem fazer_login_ordem (amb : ambiente) (entry_nome entry_senha entry_admin : string)
    (w : mundo) (logada : option sessao) (te : tabela) :
  let nome := Texto.strip entry_nome in
  let senha := Texto.strip entry_senha in
  let usuario := Texto.strip entry_admin in
  let r := fazer_login amb entry_nome entry_senha entry_admin w logada in
  nome ≠ EmptyString -> senha ≠ EmptyString -> usuario ≠ EmptyString ->
  principal w !! "empresas" = Some te ->
  diretorio_legivel te = true ->
  (forall tu, usuarios_da_empresa w nome = Some tu ->
              usuarios_legivel tu = true) ->
  match filter (eh_empresa nome) (t_linhas te) with
  | [] => r = (EmpresaNaoEncontrada, w, logada)
  | empresa :: _ =>
      match arquivos w !! caminho_da_loja empresa with
      | None => r = (BancoNaoEncontrado, w, logada)
      | Some b =>
          match b !! "usuarios" with
          | None => r = (ErroNoLogin, w, logada)
          | Some tu =>
              match filter (nomeia usuario) (t_linhas tu) with
              | [] =>
                  r = (match t_linhas tu with
                       | [] => NenhumUsuarioCadastrado
                       | _ :: _ => UsuarioNaoEncontrado
                       end, w, logada)
              | u :: _ =>
                  if decide (u !! "senha"
                             = Some (VTexto (Sha256.hexdigest senha)))
                  then
                    match u !! "tipo_acesso" with
                    | Some (VTexto papel) =>
                        if decide (nivel_aceito papel)
                        then
                          let carimbadas :=
                            carimbar (agora amb) (campo u "id") (t_linhas tu) in
                          r.1.1 = MenuPrincipal
                          /\ principal r.1.2 = principal w
                          /\ arquivos r.1.2
                             = <[caminho_da_loja empresa :=
                                   <["usuarios" :=
                                       Tabela (t_colunas tu) (t_check tu)
                                         carimbadas (t_seq tu)]> b]>
                                 (arquivos w)
                          /\ <["ultimo_acesso" := VTexto (agora amb)]> u
                             ∈ carimbadas
                          /\ exists s,
                               r.2 = Some s
                               /\ s !! "usuario" = Some (campo u "usuario")
                               /\ s !! "tipo_acesso" = Some (VTexto papel)
                               /\ s !! "id" = Some (campo empresa "id")
                               /\ s !! "nome" = Some (VTexto nome)
                               /\ s !! "db_nome" = Some (campo empresa "db_nome")
                               /\ s !! "logo_path"
                                  = Some (campo empresa "logo_path")
                               /\ s !! "cnpj"
                                  = Some (dado_da_empresa te empresa "cnpj")
                               /\ s !! "endereco"
                                  = Some (dado_da_empresa te empresa "endereco")
                               /\ s !! "telefone"
                                  = Some (dado_da_empresa te empresa "telefone")
                        else r = (TipoDeAcessoInvalido, w, logada)
                    | _ => r = (ErroNoLogin, w, logada)
                    end
                  else r = (SenhaIncorreta, w, logada)
              end
          end
      end
  end.
Proof.
  intros nome senha usuario r Hn Hs Hu Hte Hdir Hloja. subst r.
  rewrite (login_empresa amb w logada _ _ _ te) by done.
  fold nome senha usuario.
  destruct (filter _ (t_linhas te)) as [|empresa resto] eqn:Hemp; [done|].
  pose proof (filter_cons_elem _ _ _ _ Hemp) as [_ Hnome_emp].
  destruct (arquivos w !! _) as [b|] eqn:Hb; [|done].
  pose proof (usuarios_da_empresa_eq w nome te empresa resto b Hte Hemp Hb)
    as Hda.
  destruct (b !! "usuarios") as [tu|] eqn:Htu.
  2:{ unfold autenticar_usuario. by rewrite Htu. }
  apply Hloja in Hda. apply andb_true_iff in Hda as [Hdecl Hlinhas].
  rewrite (autenticar_nomeado amb w logada _ b te empresa senha usuario tu)
    by done.
  destruct (filter _ (t_linhas tu)) as [|u resto_u] eqn:Hu_f; [done|].
  apply filter_cons_elem in Hu_f as [Hu_in _].
  destruct (decide (u !! "senha" = _)); [|done].
  rewrite forallb_forall in Hlinhas.
  destruct (linha_de_usuario_id u) as (n & Hidu).
  { apply Hlinhas. by apply list_elem_of_In. }
  destruct (u !! "tipo_acesso") as [[| |papel]|] eqn:Hpapel.
  1,2,4: apply concluir_login_sem_texto; [done|];
         intros papel; unfold campo; by rewrite Hpapel.
  apply campo_lookup in Hpapel.
  destruct (decide (nivel_aceito papel)) as [Hp|Hp].
  - destruct (concluir_login_ok amb w logada (caminho_da_loja empresa)
                b te empresa tu u papel Hdir Hdecl Hpapel
                (proj2 (tipo_acesso_valido_aceito papel) Hp))
      as (s & -> & Hs1 & Hs2 & Hs3 & Hs4 & Hs5 & Hs6 & _ & Hs7 & Hs8 & Hs9).
    cbv zeta. cbn [fst snd gravar principal arquivos].
    split; [done|]. split; [done|]. split; [done|]. split.
    + apply list_elem_of_fmap. exists u. split; [|done].
      unfold igual. rewrite Hidu. by rewrite bool_decide_eq_true_2.
    + exists s. split; [done|]. rewrite Hs4, (campo_lookup _ _ _ Hnome_emp).
      repeat split; done.
  - apply (concluir_login_invalido amb w logada _ b te empresa tu u papel);
      [done..|].
    destruct (tipo_acesso_valido papel) eqn:Hv; [|done].
    by destruct Hp; apply tipo_acesso_valido_aceito.
Qed.

(** The theorem at two logins to Acme.  Its owner, named by the e-mail,
    reaches the main menu as [dono].  In the file where the owner's level
    was overwritten with [Visitante], the same login gets as far as the
    level and is refused, with nothing changed. *)
Lemma fazer_login_ordem_acme :
  (let r := fazer_login Cenario.amb0 "Acme" "segredo1" "dono@acme.com"
              Cenario.acme None in
   r.1.1 = MenuPrincipal
   /\ exists s, r.2 = Some s /\ s !! "usuario" = Some (VTexto "dono"))
  /\ fazer_login Cenario.amb0 " Acme" "segredo1" "dono "
       Cenario.acme_visitante None
     = (TipoDeAcessoInvalido, Cenario.acme_visitante, None).
Proof.
  cbv zeta. split.
  - pose proof (fazer_login_ordem Cenario.amb0 "Acme" "segredo1" "dono@acme.com"
                  Cenario.acme None (Cenario.diretorio_de Cenario.acme)) as H.
    cbv zeta in H.
    set (r := fazer_login Cenario.amb0 "Acme" "segredo1" "dono@acme.com"
                Cenario.acme None) in *.
    clearbody r.
    specialize (H ltac:(discriminate) ltac:(discriminate) ltac:(discriminate)
                  ltac:(calcular) ltac:(calcular)).
    assert (Hl : forall tu,
              usuarios_da_empresa Cenario.acme (Texto.strip "Acme") = Some tu ->
              usuarios_legivel tu = true).
    { replace (usuarios_da_empresa Cenario.acme (Texto.strip "Acme"))
        with (Some Cenario.usuarios_acme) by calcular.
      intros tu Htu. apply (inj Some) in Htu. subst tu. calcular. }
    specialize (H Hl).
    avaliar (filter (eh_empresa (Texto.strip "Acme"))
               (t_linhas (Cenario.diretorio_de Cenario.acme)))
            [Cenario.linha_acme] H.
    avaliar (arquivos Cenario.acme !! caminho_da_loja Cenario.linha_acme)
            (Some Cenario.loja_acme) H.
    avaliar (Cenario.loja_acme !! "usuarios") (Some Cenario.usuarios_acme) H.
    avaliar (filter (nomeia (Texto.strip "dono@acme.com"))
               (t_linhas Cenario.usuarios_acme))
            [Cenario.linha_dono] H.
    decidir (Cenario.linha_dono !! "senha"
             = Some (VTexto (Sha256.hexdigest (Texto.strip "segredo1")))) H.
    avaliar (Cenario.linha_dono !! "tipo_acesso") (Some (VTexto "CEO")) H.
    decidir (nivel_aceito "CEO") H.
    destruct H as (H1 & _ & _ & _ & s & H2 & H3 & _).
    split; [exact H1|]. exists s. split; [exact H2|].
    rewrite H3. apply (f_equal Some). calcular.
  - pose proof (fazer_login_ordem Cenario.amb0 " Acme" "segredo1" "dono "
                  Cenario.acme_visitante None
                  (Cenario.diretorio_de Cenario.acme_visitante)) as H.
    cbv zeta in H.
    set (r := fazer_login Cenario.amb0 " Acme" "segredo1" "dono "
                Cenario.acme_visitante None) in *.
    clearbody r.
    specialize (H ltac:(discriminate) ltac:(discriminate) ltac:(discriminate)
                  ltac:(calcular) ltac:(calcular)).
    assert (Hl : forall tu,
              usuarios_da_empresa Cenario.acme_visitante (Texto.strip " Acme")
              = Some tu ->
              usuarios_legivel tu = true).
    { replace (usuarios_da_empresa Cenario.acme_visitante (Texto.strip " Acme"))
        with (Some Cenario.usuarios_visitante) by calcular.
      intros tu Htu. apply (inj Some) in Htu. subst tu. calcular. }
    specialize (H Hl).
    avaliar (filter (eh_empresa (Texto.strip " Acme"))
               (t_linhas (Cenario.diretorio_de Cenario.acme_visitante)))
            [Cenario.linha_acme] H.
    avaliar (arquivos Cenario.acme_visitante
               !! caminho_da_loja Cenario.linha_acme)
            (Some Cenario.loja_visitante) H.
    avaliar (Cenario.loja_visitante !! "usuarios")
            (Some Cenario.usuarios_visitante) H.
    avaliar (filter (nomeia (Texto.strip "dono "))
               (t_linhas Cenario.usuarios_visitante))
            [Cenario.linha_visitante] H.
    decidir (Cenario.linha_visitante !! "senha"
             = Some (VTexto (Sha256.hexdigest (Texto.strip "segredo1")))) H.
    avaliar (Cenario.linha_visitante !! "tipo_acesso")
            (Some (VTexto "Visitante")) H.
    decidir (nivel_aceito "Visitante") H.
    exact H.
Defined.

(** ** Unknown user against wrong password *)

(** C7, as the code has it.  Of two logins with no field empty, one whose
    identifier names no user of the company and one whose identifier
    names a user while the digest of the password is not the one stored:
    the first is answered "Usuário não encontrado!", or "Nenhum usuário
    cadastrado para esta empresa!" when the user table is empty, and the
    second "Senha incorreta!".  The answers differ, so they tell whether
    the user exists.  Neither changes the stores or the session.  Asked
    of the disk: the directory has the columns read, and the user tables
    of the stores the two logins open are the declared one. *)
Theorem login_distingue_usuario_de_senha (amb : ambiente) (w : mundo)
    (logada : option sessao) (te tu_a tu_b : tabela) (u : gmap string valor)
    (nome_a senha_a usuario_a nome_b senha_b usuario_b : string) :
  let r_a := fazer_login amb nome_a senha_a usuario_a w logada in
  let r_b := fazer_login amb nome_b senha_b usuario_b w logada in
  Texto.strip nome_a ≠ EmptyString -> Texto.strip senha_a ≠ EmptyString ->
  Texto.strip usuario_a ≠ EmptyString ->
  Texto.strip nome_b ≠ EmptyString -> Texto.strip senha_b ≠ EmptyString ->
  Texto.strip usuario_b ≠ EmptyString ->
  principal w !! "empresas" = Some te ->
  diretorio_legivel te = true ->
  usuarios_da_empresa w (Texto.strip nome_a) = Some tu_a ->
  usuarios_declarada tu_a = true ->
  usuario_encontrado tu_a (Texto.strip usuario_a) = None ->
  usuarios_da_empresa w (Texto.strip nome_b) = Some tu_b ->
  usuarios_declarada tu_b = true ->
  usuario_encontrado tu_b (Texto.strip usuario_b) = Some u ->
  u !! "senha" ≠ Some (VTexto (Sha256.hexdigest (Texto.strip senha_b))) ->
  r_a = (match t_linhas tu_a with
         | [] => NenhumUsuarioCadastrado
         | _ :: _ => UsuarioNaoEncontrado
         end, w, logada)
  /\ r_b = (SenhaIncorreta, w, logada)
  /\ r_a.1.1 ≠ r_b.1.1.
Proof.
  intros r_a r_b Hna Hsa Hua Hnb Hsb Hub Hte Hdir
         Htua Hda Hnone Htub Hdb Hsome Hsenha.
  assert (Ha : r_a = (match t_linhas tu_a with
                      | [] => NenhumUsuarioCadastrado
                      | _ :: _ => UsuarioNaoEncontrado
                      end, w, logada)).
  { subst r_a. rewrite (login_empresa amb w logada _ _ _ te) by done.
    unfold usuarios_da_empresa in Htua. rewrite Hte in Htua. simpl in Htua.
    destruct (filter _ (t_linhas te)) as [|empresa resto]; [done|].
    simpl in Htua.
    destruct (arquivos w !! _) as [b|] eqn:Hb; [|done]. simpl in Htua.
    rewrite (autenticar_nomeado amb w logada _ b te empresa _ _ tu_a) by done.
    unfold usuario_encontrado in Hnone.
    by destruct (filter _ (t_linhas tu_a)). }
  assert (Hb : r_b = (SenhaIncorreta, w, logada)).
  { subst r_b. rewrite (login_empresa amb w logada _ _ _ te) by done.
    unfold usuarios_da_empresa in Htub. rewrite Hte in Htub. simpl in Htub.
    destruct (filter _ (t_linhas te)) as [|empresa resto]; [done|].
    simpl in Htub.
    destruct (arquivos w !! _) as [b|] eqn:Hb; [|done]. simpl in Htub.
    rewrite (autenticar_nomeado amb w logada _ b te empresa _ _ tu_b) by done.
    unfold usuario_encontrado in Hsome.
    destruct (filter _ (t_linhas tu_b)) as [|u' resto_u]; [done|].
    simpl in Hsome. apply (inj Some) in Hsome. subst u'.
    by destruct (decide (u !! "senha" = _)). }
  split; [exact Ha|]. split; [exact Hb|].
  rewrite Ha, Hb. simpl. by destruct (t_linhas tu_a).
Qed.

(** The theorem at two logins to Acme: [ninguem] is no user, and
    [errada1] is not the password of [dono]. *)
Lemma login_distingue_usuario_de_senha_acme :
  fazer_login Cenario.amb0 "Acme" "segredo1" "ninguem" Cenario.acme None
  = (UsuarioNaoEncontrado, Cenario.acme, None)
  /\ fazer_login Cenario.amb0 "Acme" "errada1" "dono" Cenario.acme None
     = (SenhaIncorreta, Cenario.acme, None).
Proof.
  pose proof (login_distingue_usuario_de_senha Cenario.amb0 Cenario.acme None
                (Cenario.diretorio_de Cenario.acme) Cenario.usuarios_acme
                Cenario.usuarios_acme Cenario.linha_dono
                "Acme" "segredo1" "ninguem" "Acme" "errada1" "dono") as H.
  cbv zeta in H.
  specialize (H ltac:(discriminate) ltac:(discriminate) ltac:(discriminate)
                ltac:(discriminate) ltac:(discriminate) ltac:(discriminate)
                ltac:(calcular) ltac:(calcular) ltac:(calcular) ltac:(calcular)
                ltac:(calcular) ltac:(calcular) ltac:(calcular) ltac:(calcular)
                ltac:(calcular)).
  destruct H as (Ha & Hb & _). split; [exact Ha|exact Hb].
Defined.

(** C7 (counterexample).  The claim has both failures answered alike; at
    Acme the unknown user and the wrong password get different
    messages. *)
Lemma login_mensagens_distintas :
  (fazer_login Cenario.amb0 "Acme" "segredo1" "ninguem" Cenario.acme None).1.1
  = UsuarioNaoEncontrado
  /\ (fazer_login Cenario.amb0 "Acme" "errada1" "dono" Cenario.acme None).1.1
     = SenhaIncorreta
  /\ UsuarioNaoEncontrado ≠ SenhaIncorreta.
Proof. calcular. Qed.

(** ** Files and rows *)

Lemma gravar_id (p : string) (b : gmap string tabela) (w : mundo) :
  arquivos w !! p = Some b -> gravar p b w = w.
Proof.
  intros H. destruct w as [pr ar bl]. unfold gravar. simpl in *.
  by rewrite insert_id.
Qed.

Lemma gravar_gravar (p : string) (b b' : gmap string tabela) (w : mundo) :
  gravar p b' (gravar p b w) = gravar p b' w.
Proof. unfold gravar. simpl. by rewrite insert_insert_eq. Qed.

Lemma abrir_existente (p : string) (b : gmap string tabela) (w : mundo) :
  arquivos w !! p = Some b -> abrir w p = b.
Proof. intros H. unfold abrir. by rewrite H. Qed.

(** A column of the stored row: the given value, the default without. *)
Lemma campo_montar_linha (agora : string) (t : tabela)
    (vals : gmap string valor) (c : coluna) :
  NoDup (nomes t) -> c ∈ t_colunas t ->
  campo (montar_linha agora t vals) (c_nome c)
  = default (valor_padrao agora (t_seq t) (c_padrao c)) (vals !! c_nome c).
Proof.
  unfold montar_linha, nomes, campo. generalize (t_seq t) as sq.
  induction (t_colunas t) as [|c0 cs IH]; intros sq Hnd Hin.
  - by apply elem_of_nil in Hin.
  - rewrite fmap_cons in Hnd. apply NoDup_cons in Hnd as [Hc0 Hnd].
    simpl. apply elem_of_cons in Hin as [->|Hin].
    + rewrite lookup_insert_eq. simpl. by destruct (vals !! c_nome c0).
    + rewrite lookup_insert_ne.
      * by apply IH.
      * intros Heq. apply Hc0. rewrite Heq. by apply list_elem_of_fmap_2.
Qed.

(** What a successful [INSERT] leaves. *)
Lemma inserir_inr (agora : string) (vals : list (string * valor))
    (t t' : tabela) :
  inserir agora vals t = inr t' ->
  let l := montar_linha agora t (list_to_map vals) in
  t' = Tabela (t_colunas t) (t_check t) (t_linhas t ++ [l]) (t_seq t + 1)
  /\ nao_nulos_ok (t_colunas t) l = true
  /\ unicos_ok (t_colunas t) (t_linhas t) l = true
  /\ check_ok (t_check t) l = true.
Proof.
  unfold inserir. destruct (negb _); [done|]. cbv zeta.
  destruct (nao_nulos_ok _ _) eqn:H1; [|done].
  destruct (unicos_ok _ _ _) eqn:H2; [|done].
  destruct (check_ok _ _) eqn:H3; [|done].
  simpl. by intros [= <-].
Qed.

(** With every named column declared, an [INSERT] can only be refused by
    a constraint. *)
Lemma inserir_inl (agora : string) (vals : list (string * valor))
    (t : tabela) (e : excecao) :
  forallb (tem_coluna t) vals.*1 = true ->
  inserir agora vals t = inl e -> e = IntegrityError.
Proof.
  intros Hc. unfold inserir. rewrite Hc. simpl.
  destruct (_ && _); [done|]. by intros [= <-].
Qed.

Lemma nomes_usuarios_sem_repeticao : NoDup (c_nome <$> usuarios).
Proof. calcular. Qed.

(** ** [salvar_usuario] *)

Section SalvarUsuario.

Context (amb : ambiente) (d : dados_usuario) (s : sessao) (w : mundo)
        (vdb vnome : valor) (b : gmap string tabela) (tu : tabela).

Hypothesis Hvalidos : dados_validos d = true.
Hypothesis Hdb : s !! "db_nome" = Some vdb.
Hypothesis Hnome : s !! "nome" = Some vnome.
Hypothesis Hb : arquivos w !! caminho_db (str_de vdb) = Some b.
Hypothesis Htu : b !! "usuarios" = Some tu.
Hypothesis Hdecl : usuarios_declarada tu = true.

(** The call is the hierarchy on the access level of the first row whose
    [usuario] is the session's [nome], then the insertion. *)
Lemma salvar_usuario_eq :
  salvar_usuario amb true d s w
  = match hierarquia
            (tipo_atual_de
               (filter (fun l => igual "usuario" vnome l = true) (t_linhas tu)))
            (d_tipo d) with
    | Some m => (m, w)
    | None => resultado_insercao amb d vnome (caminho_db (str_de vdb)) b tu w
    end.
Proof.
  unfold dados_validos in Hvalidos.
  apply andb_true_iff in Hvalidos as [H1234 H5].
  apply andb_true_iff in H1234 as [H123 H4].
  apply andb_true_iff in H123 as [H12 _].
  apply andb_true_iff in H12 as [H1 H2].
  apply negb_true_iff in H1, H2, H5.
  unfold salvar_usuario. simpl negb. cbv iota.
  rewrite H1, H2, H4, H5. simpl negb. cbv iota.
  unfold obter_conexao_empresa.
  rewrite bool_decide_eq_false_2
    by (intros ->; by rewrite lookup_empty in Hdb).
  rewrite Hdb. cbv zeta.
  rewrite (abrir_existente _ b w Hb), (gravar_id _ b w Hb).
  rewrite (abrir_existente _ b w Hb), Hnome.
  unfold em_tabela. rewrite Htu.
  rewrite selecionar_ok
    by (simpl; by rewrite !(usuarios_declarada_colunas tu) by done).
  destruct (hierarquia _ _); [done|].
  unfold resultado_insercao, alterar_tabela, em_tabela. rewrite Htu.
  by destruct (inserir _ _ _).
Qed.

End SalvarUsuario.

(** The level the check goes by is that of the first row named like the
    company. *)
Lemma tipo_atual_da_homonima (nome : string) (tu : tabela) :
  tipo_atual_de
    (filter (fun l => igual "usuario" (VTexto nome) l = true) (t_linhas tu))
  = nivel_da_homonima nome tu.
Proof.
  unfold nivel_da_homonima.
  rewrite (list_filter_iff _ (homonimo nome))
    by (intros l; apply igual_texto).
  by destruct (filter _ (t_linhas tu)).
Qed.

(** The two tests of the hierarchy, spelled out. *)
Lemma hierarquia_testes (atual : valor) (alvo : string) :
  hierarquia atual alvo
  = if decide (atual ≠ VTexto "CEO" /\ alvo ∈ ["CEO"; "Administrador"])
    then Some ApenasCeoCadastraAdministradores
    else if decide ((atual ∉ [VTexto "CEO"; VTexto "Administrador"])
                    /\ alvo = "Gerente")
    then Some ApenasCeoEAdministradoresCadastramGerentes
    else None.
Proof.
  unfold hierarquia.
  destruct (decide (atual ≠ VTexto "CEO" /\ _)) as [[H1 H2]|H1].
  { by rewrite (bool_decide_eq_false_2 _ H1), (bool_decide_eq_true_2 _ H2). }
  destruct (negb (bool_decide (atual = VTexto "CEO"))
            && bool_decide (alvo ∈ ["CEO"; "Administrador"])) eqn:Ht.
  { apply andb_true_iff in Ht as [Ha Hb]. apply negb_true_iff in Ha.
    apply bool_decide_eq_false in Ha. apply bool_decide_eq_true in Hb.
    by destruct H1. }
  destruct (decide ((atual ∉ _) /\ _)) as [[H3 H4]|H3].
  { by rewrite (bool_decide_eq_false_2 _ H3), (bool_decide_eq_true_2 _ H4). }
  destruct (negb (bool_decide (atual ∈ [VTexto "CEO"; VTexto "Administrador"]))
            && bool_decide (alvo = "Gerente")) eqn:Hg; [|done].
  apply andb_true_iff in Hg as [Ha Hb]. apply negb_true_iff in Ha.
  apply bool_decide_eq_false in Ha. apply bool_decide_eq_true in Hb.
  by destruct H3.
Qed.

(** What the [CHECK] constraint of [usuarios] lets in. *)
Lemma check_usuarios_ok (l : gmap string valor) (s : string) :
  check_ok check_usuarios l = true ->
  campo l "tipo_acesso" = VTexto s -> s ∈ tipos_acesso.
Proof.
  unfold check_ok, check_usuarios. cbn [forallb fst snd]. intros H Hs.
  rewrite Hs in H. rewrite andb_true_r in H.
  by apply bool_decide_eq_true in H.
Qed.

(** A column the [INSERT] names gets the value it gives. *)
Lemma campo_inserido (agora : string) (t : tabela)
    (vals : list (string * valor)) (c : coluna) (v : valor) :
  NoDup (nomes t) -> c ∈ t_colunas t ->
  NoDup vals.*1 -> (c_nome c, v) ∈ vals ->
  campo (montar_linha agora t (list_to_map vals)) (c_nome c) = v.
Proof.
  intros Hnd Hc Hvals Hin. rewrite campo_montar_linha by done.
  by rewrite (elem_of_list_to_map_1 vals (c_nome c) v).
Qed.

Lemma chaves_linha_usuario (d : dados_usuario) (vnome : valor) :
  NoDup (linha_usuario d vnome).*1.
Proof. unfold linha_usuario. simpl. calcular. Qed.

(** The row [salvar_usuario] inserts carries the form's login and level. *)
Lemma linha_inserida_usuario (agora : string) (d : dados_usuario)
    (vnome : valor) (tu tu' : tabela) :
  usuarios_declarada tu = true ->
  inserir agora (linha_usuario d vnome) tu = inr tu' ->
  exists l, t_linhas tu' = (t_linhas tu ++ [l])%list
            /\ t_colunas tu' = t_colunas tu
            /\ t_check tu' = t_check tu
            /\ campo l "usuario" = VTexto (d_usuario d)
            /\ campo l "tipo_acesso" = VTexto (d_tipo d)
            /\ campo l "senha" = VTexto (hash_senha (d_senha d))
            /\ d_tipo d ∈ tipos_acesso.
Proof.
  intros Hdecl Hins. apply inserir_inr in Hins as (-> & _ & _ & Hchk).
  apply andb_true_iff in Hdecl as [Hc Hk].
  apply bool_decide_eq_true in Hc. apply bool_decide_eq_true in Hk.
  assert (Hnd : NoDup (nomes tu)).
  { unfold nomes. rewrite Hc. apply nomes_usuarios_sem_repeticao. }
  pose proof (chaves_linha_usuario d vnome) as Hch.
  eexists. split; [reflexivity|]. split; [reflexivity|]. split; [reflexivity|].
  assert (Hu : campo (montar_linha agora tu (list_to_map (linha_usuario d vnome)))
                 "usuario" = VTexto (d_usuario d)).
  { apply (campo_inserido agora tu _ (col_nn "usuario" TText) _ Hnd); [|done|].
    - rewrite Hc. unfold usuarios. set_solver.
    - unfold linha_usuario. set_solver. }
  assert (Ht : campo (montar_linha agora tu (list_to_map (linha_usuario d vnome)))
                 "tipo_acesso" = VTexto (d_tipo d)).
  { apply (campo_inserido agora tu _ (col_nn "tipo_acesso" TText) _ Hnd); [|done|].
    - rewrite Hc. unfold usuarios. set_solver.
    - unfold linha_usuario. set_solver. }
  assert (Hs : campo (montar_linha agora tu (list_to_map (linha_usuario d vnome)))
                 "senha" = VTexto (hash_senha (d_senha d))).
  { apply (campo_inserido agora tu _ (col_nn "senha" TText) _ Hnd); [|done|].
    - rewrite Hc. unfold usuarios. set_solver.
    - unfold linha_usuario. set_solver. }
  repeat split; try done.
  rewrite Hk in Hchk. by apply (check_usuarios_ok _ _ Hchk).
Qed.

(** C10.  With the form valid and the session's store open,
    [salvar_usuario] decides the permission by the access level of the
    first row of [usuarios] whose login name is the session's company
    name ([nome]), taken to be CEO when there is no such row:
    - with that level other than CEO, a target CEO or Administrador is
      refused ("Apenas o CEO pode cadastrar administradores!");
    - with that level neither CEO nor Administrador, a target Gerente is
      refused ("Apenas o CEO e administradores podem cadastrar
      gerentes!");
    - every other call is decided by the [INSERT] alone.
    A refusal writes nothing.  The session's own login and access level
    play no part: every session of the same company gets the same
    outcome.  So when no login name equals the company name, no target
    level is refused, CEO and Administrador included. *)
Theorem salvar_usuario_nivel_pelo_nome_da_empresa (amb : ambiente)
    (d : dados_usuario) (s : sessao) (w : mundo) (db nome : string)
    (b : gmap string tabela) (tu : tabela) :
  let r := salvar_usuario amb true d s w in
  let p := "deposito_empresas/" +:+ db +:+ ".db" in
  let lido := nivel_da_homonima nome tu in
  dados_validos d = true ->
  s !! "db_nome" = Some (VTexto db) ->
  s !! "nome" = Some (VTexto nome) ->
  arquivos w !! p = Some b ->
  b !! "usuarios" = Some tu ->
  usuarios_declarada tu = true ->
  (if decide (lido ≠ VTexto "CEO" /\ d_tipo d ∈ ["CEO"; "Administrador"])
   then r = (ApenasCeoCadastraAdministradores, w)
   else if decide ((lido ∉ [VTexto "CEO"; VTexto "Administrador"])
                   /\ d_tipo d = "Gerente")
   then r = (ApenasCeoEAdministradoresCadastramGerentes, w)
   else r = resultado_insercao amb d (VTexto nome) p b tu w)
  /\ (forall s' : sessao,
        s' !! "db_nome" = Some (VTexto db) ->
        s' !! "nome" = Some (VTexto nome) ->
        salvar_usuario amb true d s' w = r)
  /\ (filter (homonimo nome) (t_linhas tu) = [] ->
      r = resultado_insercao amb d (VTexto nome) p b tu w).
Proof.
  intros r p lido Hval Hdb Hnome Hb Htu Hdecl. subst r lido.
  assert (Heq : forall s' : sessao,
            s' !! "db_nome" = Some (VTexto db) ->
            s' !! "nome" = Some (VTexto nome) ->
            salvar_usuario amb true d s' w
            = match hierarquia (nivel_da_homonima nome tu) (d_tipo d) with
              | Some m => (m, w)
              | None => resultado_insercao amb d (VTexto nome) p b tu w
              end).
  { intros s' Hdb' Hnome'.
    rewrite (salvar_usuario_eq amb d s' w (VTexto db) (VTexto nome) b tu)
      by done.
    by rewrite tipo_atual_da_homonima. }
  split; [|split].
  - rewrite (Heq s Hdb Hnome), hierarquia_testes.
    destruct (decide (_ ≠ _ /\ _)); [done|].
    by destruct (decide ((_ ∉ _) /\ _)).
  - intros s' Hdb' Hnome'. by rewrite (Heq s' Hdb' Hnome'), (Heq s Hdb Hnome).
  - intros Hnone. rewrite (Heq s Hdb Hnome).
    unfold nivel_da_homonima. by rewrite Hnone.
Qed.

(** The theorem at Acme, twice.  With the operator logged in and no login
    name equal to [Acme], the operator registers a CEO.  Once a user with
    the login name [Acme] and the level Operador is registered, the
    owner, whose session holds the level CEO, is refused a manager. *)
Lemma salvar_usuario_nivel_pelo_nome_da_empresa_acme :
  Cenario.sessao_de Cenario.login_op !! "tipo_acesso" = Some (VTexto "Operador")
  /\ (salvar_usuario Cenario.amb0 true Cenario.dados_ceo_acme
        (Cenario.sessao_de Cenario.login_op) Cenario.acme3_logada).1
     = UsuarioCadastrado
  /\ Cenario.sessao_dono !! "tipo_acesso" = Some (VTexto "CEO")
  /\ salvar_usuario Cenario.amb0 true Cenario.dados_gerente_acme
       Cenario.sessao_dono Cenario.acme_homonimo
     = (ApenasCeoEAdministradoresCadastramGerentes, Cenario.acme_homonimo).
Proof.
  split; [calcular|]. split; [|split; [calcular|]].
  - pose proof (salvar_usuario_nivel_pelo_nome_da_empresa Cenario.amb0
                  Cenario.dados_ceo_acme
                  (Cenario.sessao_de Cenario.login_op) Cenario.acme3_logada
                  "acme_37036c" "Acme"
                  Cenario.loja_acme3 Cenario.usuarios_acme3) as H.
    cbv zeta in H.
    specialize (H ltac:(calcular) ltac:(calcular) ltac:(calcular)
                  ltac:(calcular) ltac:(calcular) ltac:(calcular)).
    destruct H as (_ & _ & H).
    rewrite H by calcular.
    unfold resultado_insercao.
    assert (Hi : sem_excecao
                   (inserir (agora Cenario.amb0)
                      (linha_usuario Cenario.dados_ceo_acme (VTexto "Acme"))
                      Cenario.usuarios_acme3) = true) by calcular.
    destruct (inserir _ _ Cenario.usuarios_acme3) as [e|tu']; [discriminate Hi|].
    reflexivity.
  - pose proof (salvar_usuario_nivel_pelo_nome_da_empresa Cenario.amb0
                  Cenario.dados_gerente_acme
                  Cenario.sessao_dono Cenario.acme_homonimo
                  "acme_37036c" "Acme"
                  Cenario.loja_homonimo Cenario.usuarios_homonimo) as H.
    cbv zeta in H.
    specialize (H ltac:(calcular) ltac:(calcular) ltac:(calcular)
                  ltac:(calcular) ltac:(calcular) ltac:(calcular)).
    destruct H as (H & _).
    decidir (nivel_da_homonima "Acme" Cenario.usuarios_homonimo ≠ VTexto "CEO"
             /\ d_tipo Cenario.dados_gerente_acme ∈ ["CEO"; "Administrador"]) H.
    decidir ((nivel_da_homonima "Acme" Cenario.usuarios_homonimo
                ∉ [VTexto "CEO"; VTexto "Administrador"])
             /\ d_tipo Cenario.dados_gerente_acme = "Gerente") H.
    exact H.
Defined.

(** ** The hierarchy at work *)

(** C2 (evaluation at the failing input).  Acme has its owner, an
    administrator and an operator.  The administrator, logged in,
    registers [bia] with the level Administrador, and the operator,
    logged in, registers [ger] with the level Gerente: both are answered
    "Usuário cadastrado com sucesso!" and the rows are in the table.  The
    permission check reads the level of the row whose login name is the
    company's name, finds none and takes CEO; the level of the session,
    Administrador or Operador, is not looked at. *)
Theorem cadastro_fora_da_hierarquia :
  let s_adm := Cenario.sessao_de Cenario.login_adm in
  let r_adm := salvar_usuario Cenario.amb0 true Cenario.dados_adm2 s_adm
                 Cenario.login_adm.1.2 in
  let s_op := Cenario.sessao_de Cenario.login_op in
  let r_op := salvar_usuario Cenario.amb0 true Cenario.dados_gerente_acme s_op
                Cenario.acme3_logada in
  Cenario.usuarios_em Cenario.banco_acme ["usuario"; "tipo_acesso"]
    Cenario.acme3
  = Some [[VTexto "dono"; VTexto "CEO"];
          [VTexto "adm"; VTexto "Administrador"];
          [VTexto "op"; VTexto "Operador"]]
  /\ Cenario.login_adm.1.1 = MenuPrincipal
  /\ s_adm !! "usuario" = Some (VTexto "adm")
  /\ s_adm !! "tipo_acesso" = Some (VTexto "Administrador")
  /\ d_tipo Cenario.dados_adm2 = "Administrador"
  /\ r_adm.1 = UsuarioCadastrado
  /\ Cenario.usuarios_em Cenario.banco_acme ["usuario"; "tipo_acesso"] r_adm.2
     = Some [[VTexto "dono"; VTexto "CEO"];
             [VTexto "adm"; VTexto "Administrador"];
             [VTexto "op"; VTexto "Operador"];
             [VTexto "bia"; VTexto "Administrador"]]
  /\ Cenario.login_op.1.1 = MenuPrincipal
  /\ s_op !! "usuario" = Some (VTexto "op")
  /\ s_op !! "tipo_acesso" = Some (VTexto "Operador")
  /\ d_tipo Cenario.dados_gerente_acme = "Gerente"
  /\ r_op.1 = UsuarioCadastrado
  /\ Cenario.usuarios_em Cenario.banco_acme ["usuario"; "tipo_acesso"] r_op.2
     = Some [[VTexto "dono"; VTexto "CEO"];
             [VTexto "adm"; VTexto "Administrador"];
             [VTexto "op"; VTexto "Operador"];
             [VTexto "ger"; VTexto "Gerente"]].
Proof. cbv zeta. calcular. Qed.

(** The check also lets a CEO through to another CEO: Beta's owner, whose
    login name is the company's and whose level is CEO, registers [socio]
    with the level CEO. *)
Example ceo_cadastra_outro_ceo :
  let r := salvar_usuario Cenario.amb0 true Cenario.dados_ceo2
             (Cenario.sessao_de Cenario.login_beta) Cenario.beta_logada in
  Cenario.usuarios_em Cenario.banco_beta ["usuario"; "tipo_acesso"]
    Cenario.beta_logada
  = Some [[VTexto "Beta"; VTexto "CEO"]]
  /\ d_tipo Cenario.dados_ceo2 = "CEO"
  /\ r.1 = UsuarioCadastrado
  /\ Cenario.usuarios_em Cenario.banco_beta ["usuario"; "tipo_acesso"] r.2
     = Some [[VTexto "Beta"; VTexto "CEO"]; [VTexto "socio"; VTexto "CEO"]].
Proof. cbv zeta. calcular. Qed.

(** ** [excluir_usuario] *)

Lemma apagar_ok (cols : list string) (p : gmap string valor -> bool)
    (t : tabela) :
  forallb (tem_coluna t) cols = true ->
  apagar cols p t
  = inr (Tabela (t_colunas t) (t_check t)
           (filter (fun l => p l = false) (t_linhas t)) (t_seq t)).
Proof. intros H. unfold apagar. by rewrite H. Qed.

(** What [excluir_usuario] does with a login selected, the session's
    store open and the confirmation accepted: it refuses with "Não é
    possível excluir o usuário administrador", changing nothing, exactly
    when the selected login is the session's [admin_user] entry; any
    other login is deleted, every row of [usuarios] with that login name
    goes and the others stay.  No access level is consulted: two sessions
    with the same [admin_user] and [db_nome] entries get the same
    outcome.  Without the confirmation nothing is deleted. *)
Lemma excluir_usuario_sem_hierarquia (usuario_atual : string) (s : sessao)
    (w : mundo) (vdb : valor) (b : gmap string tabela) (tu : tabela) :
  let r := excluir_usuario usuario_atual true s w in
  let protegido :=
    bool_decide (s !! "admin_user" = Some (VTexto usuario_atual)) in
  usuario_atual ≠ EmptyString ->
  s !! "db_nome" = Some vdb ->
  arquivos w !! caminho_db (str_de vdb) = Some b ->
  b !! "usuarios" = Some tu ->
  tem_coluna tu "usuario" = true ->
  (if protegido
   then r = (NaoPodeExcluirAdministrador, w)
   else r = (UsuarioExcluido,
             gravar (caminho_db (str_de vdb))
               (<["usuarios" :=
                    Tabela (t_colunas tu) (t_check tu)
                      (filter (fun l => igual "usuario" (VTexto usuario_atual) l
                                        = false) (t_linhas tu))
                      (t_seq tu)]> b) w))
  /\ (forall s' : sessao,
        s' !! "admin_user" = s !! "admin_user" ->
        s' !! "db_nome" = Some vdb ->
        excluir_usuario usuario_atual true s' w = r)
  /\ excluir_usuario usuario_atual false s w
     = (if protegido then NaoPodeExcluirAdministrador else ExclusaoCancelada, w).
Proof.
  intros r protegido Hu Hdb Hb Htu Hcol. subst r protegido.
  assert (Heq : forall s' : sessao,
            s' !! "db_nome" = Some vdb ->
            excluir_usuario usuario_atual true s' w
            = if bool_decide (s' !! "admin_user" = Some (VTexto usuario_atual))
              then (NaoPodeExcluirAdministrador, w)
              else (UsuarioExcluido,
                    gravar (caminho_db (str_de vdb))
                      (<["usuarios" :=
                           Tabela (t_colunas tu) (t_check tu)
                             (filter (fun l => igual "usuario"
                                                 (VTexto usuario_atual) l = false)
                                     (t_linhas tu))
                             (t_seq tu)]> b) w)).
  { intros s' Hdb'. unfold excluir_usuario.
    rewrite (vazio_false usuario_atual Hu).
    destruct (bool_decide (s' !! "admin_user" = _)); [done|].
    simpl negb. cbv iota. unfold obter_conexao_empresa.
    rewrite bool_decide_eq_false_2
      by (intros ->; by rewrite lookup_empty in Hdb').
    rewrite Hdb'.
    rewrite (abrir_existente _ b w Hb), (gravar_id _ b w Hb).
    rewrite (abrir_existente _ b w Hb).
    unfold alterar_tabela, em_tabela. rewrite Htu.
    rewrite apagar_ok by (simpl; by rewrite Hcol).
    reflexivity. }
  split; [|split].
  - rewrite (Heq s Hdb). by destruct (bool_decide _).
  - intros s' Hadm Hdb'. rewrite (Heq s' Hdb'), (Heq s Hdb). by rewrite Hadm.
  - unfold excluir_usuario. rewrite (vazio_false usuario_atual Hu).
    by destruct (bool_decide _).
Qed.

(** The lemma at Acme with its operator logged in and the administrator
    selected: the session has no [admin_user] entry and the deletion goes
    through. *)
Lemma excluir_usuario_sem_hierarquia_acme :
  (excluir_usuario "adm" true (Cenario.sessao_de Cenario.login_op)
     Cenario.acme3_logada).1
  = UsuarioExcluido.
Proof.
  pose proof (excluir_usuario_sem_hierarquia "adm"
                (Cenario.sessao_de Cenario.login_op) Cenario.acme3_logada
                (VTexto "acme_37036c") Cenario.loja_acme3
                Cenario.usuarios_acme3) as H.
  cbv zeta in H.
  specialize (H ltac:(calcular) ltac:(calcular) ltac:(calcular)
                ltac:(calcular) ltac:(calcular)).
  destruct H as (H & _ & _).
  replace (bool_decide (Cenario.sessao_de Cenario.login_op !! "admin_user"
                        = Some (VTexto "adm")))
    with false in H by calcular.
  rewrite H. reflexivity.
Defined.

(** C6 (evaluation at the failing input).  Acme was registered with the
    owner's login [dono], which the directory records as [admin_user],
    and has an administrator and an operator besides.  The operator logs
    in.  The session the login builds has no [admin_user] entry, so the
    guard of [excluir_usuario] compares the selected login with nothing:
    the operator deletes the owner, and is answered "Usuário excluído com
    sucesso".  The administrator goes the same way; no access level is
    compared. *)
Theorem operador_exclui_dono :
  let s := Cenario.sessao_de Cenario.login_op in
  let w := Cenario.acme3_logada in
  let r := excluir_usuario "dono" true s w in
  let r' := excluir_usuario "adm" true s w in
  Cenario.empresas_em ["nome"; "admin_user"] w
  = Some [[VTexto "Acme"; VTexto "dono"]]
  /\ Cenario.usuarios_em Cenario.banco_acme ["usuario"; "tipo_acesso"] w
     = Some [[VTexto "dono"; VTexto "CEO"];
             [VTexto "adm"; VTexto "Administrador"];
             [VTexto "op"; VTexto "Operador"]]
  /\ Cenario.login_op.1.1 = MenuPrincipal
  /\ s !! "usuario" = Some (VTexto "op")
  /\ s !! "tipo_acesso" = Some (VTexto "Operador")
  /\ s !! "admin_user" = None
  /\ r.1 = UsuarioExcluido
  /\ Cenario.usuarios_em Cenario.banco_acme ["usuario"; "tipo_acesso"] r.2
     = Some [[VTexto "adm"; VTexto "Administrador"];
             [VTexto "op"; VTexto "Operador"]]
  /\ r'.1 = UsuarioExcluido
  /\ Cenario.usuarios_em Cenario.banco_acme ["usuario"; "tipo_acesso"] r'.2
     = Some [[VTexto "dono"; VTexto "CEO"]; [VTexto "op"; VTexto "Operador"]].
Proof. cbv zeta. calcular. Qed.

(** The owner deletes the owner's own account as well. *)
Example dono_excluido :
  let s := Cenario.sessao_de Cenario.login_dono in
  let r := excluir_usuario "dono" true s Cenario.login_dono.1.2 in
  Cenario.empresas_em ["admin_user"] Cenario.acme = Some [[VTexto "dono"]]
  /\ s !! "admin_user" = None
  /\ r.1 = UsuarioExcluido
  /\ Cenario.usuarios_em Cenario.banco_acme ["usuario"] r.2 = Some [].
Proof. cbv zeta. calcular. Qed.

(** * Further properties of the code

    The schema statements, the store a registration provisions, the
    directory, what a login writes, the access levels on disk, and the
    deposits and products of a store. *)

Import Estoque.

(** ** Steps of a script *)

Section Passo.

Context (R : relation (gmap string tabela)) `{!PreOrder R}.

Lemma passo_ret {A : Type} (a : A) : passo R (ret a).
Proof. intros c. reflexivity. Qed.

Lemma passo_bind {A B : Type} (m : M A) (k : A -> M B) :
  passo R m -> (forall a, passo R (k a)) -> passo R (bind m k).
Proof.
  intros Hm Hk c. unfold bind. specialize (Hm c).
  destruct (m c) as [[e|a] c']; simpl in *; [done|].
  etransitivity; [exact Hm|]. apply Hk.
Qed.

Lemma passo_execute {A : Type}
    (f : gmap string tabela -> res (A * gmap string tabela)) :
  (forall b a b', f b = inr (a, b') -> R b b') -> passo R (execute f).
Proof.
  intros Hf [b fl]. unfold execute. simpl.
  destruct fl as [[[|n] e]|]; simpl; try reflexivity;
    destruct (f b) as [e'|[a b']] eqn:Hfb; simpl; try reflexivity;
    by apply (Hf b a b').
Qed.

Lemma passo_executar (f : gmap string tabela -> gmap string tabela) :
  (forall b, R b (f b)) -> passo R (executar f).
Proof. intros Hf. apply passo_execute. intros b a b' [= _ <-]. apply Hf. Qed.

Lemma passo_executar_res (f : gmap string tabela -> res (gmap string tabela)) :
  (forall b b', f b = inr b' -> R b b') -> passo R (executar_res f).
Proof.
  intros Hf. apply passo_execute. intros b a b' H.
  destruct (f b) as [e|b''] eqn:Hfb; [done|]. injection H as _ <-. by apply Hf.
Qed.

Lemma passo_consultar {A : Type} (f : gmap string tabela -> A) :
  passo R (consultar f).
Proof. apply passo_execute. intros b a b' [= _ <-]. reflexivity. Qed.

Lemma passo_ignorar (m : M unit) :
  passo R m -> passo R (ignorar_operational m).
Proof.
  intros Hm c. unfold ignorar_operational. specialize (Hm c).
  destruct (m c) as [[[]|[]] c']; exact Hm.
Qed.

Lemma passo_para_cada {A : Type} (xs : list A) (f : A -> M unit) :
  (forall x, x ∈ xs -> passo R (f x)) -> passo R (para_cada xs f).
Proof.
  induction xs as [|x xs IH]; intros Hf; simpl.
  - apply passo_ret.
  - apply passo_bind; [apply Hf; left|]. intros _. apply IH.
    intros y Hy. apply Hf. by right.
Qed.

(** The statements of [criar_banco_empresa] are steps of any relation each
    of the statements it runs is a step of. *)
Lemma passo_esquema_empresa :
  (forall b, R b (criar_se_ausente "produtos" produtos [] b)) ->
  (forall b b', criar "usuarios" usuarios check_usuarios b = inr b' -> R b b') ->
  (forall c b b',
     c ∈ colunas_necessarias ->
     alterar_tabela "usuarios"
       (adicionar_coluna (col_nn_def c TText (texto EmptyString))) b = inr b' ->
     R b b') ->
  (forall nc b, nc ∈ tabelas_comuns -> R b (criar_se_ausente nc.1 nc.2 [] b)) ->
  passo R esquema_empresa.
Proof.
  intros H1 H2 H3 H4. unfold esquema_empresa.
  apply passo_bind; [by apply passo_executar|]. intros _.
  apply passo_bind; [apply passo_consultar|]. intros ex.
  apply passo_bind.
  { destruct (negb ex).
    - apply passo_executar_res. intros b b'. apply H2.
    - apply passo_para_cada. intros c Hc. apply passo_ignorar.
      apply passo_executar_res. intros b b'. by apply H3. }
  intros _. apply passo_bind.
  { apply passo_para_cada. intros nc Hnc. apply passo_executar.
    intros b. by apply H4. }
  intros _. by apply passo_executar.
Qed.

End Passo.

(** ** Rows under the schema statements *)

Lemma tem_coluna_prefixo (t t' : tabela) (c : string) :
  t_colunas t `prefix_of` t_colunas t' ->
  tem_coluna t c = true -> tem_coluna t' c = true.
Proof.
  intros [k Hk] H. unfold tem_coluna, nomes in *.
  apply bool_decide_eq_true in H. apply bool_decide_eq_true.
  rewrite Hk, fmap_app. apply elem_of_app. by left.
Qed.

#[global] Instance estende_preordem : PreOrder estende.
Proof.
  split.
  - intros t. repeat split; try done. intros i l Hl. by exists l.
  - intros t1 t2 t3 (Hs1 & Hk1 & Hc1 & Hn1 & Hl1) (Hs2 & Hk2 & Hc2 & Hn2 & Hl2).
    split; [congruence|]. split; [congruence|].
    split; [by etransitivity|]. split; [congruence|].
    intros i l Hl. destruct (Hl1 i l Hl) as (l2 & Hl2' & Hv2).
    destruct (Hl2 i l2 Hl2') as (l3 & Hl3 & Hv3).
    exists l3. split; [done|]. intros c Hc.
    rewrite Hv3 by (by apply (tem_coluna_prefixo t1 t2)). by apply Hv2.
Qed.

#[global] Instance conserva_preordem : PreOrder conserva.
Proof.
  split.
  - intros b n t Ht. by exists t.
  - intros b1 b2 b3 H12 H23 n t Ht.
    destruct (H12 n t Ht) as (t2 & Ht2 & He2).
    destruct (H23 n t2 Ht2) as (t3 & Ht3 & He3).
    exists t3. split; [done|]. by etransitivity.
Qed.

(** [ALTER TABLE ADD COLUMN] keeps the rows and what they hold. *)
Lemma adicionar_coluna_estende (c : coluna) (t t' : tabela) :
  adicionar_coluna c t = inr t' -> estende t t'.
Proof.
  unfold adicionar_coluna. destruct (tem_coluna t (c_nome c)) eqn:Hc; [done|].
  intros [= <-]. unfold estende. cbn [t_seq t_check t_colunas t_linhas].
  split; [done|]. split; [done|]. split; [by exists [c]|].
  split; [by rewrite length_fmap|].
  intros i l Hl. rewrite list_lookup_fmap, Hl. simpl.
  eexists. split; [reflexivity|]. intros c0 Hc0.
  apply lookup_insert_ne. intros <-. congruence.
Qed.

Lemma conserva_inserir_novo (n : string) (t : tabela) (b : gmap string tabela) :
  b !! n = None -> conserva b (<[n := t]> b).
Proof.
  intros Hn n0 t0 Ht0. exists t0. split; [|reflexivity].
  rewrite lookup_insert_ne; [done|]. intros <-. congruence.
Qed.

Lemma conserva_criar_se_ausente (n : string) (cs : list coluna)
    (chk : list (string * list string)) (b : gmap string tabela) :
  conserva b (criar_se_ausente n cs chk b).
Proof.
  unfold criar_se_ausente. destruct (b !! n) eqn:Hn; [reflexivity|].
  by apply conserva_inserir_novo.
Qed.

Lemma conserva_criar (n : string) (cs : list coluna)
    (chk : list (string * list string)) (b b' : gmap string tabela) :
  criar n cs chk b = inr b' -> conserva b b'.
Proof.
  unfold criar. destruct (b !! n) eqn:Hn; [done|]. intros [= <-].
  by apply conserva_inserir_novo.
Qed.

Lemma conserva_alterar (n : string) (c : coluna) (b b' : gmap string tabela) :
  alterar_tabela n (adicionar_coluna c) b = inr b' -> conserva b b'.
Proof.
  unfold alterar_tabela, em_tabela. destruct (b !! n) as [t|] eqn:Hn; [|done].
  destruct (adicionar_coluna c t) as [e|t'] eqn:Ha; [done|]. intros [= <-].
  intros n0 t0 Ht0. destruct (decide (n0 = n)) as [->|Hne].
  - rewrite lookup_insert_eq. exists t'. split; [done|].
    assert (t0 = t) as -> by congruence. by apply (adicionar_coluna_estende c).
  - rewrite lookup_insert_ne by done. by exists t0.
Qed.

Lemma esquema_empresa_conserva (b : gmap string tabela)
    (fl : option (nat * excecao)) :
  conserva b (db (esquema_empresa (Con b fl)).2).
Proof.
  assert (H : passo conserva esquema_empresa).
  { apply passo_esquema_empresa; [apply _|..].
    - intros b0. apply conserva_criar_se_ausente.
    - intros b0 b'. apply conserva_criar.
    - intros c b0 b' _. apply conserva_alterar.
    - intros nc b0 _. apply conserva_criar_se_ausente. }
  exact (H (Con b fl)).
Qed.

(** X1.  Whatever the environment raises while the statements of
    [criar_banco_empresa] run on a file, and wherever they stop: every
    table the file had is still there, with the columns it had first,
    the same number of rows in the same order, and in every row the
    values it held. *)
Theorem esquema_empresa_conserva_linhas (b : gmap string tabela)
    (fl : option (nat * excecao)) (n : string) (t : tabela) :
  b !! n = Some t ->
  exists t',
    db (esquema_empresa (Con b fl)).2 !! n = Some t'
    /\ t_colunas t `prefix_of` t_colunas t'
    /\ length (t_linhas t') = length (t_linhas t)
    /\ forall (i : nat) (l : gmap string valor),
         t_linhas t !! i = Some l ->
         exists l', t_linhas t' !! i = Some l'
                    /\ forall c, tem_coluna t c = true -> l' !! c = l !! c.
Proof.
  intros Ht.
  destruct (esquema_empresa_conserva b fl n t Ht) as (t' & Ht' & He).
  exists t'. split; [exact Ht'|]. by destruct He as (_ & _ & ? & ? & ?).
Qed.

(** ** The schema statements without faults *)

Lemma para_cada_criar (xs : list (string * list coluna)) (b : gmap string tabela) :
  para_cada xs (fun nc => executar (criar_se_ausente nc.1 nc.2 [])) (Con b None)
  = (inr tt, Con (foldl (fun b nc => criar_se_ausente nc.1 nc.2 [] b) b xs) None).
Proof.
  revert b. induction xs as [|x xs IH]; intros b; [reflexivity|].
  simpl. unfold bind. simpl. apply IH.
Qed.

Lemma alterar_so_operational (n : string) (c : coluna) (b : gmap string tabela)
    (e : excecao) :
  alterar_tabela n (adicionar_coluna c) b = inl e -> exists m, e = OperationalError m.
Proof.
  unfold alterar_tabela, em_tabela, adicionar_coluna.
  destruct (b !! n) as [t|]; [|intros [= <-]; by eexists].
  destruct (tem_coluna t (c_nome c)); [|done]. intros [= <-]. by eexists.
Qed.

Lemma para_cada_migrar (cs : list string) (b : gmap string tabela) :
  para_cada cs
    (fun c => ignorar_operational
       (executar_res (alterar_tabela "usuarios"
          (adicionar_coluna (col_nn_def c TText (texto EmptyString))))))
    (Con b None)
  = (inr tt, Con (foldl migrar_coluna b cs) None).
Proof.
  revert b. induction cs as [|c cs IH]; intros b; [reflexivity|].
  simpl. unfold bind, ignorar_operational, executar_res, execute, migrar_coluna.
  simpl.
  destruct (alterar_tabela "usuarios" _ b) as [e|b'] eqn:Ha.
  - apply alterar_so_operational in Ha as [m ->]. simpl. apply IH.
  - simpl. apply IH.
Qed.

Lemma bind_ok {A B : Type} (m : M A) (k : A -> M B) (c c' : conexao) (a : A) :
  m c = (inr a, c') -> bind m k c = k a c'.
Proof. intros H. unfold bind. by rewrite H. Qed.

Lemma esquema_empresa_livre (b : gmap string tabela) :
  esquema_empresa (Con b None) = (inr tt, Con (esquema_final b) None).
Proof.
  unfold esquema_empresa, esquema_final.
  set (b1 := criar_se_ausente "produtos" produtos [] b).
  rewrite (bind_ok _ _ _ (Con b1 None) tt) by reflexivity.
  rewrite (bind_ok _ _ _ (Con b1 None) (tabela_existe "usuarios" b1))
    by reflexivity.
  destruct (tabela_existe "usuarios" b1) eqn:Hex; cbn [negb].
  - rewrite (bind_ok _ _ _ _ tt (para_cada_migrar _ _)).
    by rewrite (bind_ok _ _ _ _ tt (para_cada_criar _ _)).
  - unfold tabela_existe in Hex. apply bool_decide_eq_false in Hex.
    assert (Hu : b1 !! "usuarios" = None).
    { destruct (b1 !! "usuarios"); [|done]. destruct Hex. by eexists. }
    rewrite (bind_ok _ _ _
               (Con (<["usuarios" := tabela_vazia usuarios check_usuarios]> b1) None) tt).
    + by rewrite (bind_ok _ _ _ _ tt (para_cada_criar _ _)).
    + unfold executar_res, execute, criar. cbn [falha db]. by rewrite Hu.
Qed.

Lemma rodar_esquema_empresa (b : gmap string tabela) :
  rodar esquema_empresa b = (inr tt, esquema_final b).
Proof. unfold rodar. by rewrite esquema_empresa_livre. Qed.

(** ** Running the schema statements again *)

Lemma conserva_is_Some (b b' : gmap string tabela) (n : string) :
  conserva b b' -> is_Some (b !! n) -> is_Some (b' !! n).
Proof. intros H [t Ht]. destruct (H n t Ht) as (t' & Ht' & _). by exists t'. Qed.

Lemma criar_se_ausente_presente (n : string) (cs : list coluna)
    (chk : list (string * list string)) (b : gmap string tabela) :
  is_Some (b !! n) -> criar_se_ausente n cs chk b = b.
Proof. intros [t Ht]. unfold criar_se_ausente. by rewrite Ht. Qed.

Lemma criar_se_ausente_cria (n : string) (cs : list coluna)
    (chk : list (string * list string)) (b : gmap string tabela) :
  is_Some (criar_se_ausente n cs chk b !! n).
Proof.
  unfold criar_se_ausente. destruct (b !! n) eqn:Hn; [by rewrite Hn|].
  rewrite lookup_insert_eq. by eexists.
Qed.

Lemma conserva_foldl_criar (xs : list (string * list coluna))
    (b : gmap string tabela) :
  conserva b (foldl (fun b nc => criar_se_ausente nc.1 nc.2 [] b) b xs).
Proof.
  revert b. induction xs as [|x xs IH]; intros b; simpl; [reflexivity|].
  etransitivity; [apply (conserva_criar_se_ausente x.1 x.2 [])|apply IH].
Qed.

Lemma foldl_criar_cria (xs : list (string * list coluna))
    (b : gmap string tabela) :
  Forall (fun nc : string * list coluna =>
            is_Some (foldl (fun b nc => criar_se_ausente nc.1 nc.2 [] b) b xs
                     !! nc.1)) xs.
Proof.
  revert b. induction xs as [|x xs IH]; intros b; simpl; constructor.
  - eapply conserva_is_Some; [apply conserva_foldl_criar|].
    apply criar_se_ausente_cria.
  - apply IH.
Qed.

Lemma foldl_criar_presentes (xs : list (string * list coluna))
    (b : gmap string tabela) :
  Forall (fun nc : string * list coluna => is_Some (b !! nc.1)) xs ->
  foldl (fun b nc => criar_se_ausente nc.1 nc.2 [] b) b xs = b.
Proof.
  induction 1 as [|x xs Hx Hxs IH]; simpl; [done|].
  by rewrite criar_se_ausente_presente.
Qed.

(** One migration step on a file with the user table. *)
Lemma migrar_coluna_passo (b : gmap string tabela) (tu : tabela) (c : string) :
  b !! "usuarios" = Some tu ->
  exists tu', migrar_coluna b c !! "usuarios" = Some tu'
              /\ estende tu tu' /\ tem_coluna tu' c = true
              /\ (tem_coluna tu c = true -> migrar_coluna b c = b).
Proof.
  intros Htu. unfold migrar_coluna, alterar_tabela, em_tabela. rewrite Htu.
  destruct (adicionar_coluna _ tu) as [e|tu'] eqn:Ha.
  - exists tu. split; [done|]. split; [reflexivity|].
    unfold adicionar_coluna in Ha. simpl in Ha.
    destruct (tem_coluna tu c); done.
  - exists tu'. rewrite lookup_insert_eq. split; [done|].
    split; [by apply (adicionar_coluna_estende _ _ _ Ha)|].
    unfold adicionar_coluna in Ha. simpl in Ha.
    destruct (tem_coluna tu c) eqn:Hc; [done|]. injection Ha as <-.
    split; [|done]. unfold tem_coluna, nomes. simpl.
    apply bool_decide_eq_true. rewrite fmap_app. apply elem_of_app. right.
    simpl. left.
Qed.

Lemma conserva_migrar (b : gmap string tabela) (c : string) :
  conserva b (migrar_coluna b c).
Proof.
  unfold migrar_coluna.
  destruct (alterar_tabela _ _ b) as [e|b'] eqn:Ha; [reflexivity|].
  by apply (conserva_alterar _ _ _ _ Ha).
Qed.

Lemma conserva_foldl_migrar (cs : list string) (b : gmap string tabela) :
  conserva b (foldl migrar_coluna b cs).
Proof.
  revert b. induction cs as [|c cs IH]; intros b; simpl; [reflexivity|].
  etransitivity; [apply conserva_migrar|apply IH].
Qed.

Lemma foldl_migrar_colunas (cs : list string) (b : gmap string tabela)
    (tu : tabela) :
  b !! "usuarios" = Some tu ->
  exists tu', foldl migrar_coluna b cs !! "usuarios" = Some tu'
              /\ estende tu tu'
              /\ Forall (fun c => tem_coluna tu' c = true) cs.
Proof.
  revert b tu. induction cs as [|c cs IH]; intros b tu Htu; simpl.
  - exists tu. split; [done|]. split; [reflexivity|]. constructor.
  - destruct (migrar_coluna_passo b tu c Htu) as (tu1 & Htu1 & He1 & Hc1 & _).
    destruct (IH _ tu1 Htu1) as (tu' & Htu' & He' & Hcs).
    exists tu'. split; [done|]. split; [by etransitivity|].
    constructor; [|done].
    destruct He' as (_ & _ & Hp & _). by apply (tem_coluna_prefixo tu1).
Qed.

Lemma foldl_migrar_presentes (cs : list string) (b : gmap string tabela)
    (tu : tabela) :
  b !! "usuarios" = Some tu ->
  Forall (fun c => tem_coluna tu c = true) cs ->
  foldl migrar_coluna b cs = b.
Proof.
  intros Htu H. induction H as [|c cs Hc Hcs IH]; simpl; [done|].
  destruct (migrar_coluna_passo b tu c Htu) as (_ & _ & _ & _ & Heq).
  by rewrite Heq.
Qed.

Lemma esquema_final_completo (b : gmap string tabela) :
  completo b -> esquema_final b = b.
Proof.
  intros (Hp & (tu & Htu & Hcs) & Hx). unfold esquema_final.
  rewrite criar_se_ausente_presente by done.
  unfold tabela_existe. rewrite bool_decide_eq_true_2 by (by exists tu).
  rewrite (foldl_migrar_presentes _ _ tu) by done.
  by apply foldl_criar_presentes.
Qed.

Lemma completo_esquema_final (b : gmap string tabela) :
  completo (esquema_final b).
Proof.
  unfold esquema_final.
  set (b1 := criar_se_ausente "produtos" produtos [] b).
  set (b2 := if tabela_existe "usuarios" b1 then _ else _).
  assert (H12 : conserva b1 b2).
  { subst b2. destruct (tabela_existe "usuarios" b1) eqn:Hex.
    - apply conserva_foldl_migrar.
    - apply conserva_inserir_novo. unfold tabela_existe in Hex.
      apply bool_decide_eq_false in Hex.
      destruct (b1 !! "usuarios"); [|done]. destruct Hex. by eexists. }
  assert (Hu2 : exists tu, b2 !! "usuarios" = Some tu
                 /\ Forall (fun c => tem_coluna tu c = true) colunas_necessarias).
  { subst b2. destruct (tabela_existe "usuarios" b1) eqn:Hex.
    - apply bool_decide_eq_true in Hex as [tu Htu].
      destruct (foldl_migrar_colunas colunas_necessarias b1 tu Htu)
        as (tu' & Htu' & _ & Hcs).
      by exists tu'.
    - exists (tabela_vazia usuarios check_usuarios).
      rewrite lookup_insert_eq. split; [done|].
      apply Forall_forall. intros c Hc.
      unfold colunas_necessarias in Hc.
      rewrite !elem_of_cons, elem_of_nil in Hc.
      destruct Hc as [->|[->|[->|[->|[->|[]]]]]]; reflexivity. }
  pose proof (conserva_foldl_criar tabelas_comuns b2) as H2f.
  split; [|split].
  - eapply conserva_is_Some; [exact H2f|].
    eapply conserva_is_Some; [exact H12|]. apply criar_se_ausente_cria.
  - destruct Hu2 as (tu & Htu & Hcs).
    destruct (H2f _ _ Htu) as (tu' & Htu' & (_ & _ & Hp & _)).
    exists tu'. split; [done|].
    eapply Forall_impl; [exact Hcs|]. intros c. by apply tem_coluna_prefixo.
  - apply foldl_criar_cria.
Qed.


(** ** [criar_banco_empresa] as a whole *)

Lemma caminho_alternativo_outro (db_nome : string) (t : Z) :
  caminho_alternativo db_nome t ≠ caminho_db db_nome.
Proof.
  unfold caminho_alternativo, caminho_db. intros H.
  apply (inj (String.app _)) in H. apply (inj (String.app _)) in H.
  discriminate H.
Qed.

Lemma abrir_ausente (p : string) (w : mundo) :
  arquivos w !! p = None -> abrir w p = ∅.
Proof. intros H. unfold abrir. by rewrite H. Qed.

Lemma esquema_novo_sem_linhas :
  dom (esquema_final ∅)
  = ({[ "produtos"; "usuarios"; "movimentacoes_estoque"; "depositos";
        "localizacao_produtos"; "fornecedores"; "pedidos"; "itens_pedido";
        "rastreamento_entregas" ]} : gset string)
  /\ map_Forall (fun _ t => t_linhas t = []) (esquema_final ∅).
Proof. calcular. Qed.

(** X3.  [criar_banco_empresa] on a store that is not in use, while the
    environment raises nothing: it returns normally and the file at the
    store's path is the empty schema, nine tables without a row, whatever
    the file held before; the directory and the other files stay. *)
Theorem criar_banco_empresa_recria (amb : ambiente) (tent : nat)
    (db_nome : string) (w : mundo) :
  let r := criar_banco_empresa amb tent db_nome w in
  falha_criar amb tent = None ->
  caminho_db db_nome ∉ bloqueados w ->
  r.1 = inr tt
  /\ principal r.2 = principal w
  /\ arquivos r.2 = <[caminho_db db_nome := esquema_final ∅]> (arquivos w)
  /\ (forall n t, arquivos r.2 !! caminho_db db_nome ≫= (.!! n) = Some t ->
                  t_linhas t = []).
Proof.
  intros r Hf Hb. subst r. unfold criar_banco_empresa. cbv zeta.
  rewrite (bool_decide_eq_false_2 _ Hb), Hf.
  assert (Hsem : forall n t,
            <[caminho_db db_nome := esquema_final ∅]> (arquivos w)
              !! caminho_db db_nome ≫= (.!! n) = Some t -> t_linhas t = []).
  { intros n t. rewrite lookup_insert_eq. simpl. intros Ht.
    by apply (proj2 esquema_novo_sem_linhas n t). }
  destruct (existe w (caminho_db db_nome)) eqn:Hex.
  - rewrite (abrir_ausente _ (remover _ w)) by apply lookup_delete_eq.
    cbn [apos_conectar]. rewrite esquema_empresa_livre. cbn [fst snd db gravar remover principal arquivos].
    rewrite insert_delete_eq. done.
  - unfold existe in Hex. apply bool_decide_eq_false in Hex.
    rewrite abrir_ausente.
    + cbn [apos_conectar]. rewrite esquema_empresa_livre. done.
    + destruct (arquivos w !! _); [|done]. destruct Hex. by eexists.
Qed.

(** The theorem at the store of Acme, which holds the owner's row: the
    row is gone. *)
Lemma criar_banco_empresa_recria_acme :
  Cenario.usuarios_em Cenario.banco_acme ["usuario"] Cenario.acme
  = Some [[VTexto "dono"]]
  /\ Cenario.usuarios_em Cenario.banco_acme ["usuario"]
       (criar_banco_empresa Cenario.amb0 0 "acme_37036c" Cenario.acme).2
     = Some [].
Proof.
  split; [calcular|].
  pose proof (criar_banco_empresa_recria Cenario.amb0 0 "acme_37036c"
                Cenario.acme) as H.
  cbv zeta in H. specialize (H eq_refl ltac:(calcular)).
  destruct H as (_ & _ & Ha & _).
  unfold Cenario.usuarios_em. rewrite Ha.
  change Cenario.banco_acme with (caminho_db "acme_37036c").
  rewrite lookup_insert_eq. reflexivity.
Defined.

(** X4.  [criar_banco_empresa] on a store that exists and is in use, while
    the environment raises nothing: the store is left as it is and the
    schema goes to a file named after the clock, where it keeps what that
    file held. *)
Theorem criar_banco_empresa_em_uso (amb : ambiente) (tent : nat)
    (db_nome : string) (w : mundo) (f : gmap string tabela) :
  let r := criar_banco_empresa amb tent db_nome w in
  let alt := caminho_alternativo db_nome (tempo amb tent) in
  falha_criar amb tent = None ->
  arquivos w !! caminho_db db_nome = Some f ->
  caminho_db db_nome ∈ bloqueados w ->
  r.1 = inr tt
  /\ principal r.2 = principal w
  /\ arquivos r.2 !! caminho_db db_nome = Some f
  /\ arquivos r.2 = <[alt := esquema_final (abrir w alt)]> (arquivos w)
  /\ conserva (abrir w alt) (esquema_final (abrir w alt)).
Proof.
  intros r alt Hf Hp Hb. subst r alt. unfold criar_banco_empresa. cbv zeta.
  unfold existe. rewrite Hp, (bool_decide_eq_true_2 _ (mk_is_Some _ _ eq_refl)).
  rewrite (bool_decide_eq_true_2 _ Hb), Hf. cbn [apos_conectar].
  rewrite esquema_empresa_livre. cbn [fst snd db gravar principal arquivos].
  repeat split.
  - rewrite lookup_insert_ne by apply caminho_alternativo_outro. done.
  - pose proof (esquema_empresa_conserva
                  (abrir w (caminho_alternativo db_nome (tempo amb tent))) None) as H.
    by rewrite esquema_empresa_livre in H.
Qed.

(** The theorem at the store of Acme while it is in use. *)
Lemma criar_banco_empresa_em_uso_acme :
  arquivos
    (criar_banco_empresa Cenario.amb0 0 "acme_37036c"
       (Mundo (principal Cenario.acme) (arquivos Cenario.acme)
          {[ Cenario.banco_acme ]})).2
    !! Cenario.banco_acme
  = Some Cenario.loja_acme.
Proof.
  pose proof (criar_banco_empresa_em_uso Cenario.amb0 0 "acme_37036c"
                (Mundo (principal Cenario.acme) (arquivos Cenario.acme)
                   {[ Cenario.banco_acme ]})
                Cenario.loja_acme) as H.
  cbv zeta in H.
  specialize (H eq_refl ltac:(calcular) ltac:(calcular)).
  destruct H as (_ & _ & H & _). exact H.
Defined.

(** ** The owner seeded by [cadastrar_empresa] *)

#[global] Instance mantem_preordem (P : gmap string tabela -> Prop) :
  PreOrder (fun b b' => P b -> P b').
Proof. split; [by intros b|]. intros b1 b2 b3 H12 H23 H. auto. Qed.

Lemma usuarios_nova_outra (n : string) (t : tabela) (b : gmap string tabela) :
  n ≠ "usuarios" -> usuarios_nova b -> usuarios_nova (<[n := t]> b).
Proof.
  intros Hn Hb t0. rewrite lookup_insert_ne by done. apply Hb.
Qed.

Lemma usuarios_nova_criar_se_ausente (n : string) (cs : list coluna)
    (b : gmap string tabela) :
  n ≠ "usuarios" -> usuarios_nova b -> usuarios_nova (criar_se_ausente n cs [] b).
Proof.
  intros Hn Hb. unfold criar_se_ausente. destruct (b !! n); [done|].
  by apply usuarios_nova_outra.
Qed.

(** Whatever the environment raises, the statements of
    [criar_banco_empresa] leave a new user table new. *)
Lemma esquema_empresa_usuarios_nova (b : gmap string tabela)
    (fl : option (nat * excecao)) :
  usuarios_nova b -> usuarios_nova (db (esquema_empresa (Con b fl)).2).
Proof.
  assert (H : passo (fun b b' => usuarios_nova b -> usuarios_nova b')
                esquema_empresa); [|exact (H (Con b fl))].
  apply passo_esquema_empresa; [apply _|..].
  - intros b0. by apply usuarios_nova_criar_se_ausente.
  - intros b0 b'. unfold criar. destruct (b0 !! "usuarios"); [done|].
    intros [= <-] _ t. rewrite lookup_insert_eq. by intros [= <-].
  - intros c b0 b' Hc. unfold alterar_tabela, em_tabela.
    destruct (b0 !! "usuarios") as [t|] eqn:Ht; [|done].
    intros Ha Hb0. rewrite (Hb0 t Ht) in Ha. exfalso.
    unfold colunas_necessarias in Hc. rewrite !elem_of_cons, elem_of_nil in Hc.
    destruct Hc as [->|[->|[->|[->|[->|[]]]]]]; discriminate Ha.
  - intros nc b0 Hnc. apply usuarios_nova_criar_se_ausente.
    unfold tabelas_comuns in Hnc. rewrite !elem_of_cons, elem_of_nil in Hnc.
    destruct Hnc as [->|[->|[->|[->|[->|[->|[->|[]]]]]]]]; discriminate.
Qed.

Lemma criar_banco_empresa_loja_nova (amb : ambiente) (tent : nat)
    (db_nome : string) (w : mundo) :
  loja_nova (caminho_db db_nome) w ->
  loja_nova (caminho_db db_nome) (criar_banco_empresa amb tent db_nome w).2.
Proof.
  intros Hw. unfold criar_banco_empresa. cbv zeta.
  assert (Hvazio : usuarios_nova ∅) by (intros t; by rewrite lookup_empty).
  assert (Hrem : loja_nova (caminho_db db_nome) (remover (caminho_db db_nome) w)).
  { intros b. unfold remover. simpl. by rewrite lookup_delete_eq. }
  assert (Hnovo : forall w1 fl,
            arquivos w1 !! caminho_db db_nome = None ->
            loja_nova (caminho_db db_nome)
              (gravar (caminho_db db_nome)
                 (db (esquema_empresa
                        (Con (abrir w1 (caminho_db db_nome)) fl)).2) w1)).
  { intros w1 fl Hn b. unfold gravar. simpl. rewrite lookup_insert_eq.
    intros [= <-]. apply esquema_empresa_usuarios_nova.
    by rewrite abrir_ausente. }
  destruct (existe w (caminho_db db_nome)) eqn:Hex.
  - destruct (bool_decide (caminho_db db_nome ∈ bloqueados w)).
    + destruct (falha_criar amb tent) as [[[|n] e]|]; [done|..];
        destruct (esquema_empresa _) as [r c]; simpl;
        intros b; unfold gravar; simpl;
        rewrite lookup_insert_ne by apply caminho_alternativo_outro;
        apply Hw.
    + destruct (falha_criar amb tent) as [[[|n] e]|]; [done|..].
      * specialize (Hnovo (remover (caminho_db db_nome) w) (Some (n, e))).
        cbn [apos_conectar]. destruct (esquema_empresa _) as [r c]. simpl in *.
        apply Hnovo. apply lookup_delete_eq.
      * specialize (Hnovo (remover (caminho_db db_nome) w) None).
        cbn [apos_conectar]. destruct (esquema_empresa _) as [r c]. simpl in *.
        apply Hnovo. apply lookup_delete_eq.
  - unfold existe in Hex. apply bool_decide_eq_false in Hex.
    assert (Hn : arquivos w !! caminho_db db_nome = None).
    { destruct (arquivos w !! _); [|done]. destruct Hex. by eexists. }
    destruct (falha_criar amb tent) as [[[|n] e]|]; [done|..].
    + specialize (Hnovo w (Some (n, e)) Hn).
      cbn [apos_conectar]. by destruct (esquema_empresa _) as [r c].
    + specialize (Hnovo w None Hn).
      cbn [apos_conectar]. by destruct (esquema_empresa _) as [r c].
Qed.

(** The [INSERT] of the owner into a new user table. *)
Lemma inserir_ceo (amb : ambiente) (db_nome nome senha admin : string) :
  exists l,
    inserir (agora amb) (linha_ceo amb db_nome nome senha admin)
      (tabela_vazia usuarios check_usuarios)
    = inr (Tabela usuarios check_usuarios [l] 1)
    /\ campo l "id" = VInt 1
    /\ campo l "usuario" = VTexto admin
    /\ campo l "senha" = VTexto (hash_senha senha)
    /\ campo l "tipo_acesso" = VTexto "CEO"
    /\ campo l "codigo_empresa" = VTexto db_nome
    /\ campo l "empresa_nome" = VTexto nome
    /\ campo l "criado_por" = VTexto "SISTEMA".
Proof.
  unfold linha_ceo.
  generalize (hash_senha senha) (email_admin admin nome) (agora amb) (hoje amb).
  intros h e a d. eexists. split; [vm_compute; reflexivity|].
  vm_compute. repeat split.
Qed.

Lemma semear_ceo_principal (amb : ambiente) (tent : nat)
    (db_nome nome senha admin : string) (w : mundo) :
  principal (semear_ceo amb tent db_nome nome senha admin w).2 = principal w.
Proof.
  unfold semear_ceo. cbv zeta.
  repeat (match goal with |- context [match ?x with _ => _ end] => destruct x end;
          try reflexivity).
Qed.

Lemma semear_ceo_sucesso (amb : ambiente) (tent : nat)
    (db_nome nome senha admin : string) (w w' : mundo) :
  loja_nova (caminho_db db_nome) w ->
  semear_ceo amb tent db_nome nome senha admin w = (CadastradaComSucesso, w') ->
  exists b l,
    arquivos w' !! caminho_db db_nome = Some b
    /\ b !! "usuarios" = Some (Tabela usuarios check_usuarios [l] 1)
    /\ inserir (agora amb) (linha_ceo amb db_nome nome senha admin)
         (tabela_vazia usuarios check_usuarios)
       = inr (Tabela usuarios check_usuarios [l] 1).
Proof.
  intros Hw. unfold semear_ceo. cbv zeta.
  destruct (tabela_existe "usuarios" _) eqn:Hex; [|done]. simpl negb. cbv iota.
  apply bool_decide_eq_true in Hex as [t Ht].
  assert (Hb : arquivos w !! caminho_db db_nome = Some (abrir w (caminho_db db_nome))).
  { unfold abrir in *. destruct (arquivos w !! caminho_db db_nome); [done|].
    simpl in Ht. by rewrite lookup_empty in Ht. }
  rewrite (Hw _ Hb t Ht) in Ht.
  unfold em_tabela at 1. rewrite Ht.
  replace (selecionar ["id"; "usuario"] (igual "usuario" (VTexto admin))
             (tabela_vazia usuarios check_usuarios))
    with (inr [] : res (list (gmap string valor))) by reflexivity.
  destruct (falha_semear amb tent); [done|].
  unfold alterar_tabela, em_tabela. rewrite Ht.
  destruct (inserir_ceo amb db_nome nome senha admin) as (l & Hl & _).
  rewrite Hl. intros [= <-]. eexists _, l.
  unfold gravar. simpl. rewrite lookup_insert_eq. split; [done|].
  by rewrite lookup_insert_eq.
Qed.

Lemma criar_banco_empresa_principal (amb : ambiente) (tent : nat)
    (db_nome : string) (w : mundo) :
  principal (criar_banco_empresa amb tent db_nome w).2 = principal w.
Proof.
  unfold criar_banco_empresa. cbv zeta.
  destruct (existe w _); [destruct (bool_decide _)|];
    destruct (falha_criar amb tent) as [[[|n] e]|]; try reflexivity;
    by destruct (esquema_empresa _).
Qed.

Lemma tentativas_principal (amb : ambiente) (ts : list nat)
    (db_nome nome senha admin : string) (w : mundo) :
  principal (tentativas amb ts db_nome nome senha admin w).2 = principal w.
Proof.
  revert w. induction ts as [|tent ts IH]; intros w; simpl; [done|].
  pose proof (criar_banco_empresa_principal amb tent db_nome w) as Hp.
  destruct (criar_banco_empresa amb tent db_nome w) as [[e|[]] w1]; simpl in Hp.
  - destruct e; try exact Hp.
    destruct (tent <? 2)%nat; [|exact Hp].
    by rewrite IH.
  - by rewrite semear_ceo_principal.
Qed.

Lemma tentativas_sucesso (amb : ambiente) (ts : list nat)
    (db_nome nome senha admin : string) (w w' : mundo) :
  loja_nova (caminho_db db_nome) w ->
  tentativas amb ts db_nome nome senha admin w = (CadastradaComSucesso, w') ->
  exists b l,
    arquivos w' !! caminho_db db_nome = Some b
    /\ b !! "usuarios" = Some (Tabela usuarios check_usuarios [l] 1)
    /\ inserir (agora amb) (linha_ceo amb db_nome nome senha admin)
         (tabela_vazia usuarios check_usuarios)
       = inr (Tabela usuarios check_usuarios [l] 1).
Proof.
  revert w. induction ts as [|tent ts IH]; intros w Hw; simpl; [done|].
  pose proof (criar_banco_empresa_loja_nova amb tent db_nome w Hw) as Hw1.
  destruct (criar_banco_empresa amb tent db_nome w) as [[e|[]] w1]; simpl in Hw1.
  - destruct e; try done. destruct (tent <? 2)%nat; [|done]. by apply IH.
  - by apply semear_ceo_sucesso.
Qed.

(** A column the [INSERT] names holds the value it gives, whatever the
    table declares. *)
Lemma campo_montar_linha_dado (agora : string) (t : tabela)
    (vals : gmap string valor) (c : string) (v : valor) :
  tem_coluna t c = true -> vals !! c = Some v ->
  campo (montar_linha agora t vals) c = v.
Proof.
  unfold tem_coluna, nomes, montar_linha, campo. generalize (t_seq t) as sq.
  intros sq Hc Hv. apply bool_decide_eq_true in Hc.
  induction (t_colunas t) as [|c0 cs IH]; [by apply elem_of_nil in Hc|].
  simpl. destruct (decide (c_nome c0 = c)) as [<-|Hne].
  - by rewrite lookup_insert_eq, Hv.
  - rewrite lookup_insert_ne by done. apply IH.
    rewrite fmap_cons in Hc. apply elem_of_cons in Hc as [Hc|Hc]; [congruence|done].
Qed.

(** What the directory transaction leaves when it goes through. *)
Lemma registrar_no_diretorio_inr (amb : ambiente)
    (nome senha admin db_nome : string) (logo_path : option string)
    (b b' : gmap string tabela) :
  registrar_no_diretorio amb nome senha admin db_nome logo_path b = inr b' ->
  exists te l,
    b !! "empresas" = Some te
    /\ b' = <["empresas" := Tabela (t_colunas te) (t_check te)
                              (t_linhas te ++ [l]) (t_seq te + 1)]> b
    /\ filter (fun l => igual "nome" (VTexto nome) l = true) (t_linhas te) = []
    /\ inserir (agora amb)
         [ ("nome", VTexto nome);
           ("senha", VTexto (hash_senha senha));
           ("logo_path", logo_final amb nome logo_path);
           ("db_nome", VTexto db_nome);
           ("admin_user", VTexto admin) ] te
       = inr (Tabela (t_colunas te) (t_check te) (t_linhas te ++ [l])
                (t_seq te + 1))
    /\ forallb (tem_coluna te)
         ["id"; "nome"; "senha"; "logo_path"; "db_nome"; "admin_user"] = true
    /\ campo l "nome" = VTexto nome
    /\ campo l "senha" = VTexto (hash_senha senha)
    /\ campo l "db_nome" = VTexto db_nome
    /\ campo l "admin_user" = VTexto admin.
Proof.
  unfold registrar_no_diretorio, alterar_tabela, em_tabela.
  destruct (b !! "empresas") as [te|] eqn:Hte; [|done].
  unfold selecionar.
  destruct (forallb (tem_coluna te) ["id"; "nome"]) eqn:Hsel; [|done].
  destruct (filter _ (t_linhas te)) as [|x r] eqn:Hfil; [|done].
  destruct (inserir _ _ te) as [e|te'] eqn:Hins; [done|]. intros [= <-].
  pose proof Hins as Hins'.
  apply inserir_inr in Hins' as (-> & _ & _ & _).
  assert (Hcols : forallb (tem_coluna te)
            ["nome"; "senha"; "logo_path"; "db_nome"; "admin_user"] = true).
  { unfold inserir in Hins.
    destruct (forallb (tem_coluna te) _) eqn:Hc in Hins; [exact Hc|done]. }
  simpl in Hsel, Hcols.
  apply andb_true_iff in Hsel as [Hid _].
  apply andb_true_iff in Hcols as [Hn Hcols].
  apply andb_true_iff in Hcols as [Hs Hcols].
  apply andb_true_iff in Hcols as [Hl Hcols].
  apply andb_true_iff in Hcols as [Hd Hcols].
  apply andb_true_iff in Hcols as [Ha _].
  eexists te, _. split; [done|]. split; [done|]. split; [done|].
  split; [exact Hins|].
  split; [simpl; by rewrite Hid, Hn, Hs, Hl, Hd, Ha|].
  generalize (hash_senha senha) (logo_final amb nome logo_path). intros h lg.
  repeat split; apply campo_montar_linha_dado; done.
Qed.

(** The messages of the directory transaction. *)
Lemma registrar_no_diretorio_inl (amb : ambiente)
    (nome senha admin db_nome : string) (logo_path : option string)
    (b : gmap string tabela) (m : msg_cadastro) :
  registrar_no_diretorio amb nome senha admin db_nome logo_path b = inl m ->
  m = EmpresaJaCadastrada \/ m = ErroAoCadastrar.
Proof.
  unfold registrar_no_diretorio.
  destruct (em_tabela _ _ b) as [e|[|x r]].
  - intros [= <-]. destruct e; auto.
  - destruct (alterar_tabela _ _ b) as [e|b']; [|done].
    intros [= <-]. destruct e; auto.
  - intros [= <-]. auto.
Qed.

(** What a registration answered "Empresa cadastrada com sucesso!"
    went through. *)
Lemma cadastro_sucesso_inv (amb : ambiente)
    (entry_nome entry_senha entry_admin : string) (logo_path : option string)
    (w w' : mundo) :
  let nome := Texto.strip entry_nome in
  let senha := Texto.strip entry_senha in
  let admin := Texto.strip entry_admin in
  cadastrar_empresa amb entry_nome entry_senha entry_admin logo_path w
  = (CadastradaComSucesso, w') ->
  Texto.vazio nome || Texto.vazio senha || Texto.vazio admin = false
  /\ exists te e b l,
       principal w !! "empresas" = Some te
       /\ principal w' !! "empresas"
          = Some (Tabela (t_colunas te) (t_check te) (t_linhas te ++ [e])
                    (t_seq te + 1))
       /\ filter (fun l => igual "nome" (VTexto nome) l = true) (t_linhas te) = []
       /\ forallb (tem_coluna te)
            ["id"; "nome"; "senha"; "logo_path"; "db_nome"; "admin_user"] = true
       /\ campo e "nome" = VTexto nome
       /\ campo e "senha" = VTexto (hash_senha senha)
       /\ campo e "db_nome" = VTexto (db_nome_de nome)
       /\ campo e "admin_user" = VTexto admin
       /\ arquivos w' !! caminho_db (db_nome_de nome) = Some b
       /\ b !! "usuarios" = Some (Tabela usuarios check_usuarios [l] 1)
       /\ inserir (agora amb) (linha_ceo amb (db_nome_de nome) nome senha admin)
            (tabela_vazia usuarios check_usuarios)
          = inr (Tabela usuarios check_usuarios [l] 1).
Proof.
  intros nome senha admin. subst nome senha admin.
  unfold cadastrar_empresa. cbv zeta.
  destruct (_ || _); [discriminate|].
  destruct (negb _); [discriminate|].
  destruct (_ <? _)%nat; [discriminate|].
  set (p := caminho_db (db_nome_de (Texto.strip entry_nome))).
  destruct (existe w p && bool_decide (p ∈ bloqueados w)); [discriminate|].
  intros Ht. split; [reflexivity|]. revert Ht.
  set (w1 := if existe w p then remover p w else w).
  assert (Hp1 : principal w1 = principal w) by (subst w1; by destruct (existe w p)).
  assert (Hn1 : loja_nova p w1).
  { intros b Hb. subst w1. destruct (existe w p) eqn:Hex.
    - unfold remover in Hb. simpl in Hb. by rewrite lookup_delete_eq in Hb.
    - unfold existe in Hex. apply bool_decide_eq_false in Hex.
      destruct Hex. by exists b. }
  destruct (registrar_no_diretorio _ _ _ _ _ _ _) as [m|b'] eqn:Hreg.
  { intros [= -> _].
    apply registrar_no_diretorio_inl in Hreg as [?|?]; discriminate. }
  intros Ht.
  apply registrar_no_diretorio_inr in Hreg
    as (te & e & Hte & -> & Hfil & _ & Hcols & He1 & He2 & He3 & He4).
  pose proof (tentativas_principal amb (seq 0 3)
                (db_nome_de (Texto.strip entry_nome)) (Texto.strip entry_nome)
                (Texto.strip entry_senha) (Texto.strip entry_admin)
                (gravar_principal
                   (<["empresas" := Tabela (t_colunas te) (t_check te)
                        (t_linhas te ++ [e]) (t_seq te + 1)]> (principal w1))
                   w1)) as Hpr.
  rewrite Ht in Hpr. cbn [snd gravar_principal principal] in Hpr.
  apply tentativas_sucesso in Ht as (b & l & Hb & Hu & Hins); [|exact Hn1].
  exists te, e, b, l. rewrite <- Hp1, Hpr, lookup_insert_eq.
  split; [exact Hte|]. split; [reflexivity|]. split; [exact Hfil|].
  split; [exact Hcols|]. split; [exact He1|]. split; [exact He2|].
  split; [exact He3|]. split; [exact He4|]. split; [exact Hb|].
  split; [exact Hu|exact Hins].
Qed.

(** X5.  A registration under a name in ASCII answered "Empresa cadastrada
    com sucesso!", whatever the environment raised on the way and
    whatever the disk held: the directory got one row, last, with the
    name, the digest of the password, the store name derived from the
    name and the owner's login, each as entered and stripped; and the
    user table of the company's store holds exactly one row, the owner's,
    with the login and the digest of the password given at registration
    and the access level CEO. *)
Theorem cadastro_sucesso_semeia_ceo (amb : ambiente)
    (entry_nome entry_senha entry_admin : string) (logo_path : option string)
    (w w' : mundo) :
  let nome := Texto.strip entry_nome in
  let senha := Texto.strip entry_senha in
  let admin := Texto.strip entry_admin in
  Texto.todos eh_ascii nome = true ->
  cadastrar_empresa amb entry_nome entry_senha entry_admin logo_path w
  = (CadastradaComSucesso, w') ->
  (exists te te' e,
     principal w !! "empresas" = Some te
     /\ principal w' !! "empresas" = Some te'
     /\ t_linhas te' = (t_linhas te ++ [e])%list
     /\ campo e "nome" = VTexto nome
     /\ campo e "senha" = VTexto (hash_senha senha)
     /\ campo e "db_nome" = VTexto (db_nome_de nome)
     /\ campo e "admin_user" = VTexto admin)
  /\ (exists b l,
        arquivos w' !! caminho_db (db_nome_de nome) = Some b
        /\ b !! "usuarios" = Some (Tabela usuarios check_usuarios [l] 1)
        /\ campo l "usuario" = VTexto admin
        /\ campo l "senha" = VTexto (hash_senha senha)
        /\ campo l "tipo_acesso" = VTexto "CEO").
Proof.
  intros nome senha admin _ H. subst nome senha admin.
  apply cadastro_sucesso_inv in H
    as (_ & te & e & b & l & Hte & Hte' & _ & _ & He1 & He2 & He3 & He4
        & Hb & Hu & Hins).
  split.
  - eexists te, _, e. split; [exact Hte|]. split; [exact Hte'|].
    split; [reflexivity|]. split; [exact He1|]. split; [exact He2|].
    split; [exact He3|exact He4].
  - exists b, l. split; [exact Hb|]. split; [exact Hu|].
    destruct (inserir_ceo amb (db_nome_de (Texto.strip entry_nome))
                (Texto.strip entry_nome) (Texto.strip entry_senha)
                (Texto.strip entry_admin))
      as (l0 & Hl0 & _ & H1 & H2 & H3 & _).
    rewrite Hl0 in Hins. injection Hins as ->.
    split; [exact H1|]. split; [exact H2|exact H3].
Qed.

(** The theorem at the registration of Acme on a fresh installation. *)
Lemma cadastro_sucesso_semeia_ceo_acme :
  exists b l,
    arquivos Cenario.acme !! Cenario.banco_acme = Some b
    /\ b !! "usuarios" = Some (Tabela usuarios check_usuarios [l] 1)
    /\ campo l "usuario" = VTexto "dono".
Proof.
  destruct (cadastro_sucesso_semeia_ceo Cenario.amb0 "Acme" "segredo1" "dono"
              None Cenario.inicial Cenario.acme ltac:(calcular) ltac:(calcular))
    as (_ & b & l & Hb & Hu & Hl & _).
  exists b, l. split; [exact Hb|]. split; [exact Hu|]. exact Hl.
Defined.

(** ** The directory holds no name twice *)

Lemma igual_false (c : string) (v : valor) (l : gmap string valor) :
  igual c v l = false -> v = VNull \/ campo l c ≠ v.
Proof.
  unfold igual. destruct v; [by left|..]; intros H%bool_decide_eq_false; by right.
Qed.

Lemma unicos_ok_elem (cs : list coluna) (ls : list (gmap string valor))
    (l r : gmap string valor) (c : coluna) :
  unicos_ok cs ls l = true -> c ∈ cs -> c_unico c = true -> r ∈ ls ->
  campo l (c_nome c) = VNull \/ campo r (c_nome c) ≠ campo l (c_nome c).
Proof.
  unfold unicos_ok. rewrite forallb_forall. intros H Hc Hu Hr.
  specialize (H c (proj1 (list_elem_of_In _ _) Hc)). rewrite Hu in H. simpl in H.
  apply negb_true_iff in H.
  apply igual_false. 
  destruct (igual (c_nome c) (campo l (c_nome c)) r) eqn:Hi; [|done].
  assert (existsb (igual (c_nome c) (campo l (c_nome c))) ls = true); [|congruence].
  apply existsb_exists. exists r. split; [|done]. by apply list_elem_of_In.
Qed.

(** A row accepted by a [UNIQUE] column keeps the column without
    repetition. *)
Lemma unico_em_snoc (cs : list coluna) (ls : list (gmap string valor))
    (l : gmap string valor) (c : coluna) :
  unicos_ok cs ls l = true -> c ∈ cs -> c_unico c = true ->
  unico_em (c_nome c) ls -> unico_em (c_nome c) (ls ++ [l]).
Proof.
  intros Hok Hc Hu Hls i j li lj Hi Hj Hij Hnn.
  apply lookup_snoc_Some in Hi as [[Hi1 Hi2]|[Hi1 Hi2]];
    apply lookup_snoc_Some in Hj as [[Hj1 Hj2]|[Hj1 Hj2]].
  - by apply (Hls i j).
  - subst lj.
    destruct (unicos_ok_elem cs ls l li c Hok Hc Hu) as [Hn|Hd].
    + by apply list_elem_of_lookup_2 in Hi2.
    + congruence.
    + done.
  - subst li.
    destruct (unicos_ok_elem cs ls l lj c Hok Hc Hu) as [Hn|Hd].
    + by apply list_elem_of_lookup_2 in Hj2.
    + done.
    + congruence.
  - lia.
Qed.

Lemma linhas_unicas_unico_em (cs : list coluna) (ls : list (gmap string valor))
    (c : coluna) :
  linhas_unicas cs ls = true -> c ∈ cs -> c_unico c = true ->
  unico_em (c_nome c) ls.
Proof.
  intros H Hc Hu. induction ls as [|l ls IH]; intros i j li lj Hi Hj Hij Hnn.
  - by rewrite lookup_nil in Hi.
  - simpl in H. apply andb_true_iff in H as [Hl Hls].
    destruct i as [|i], j as [|j]; simpl in Hi, Hj.
    + done.
    + injection Hi as ->.
      destruct (unicos_ok_elem cs ls li lj c Hl Hc Hu) as [Hn|Hd]; [|done|congruence].
      by apply list_elem_of_lookup_2 in Hj.
    + injection Hj as ->.
      destruct (unicos_ok_elem cs ls lj li c Hl Hc Hu) as [Hn|Hd]; [|congruence|done].
      by apply list_elem_of_lookup_2 in Hi.
    + apply (IH Hls i j); [done|done|lia|done].
Qed.

Lemma unico_em_mesmos (c : string) (ls ls' : list (gmap string valor)) :
  (fun l => campo l c) <$> ls' = (fun l => campo l c) <$> ls ->
  unico_em c ls -> unico_em c ls'.
Proof.
  intros Heq H i j li lj Hi Hj Hij Hnn.
  assert (Hi' : ((fun l => campo l c) <$> ls) !! i = Some (campo li c))
    by (by rewrite <- Heq, list_lookup_fmap, Hi).
  assert (Hj' : ((fun l => campo l c) <$> ls) !! j = Some (campo lj c))
    by (by rewrite <- Heq, list_lookup_fmap, Hj).
  rewrite list_lookup_fmap in Hi', Hj'.
  destruct (ls !! i) as [ki|] eqn:Hki; [|done].
  destruct (ls !! j) as [kj|] eqn:Hkj; [|done].
  simpl in Hi', Hj'. injection Hi' as Hi'. injection Hj' as Hj'.
  rewrite <- Hi', <- Hj'. apply (H i j); [done|done|done|by rewrite Hi'].
Qed.

(** The directory after [cadastrar_empresa] is the one before or the one
    its [INSERT] left. *)
Lemma cadastrar_empresa_diretorio (amb : ambiente)
    (entry_nome entry_senha entry_admin : string) (logo_path : option string)
    (w : mundo) :
  let w' := (cadastrar_empresa amb entry_nome entry_senha entry_admin
               logo_path w).2 in
  principal w' = principal w
  \/ registrar_no_diretorio amb (Texto.strip entry_nome)
       (Texto.strip entry_senha) (Texto.strip entry_admin)
       (db_nome_de (Texto.strip entry_nome)) logo_path (principal w)
     = inr (principal w').
Proof.
  unfold cadastrar_empresa. cbv zeta.
  destruct (_ || _); [by left|]. destruct (negb _); [by left|].
  destruct (_ <? _)%nat; [by left|].
  set (p := caminho_db _).
  destruct (existe w p && bool_decide (p ∈ bloqueados w)); [by left|].
  set (w1 := if existe w p then remover p w else w).
  assert (Hp1 : principal w1 = principal w) by (subst w1; by destruct (existe w p)).
  rewrite Hp1.
  destruct (registrar_no_diretorio _ _ _ _ _ _ _) as [m|b'] eqn:Hreg;
    [by left|].
  right. by rewrite tentativas_principal.
Qed.

(** X6.  Whatever a registration answers, a directory that held no company
    name and no store name twice holds none twice afterwards. *)
Theorem cadastrar_empresa_sem_repeticao (amb : ambiente)
    (entry_nome entry_senha entry_admin : string) (logo_path : option string)
    (w : mundo) (te : tabela) :
  let w' := (cadastrar_empresa amb entry_nome entry_senha entry_admin
               logo_path w).2 in
  principal w !! "empresas" = Some te ->
  diretorio_unico te ->
  unico_em "nome" (t_linhas te) -> unico_em "db_nome" (t_linhas te) ->
  exists te',
    principal w' !! "empresas" = Some te'
    /\ t_colunas te' = t_colunas te
    /\ t_linhas te `prefix_of` t_linhas te'
    /\ unico_em "nome" (t_linhas te') /\ unico_em "db_nome" (t_linhas te').
Proof.
  intros w' Hte [Hcn Hcd] Hn Hd.
  destruct (cadastrar_empresa_diretorio amb entry_nome entry_senha entry_admin
              logo_path w) as [Heq|Hreg]; fold w' in Heq || fold w' in Hreg.
  - exists te. by rewrite Heq.
  - apply registrar_no_diretorio_inr in Hreg
      as (te0 & e & Hte0 & -> & _ & Hins & _).
    assert (te0 = te) as -> by congruence.
    apply inserir_inr in Hins as (Heq & _ & Hun & _).
    set (l := montar_linha _ _ _) in *.
    injection Heq as Heq. apply app_inj_tail in Heq as [_ ->].
    eexists. rewrite lookup_insert_eq. split; [done|]. simpl.
    split; [done|]. split; [by eexists|].
    split.
    + by apply (unico_em_snoc (t_colunas te) (t_linhas te) l (col_unn "nome" TText)).
    + by apply (unico_em_snoc (t_colunas te) (t_linhas te) l (col_unn "db_nome" TText)).
Qed.

(** ** [atualizar_empresa] *)

Lemma aplicar_fora (sets : list (string * valor)) (l : gmap string valor)
    (c : string) :
  c ∉ sets.*1 -> aplicar sets l !! c = l !! c.
Proof.
  unfold aplicar. induction sets as [|[k v] sets IH]; simpl; [done|].
  intros Hc. apply not_elem_of_cons in Hc as [Hk Hc].
  rewrite lookup_insert_ne by done. by apply IH.
Qed.

Lemma atualizar_inr (cols : list string) (sets : list (string * valor))
    (p : gmap string valor -> bool) (t t' : tabela) :
  atualizar cols sets p t = inr t' ->
  let ls := (fun l => if p l then aplicar sets l else l) <$> t_linhas t in
  t' = Tabela (t_colunas t) (t_check t) ls (t_seq t)
  /\ linhas_unicas (filter (fun c => c_nome c ∈ sets.*1) (t_colunas t)) ls = true.
Proof.
  unfold atualizar. destruct (negb _); [done|]. cbv zeta.
  destruct (forallb _ _); [|done]. simpl.
  destruct (linhas_unicas _ _); [|done]. by intros [= <-].
Qed.

(** The directory after [atualizar_empresa] is the one before or the one
    its [UPDATE] left; the files stay. *)
Lemma atualizar_empresa_diretorio (nome cnpj endereco telefone : string)
    (s : sessao) (w : mundo) :
  let r := atualizar_empresa nome cnpj endereco telefone s w in
  arquivos r.1.2 = arquivos w
  /\ (principal r.1.2 = principal w
      \/ exists vid,
           s !! "id" = Some vid
           /\ alterar_tabela "empresas"
                (atualizar ["id"]
                   [ ("nome", VTexto nome); ("cnpj", VTexto cnpj);
                     ("endereco", VTexto endereco);
                     ("telefone", VTexto telefone) ]
                   (igual "id" vid))
                (principal w)
              = inr (principal r.1.2)).
Proof.
  unfold atualizar_empresa. destruct (Texto.vazio nome); [by auto|].
  destruct (s !! "id") as [vid|]; [|by auto].
  destruct (alterar_tabela _ _ _) as [e|b'] eqn:Ha; [by auto|].
  split; [done|]. right. by exists vid.
Qed.

(** X7.  [atualizar_empresa] writes the four fields of the form into the rows
    whose [id] is the session's and nowhere else: the files, the number
    and order of the directory's rows, every other column of every row
    (the store name, the password and the owner's login among them) and
    every row with another [id] stay as they were. *)
Theorem atualizar_empresa_so_os_dados (nome cnpj endereco telefone : string)
    (s : sessao) (w : mundo) (te : tabela) :
  let r := atualizar_empresa nome cnpj endereco telefone s w in
  principal w !! "empresas" = Some te ->
  arquivos r.1.2 = arquivos w
  /\ r.2 !! "db_nome" = s !! "db_nome"
  /\ exists te',
       principal r.1.2 !! "empresas" = Some te'
       /\ t_colunas te' = t_colunas te
       /\ length (t_linhas te') = length (t_linhas te)
       /\ forall (i : nat) (l : gmap string valor),
            t_linhas te !! i = Some l ->
            exists l',
              t_linhas te' !! i = Some l'
              /\ (forall c, c ∉ ["nome"; "cnpj"; "endereco"; "telefone"] ->
                            l' !! c = l !! c)
              /\ (s !! "id" ≠ Some (campo l "id") -> l' = l).
Proof.
  intros r Hte.
  destruct (atualizar_empresa_diretorio nome cnpj endereco telefone s w)
    as [Harq Hdir]. fold r in Harq, Hdir.
  split; [exact Harq|]. split.
  { subst r. unfold atualizar_empresa. destruct (Texto.vazio nome); [done|].
    destruct (s !! "id"); [|done]. destruct (alterar_tabela _ _ _); [done|].
    simpl. by rewrite !lookup_insert_ne by done. }
  destruct Hdir as [Heq|(vid & Hid & Ha)].
  - exists te. rewrite Heq. split; [done|]. split; [done|]. split; [done|].
    intros i l Hl. by exists l.
  - unfold alterar_tabela, em_tabela in Ha. rewrite Hte in Ha.
    destruct (atualizar _ _ _ te) as [e|te'] eqn:Hup; [done|].
    injection Ha as Ha. rewrite <- Ha, lookup_insert_eq.
    apply atualizar_inr in Hup as [-> _]. eexists. split; [done|]. simpl.
    split; [done|]. split; [by rewrite length_fmap|].
    intros i l Hl. rewrite list_lookup_fmap, Hl. simpl.
    eexists. split; [done|]. split.
    + intros c Hc. destruct (igual "id" vid l); [|done].
      exact (aplicar_fora
               [ ("nome", VTexto nome); ("cnpj", VTexto cnpj);
                 ("endereco", VTexto endereco); ("telefone", VTexto telefone) ]
               l c Hc).
    + intros Hne. destruct (igual "id" vid l) eqn:Hi; [|done].
      destruct Hne. rewrite Hid. f_equal.
      unfold igual in Hi. destruct vid; [done|..];
        by apply bool_decide_eq_true in Hi.
Qed.

(** X8.  Whatever [atualizar_empresa] answers, a directory that held no
    company name and no store name twice holds none twice afterwards: a
    name another company has is refused by the [UNIQUE] declaration. *)
Theorem atualizar_empresa_sem_repeticao (nome cnpj endereco telefone : string)
    (s : sessao) (w : mundo) (te : tabela) :
  let r := atualizar_empresa nome cnpj endereco telefone s w in
  principal w !! "empresas" = Some te ->
  diretorio_unico te ->
  unico_em "nome" (t_linhas te) -> unico_em "db_nome" (t_linhas te) ->
  exists te',
    principal r.1.2 !! "empresas" = Some te'
    /\ t_colunas te' = t_colunas te
    /\ unico_em "nome" (t_linhas te') /\ unico_em "db_nome" (t_linhas te').
Proof.
  intros r Hte [Hcn Hcd] Hn Hd.
  destruct (atualizar_empresa_diretorio nome cnpj endereco telefone s w)
    as [_ [Heq|(vid & Hid & Ha)]]; fold r in Heq || fold r in Ha.
  - exists te. by rewrite Heq.
  - unfold alterar_tabela, em_tabela in Ha. rewrite Hte in Ha.
    destruct (atualizar _ _ _ te) as [e|te'] eqn:Hup; [done|].
    injection Ha as Ha. rewrite <- Ha, lookup_insert_eq.
    apply atualizar_inr in Hup as [-> Hun]. eexists. split; [done|].
    cbn [t_colunas t_linhas]. split; [done|]. split.
    + apply (linhas_unicas_unico_em _ _ (col_unn "nome" TText) Hun); [|done].
      apply list_elem_of_filter. split; [|done]. calcular.
    + apply (unico_em_mesmos _ (t_linhas te)); [|done].
      rewrite <- list_fmap_compose. apply list_fmap_ext. intros i l _.
      unfold compose. destruct (igual "id" vid l); [|done].
      unfold campo. by rewrite aplicar_fora by calcular.
Qed.

(** ** What [fazer_login] leaves alone *)

Lemma so_ultimo_acesso_refl (b : gmap string tabela) : so_ultimo_acesso b b.
Proof.
  split; [done|]. split; [done|]. intros tu Htu. exists tu.
  repeat split; try done. intros i l Hl. by exists l.
Qed.

Lemma concluir_login_mundo (amb : ambiente) (w : mundo) (logada : option sessao)
    (db_path : string) (b : gmap string tabela) (te : tabela)
    (empresa : gmap string valor) (tu : tabela) (u : gmap string valor) :
  let r := concluir_login amb w logada db_path b te empresa tu u in
  b !! "usuarios" = Some tu ->
  (r.1.1 ≠ MenuPrincipal -> r.1.2 = w)
  /\ (r.1.2 = w
      \/ exists b', r.1.2 = gravar db_path b' w /\ so_ultimo_acesso b b')
  /\ (r.2 = logada \/ exists s, r.2 = Some s /\ s !! "admin_user" = None).
Proof.
  intros r Htu. subst r. unfold concluir_login.
  destruct (ler tu u "tipo_acesso") as [e|[| |tipo]]; try by auto.
  destruct (negb _); [by auto|].
  destruct (montar_sessao te empresa tu u) as [e|s] eqn:Hs; [by auto|].
  assert (Hadm : s !! "admin_user" = None).
  { unfold montar_sessao in Hs.
    repeat (match type of Hs with
            | match ?x with _ => _ end = _ => destruct x; try discriminate Hs
            end).
    injection Hs as <-. by rewrite !lookup_insert_ne, lookup_empty by done. }
  destruct (ler tu u "id") as [e|vid].
  { split; [done|]. split; [by left|]. right. by exists s. }
  destruct (atualizar _ _ _ tu) as [e|tu'] eqn:Hup.
  { split; [done|]. split; [by left|]. right. by exists s. }
  split; [done|]. split; [|right; by exists s].
  right. eexists. split; [reflexivity|].
  apply atualizar_inr in Hup as [-> _]. split; [|split].
  - intros n Hn. by rewrite lookup_insert_ne.
  - congruence.
  - intros tu0 Htu0. assert (tu0 = tu) as -> by congruence.
    eexists. rewrite lookup_insert_eq. split; [done|].
    cbn [t_colunas t_check t_seq t_linhas].
    split; [done|]. split; [done|]. split; [done|].
    split; [by rewrite length_fmap|].
    intros i l Hl. rewrite list_lookup_fmap, Hl. eexists. split; [done|].
    intros c Hc. destruct (igual "id" vid l); [|done].
    apply aplicar_fora. simpl. by intros ->%list_elem_of_singleton.
Qed.

Lemma fazer_login_mundo (amb : ambiente)
    (entry_nome entry_senha entry_admin : string)
    (w : mundo) (logada : option sessao) :
  let r := fazer_login amb entry_nome entry_senha entry_admin w logada in
  (r.1.1 ≠ MenuPrincipal -> r.1.2 = w)
  /\ (r.1.2 = w
      \/ exists p b b', arquivos w !! p = Some b
                        /\ r.1.2 = gravar p b' w /\ so_ultimo_acesso b b')
  /\ (r.2 = logada \/ exists s, r.2 = Some s /\ s !! "admin_user" = None).
Proof.
  intros r. subst r. unfold fazer_login. cbv zeta.
  destruct (_ || _); [by auto|].
  destruct (principal w !! "empresas") as [te|]; [|by auto].
  destruct (selecionar _ _ te) as [e|[|empresa resto]]; [by auto..|].
  destruct (ler te empresa "db_nome") as [e|vdb]; [by auto|].
  destruct (arquivos w !! _) as [b|] eqn:Hb; [|by auto].
  unfold autenticar_usuario.
  destruct (b !! "usuarios") as [tu|] eqn:Htu; [|by auto].
  destruct (selecionar _ _ tu) as [e|[|u resto_u]]; [by auto..|].
  destruct (ler tu u "senha") as [e|vsenha]; [by auto|].
  destruct (negb _); [by auto|].
  destruct (concluir_login_mundo amb w logada
              (caminho_db (str_de vdb)) b te empresa tu u Htu)
    as (H1 & H2 & H3).
  split; [exact H1|]. split; [|exact H3].
  destruct H2 as [H2|(b' & H2 & H2')]; [by left|].
  right. by exists (caminho_db (str_de vdb)), b, b'.
Qed.

(** X9.  Whatever a login answers and whatever the disk holds: the directory
    is not written; unless the answer is the main menu nothing is
    written at all; and when it is, every file is still there with its
    tables, and every row of every [usuarios] table with everything it
    held but the time of the last access. *)
Theorem fazer_login_so_carimba (amb : ambiente)
    (entry_nome entry_senha entry_admin : string)
    (w : mundo) (logada : option sessao) :
  let r := fazer_login amb entry_nome entry_senha entry_admin w logada in
  principal r.1.2 = principal w
  /\ (r.1.1 ≠ MenuPrincipal -> r.1.2 = w)
  /\ forall (p : string) (b : gmap string tabela),
       arquivos w !! p = Some b ->
       exists b', arquivos r.1.2 !! p = Some b' /\ so_ultimo_acesso b b'.
Proof.
  intros r.
  pose proof (fazer_login_mundo amb entry_nome entry_senha entry_admin w logada)
    as H. fold r in H. cbv zeta in H. clearbody r.
  destruct H as (H1 & [Heq|(p0 & b0 & b0' & Hb0 & Heq & Hso)] & _).
  - split; [by rewrite Heq|]. split; [exact H1|]. intros p b Hb. exists b.
    rewrite Heq. split; [done|apply so_ultimo_acesso_refl].
  - split; [by rewrite Heq|]. split; [exact H1|]. intros p b Hb.
    rewrite Heq. unfold gravar. cbn [arquivos].
    destruct (decide (p = p0)) as [->|Hne].
    + rewrite lookup_insert_eq. exists b0'. split; [done|]. congruence.
    + rewrite lookup_insert_ne by done. exists b.
      split; [done|apply so_ultimo_acesso_refl].
Qed.

(** X10.  The session a login leaves, when it leaves one where there was none,
    has no [admin_user] entry; [excluir_usuario] under that session never
    answers that the administrator cannot be deleted, whoever is
    selected. *)
Theorem login_sessao_sem_admin_user (amb : ambiente)
    (entry_nome entry_senha entry_admin : string) (w : mundo) (s : sessao) :
  (fazer_login amb entry_nome entry_senha entry_admin w None).2 = Some s ->
  s !! "admin_user" = None
  /\ forall (usuario_atual : string) (confirmacao : bool) (w' : mundo),
       (excluir_usuario usuario_atual confirmacao s w').1
       ≠ NaoPodeExcluirAdministrador.
Proof.
  intros Hs.
  destruct (fazer_login_mundo amb entry_nome entry_senha entry_admin w None)
    as (_ & _ & [H|(s' & H & Hadm)]); rewrite Hs in H; [discriminate H|].
  injection H as ->. split; [exact Hadm|].
  intros u c w'. unfold excluir_usuario.
  destruct (Texto.vazio u); [discriminate|].
  rewrite Hadm. rewrite bool_decide_eq_false_2 by discriminate.
  destruct (negb c); [discriminate|].
  destruct (obter_conexao_empresa s' w') as [e|[[p w1]|]]; try discriminate.
  destruct (alterar_tabela _ _ _); discriminate.
Qed.

(** ** The access levels on disk *)

Lemma papeis_da_loja_inv (b : gmap string tabela) (tu : tabela) :
  papeis_da_loja b = true -> b !! "usuarios" = Some tu ->
  t_check tu = check_usuarios /\ forallb papel_valido (t_linhas tu) = true.
Proof.
  unfold papeis_da_loja. intros H Htu. rewrite Htu in H.
  apply andb_true_iff in H as [H1 H2]. by apply bool_decide_eq_true in H1.
Qed.

Lemma papeis_da_loja_usuarios (b : gmap string tabela) (tu : tabela) :
  t_check tu = check_usuarios -> forallb papel_valido (t_linhas tu) = true ->
  papeis_da_loja (<["usuarios" := tu]> b) = true.
Proof.
  intros H1 H2. unfold papeis_da_loja. rewrite lookup_insert_eq, H2.
  by rewrite bool_decide_eq_true_2.
Qed.

Lemma papeis_da_loja_outra (n : string) (t : tabela) (b : gmap string tabela) :
  n ≠ "usuarios" -> papeis_da_loja (<[n := t]> b) = papeis_da_loja b.
Proof. intros Hn. unfold papeis_da_loja. by rewrite lookup_insert_ne. Qed.

Lemma papeis_gravar (p : string) (b : gmap string tabela) (w : mundo) :
  papeis_no_disco w -> papeis_da_loja b = true -> papeis_no_disco (gravar p b w).
Proof. intros Hw Hb. by apply map_Forall_insert_2. Qed.

Lemma papeis_remover (p : string) (w : mundo) :
  papeis_no_disco w -> papeis_no_disco (remover p w).
Proof. intros Hw. by apply map_Forall_delete. Qed.

Lemma papeis_abrir (p : string) (w : mundo) :
  papeis_no_disco w -> papeis_da_loja (abrir w p) = true.
Proof.
  intros Hw. unfold abrir. destruct (arquivos w !! p) as [b|] eqn:Hb; [|done].
  by apply (Hw p b).
Qed.

Lemma papel_valido_outra (c : string) (v : valor) (l : gmap string valor) :
  c ≠ "tipo_acesso" -> papel_valido (<[c := v]> l) = papel_valido l.
Proof. intros Hc. unfold papel_valido, campo. by rewrite lookup_insert_ne. Qed.

Lemma forallb_fmap_mesmo {A : Type} (p : A -> bool) (f : A -> A) (l : list A) :
  (forall x, p (f x) = p x) -> forallb p (f <$> l) = forallb p l.
Proof.
  intros H. induction l as [|x l IH]; [done|].
  rewrite fmap_cons. cbn [forallb]. by rewrite H, IH.
Qed.

Lemma forallb_filter_sub {A : Type} (p : A -> bool) (P : A -> Prop)
    `{!forall x, Decision (P x)} (l : list A) :
  forallb p l = true -> forallb p (filter P l) = true.
Proof.
  rewrite !forallb_forall. intros Hl x Hx. apply Hl.
  apply list_elem_of_In in Hx. apply list_elem_of_filter in Hx as [_ Hx].
  by apply list_elem_of_In.
Qed.

(** The statements of [criar_banco_empresa] keep the access levels. *)
Lemma esquema_empresa_papeis (b : gmap string tabela)
    (fl : option (nat * excecao)) :
  papeis_da_loja b = true ->
  papeis_da_loja (db (esquema_empresa (Con b fl)).2) = true.
Proof.
  assert (H : passo (fun b b' => papeis_da_loja b = true
                                 -> papeis_da_loja b' = true)
                esquema_empresa); [|exact (H (Con b fl))].
  apply passo_esquema_empresa; [apply _|..].
  - intros b0. unfold criar_se_ausente. destruct (b0 !! "produtos"); [done|].
    by rewrite papeis_da_loja_outra.
  - intros b0 b'. unfold criar. destruct (b0 !! "usuarios"); [done|].
    intros [= <-] _. by apply papeis_da_loja_usuarios.
  - intros c b0 b' Hc. unfold alterar_tabela, em_tabela.
    destruct (b0 !! "usuarios") as [t|] eqn:Ht; [|done].
    unfold adicionar_coluna. destruct (tem_coluna t _); [done|].
    intros [= <-] Hb0. destruct (papeis_da_loja_inv b0 t Hb0 Ht) as [Hk Hl].
    apply papeis_da_loja_usuarios; [done|]. cbn [t_linhas c_nome col_nn_def].
    rewrite forallb_fmap_mesmo; [done|]. intros l. apply papel_valido_outra.
    unfold colunas_necessarias in Hc. rewrite !elem_of_cons, elem_of_nil in Hc.
    destruct Hc as [->|[->|[->|[->|[->|[]]]]]]; discriminate.
  - intros nc b0 Hnc. unfold criar_se_ausente. destruct (b0 !! nc.1); [done|].
    rewrite papeis_da_loja_outra; [done|].
    unfold tabelas_comuns in Hnc. rewrite !elem_of_cons, elem_of_nil in Hnc.
    destruct Hnc as [->|[->|[->|[->|[->|[->|[->|[]]]]]]]]; discriminate.
Qed.

Lemma criar_banco_empresa_papeis (amb : ambiente) (tent : nat)
    (db_nome : string) (w : mundo) :
  papeis_no_disco w ->
  papeis_no_disco (criar_banco_empresa amb tent db_nome w).2.
Proof.
  intros Hw. unfold criar_banco_empresa. cbv zeta.
  assert (Hr : papeis_no_disco (remover (caminho_db db_nome) w))
    by (by apply papeis_remover).
  assert (Hg : forall w1 p fl,
            papeis_no_disco w1 ->
            papeis_no_disco
              (gravar p (db (esquema_empresa (Con (abrir w1 p) fl)).2) w1)).
  { intros w1 p fl Hw1. apply papeis_gravar; [done|].
    apply esquema_empresa_papeis. by apply papeis_abrir. }
  destruct (existe w _); [destruct (bool_decide _)|];
    destruct (falha_criar amb tent) as [[[|n] e]|]; try done; cbn [apos_conectar];
    match goal with
    | |- context [esquema_empresa (Con (abrir ?w1 ?p) ?fl)] =>
        specialize (Hg w1 p fl); destruct (esquema_empresa _) as [r c];
        apply Hg; done
    end.
Qed.

(** An [INSERT] that names the access level keeps the access levels. *)
Lemma inserir_papeis (agora : string) (vals : list (string * valor))
    (s : string) (t t' : tabela) :
  t_check t = check_usuarios -> forallb papel_valido (t_linhas t) = true ->
  (list_to_map vals : gmap string valor) !! "tipo_acesso" = Some (VTexto s) ->
  inserir agora vals t = inr t' ->
  t_check t' = check_usuarios /\ forallb papel_valido (t_linhas t') = true.
Proof.
  intros Hk Hl Hv Hins.
  assert (Hc : tem_coluna t "tipo_acesso" = true).
  { unfold inserir in Hins.
    destruct (forallb (tem_coluna t) vals.*1) eqn:Hf; [|done].
    rewrite forallb_forall in Hf. apply Hf. apply list_elem_of_In.
    apply elem_of_list_to_map_2 in Hv.
    apply list_elem_of_fmap. by exists ("tipo_acesso", VTexto s). }
  apply inserir_inr in Hins as (-> & _ & _ & Hchk). cbn [t_check t_linhas].
  split; [done|]. rewrite forallb_app, Hl. simpl. rewrite andb_true_r.
  unfold papel_valido.
  rewrite (campo_montar_linha_dado agora t _ "tipo_acesso" (VTexto s)) by done.
  apply bool_decide_eq_true. rewrite Hk in Hchk.
  apply (check_usuarios_ok _ _ Hchk).
  by apply campo_montar_linha_dado.
Qed.

Lemma papel_linha_ceo (amb : ambiente) (db_nome nome senha admin : string) :
  (list_to_map (linha_ceo amb db_nome nome senha admin) : gmap string valor)
    !! "tipo_acesso" = Some (VTexto "CEO").
Proof.
  apply elem_of_list_to_map_1; [unfold linha_ceo; simpl; calcular|].
  unfold linha_ceo. do 8 right. left.
Qed.

Lemma papel_linha_usuario (d : dados_usuario) (vnome : valor) :
  (list_to_map (linha_usuario d vnome) : gmap string valor)
    !! "tipo_acesso" = Some (VTexto (d_tipo d)).
Proof.
  apply elem_of_list_to_map_1; [apply chaves_linha_usuario|].
  unfold linha_usuario. do 8 right. left.
Qed.

Lemma alterar_inserir_papeis (agora : string) (vals : list (string * valor))
    (s : string) (b b' : gmap string tabela) :
  papeis_da_loja b = true ->
  (list_to_map vals : gmap string valor) !! "tipo_acesso" = Some (VTexto s) ->
  alterar_tabela "usuarios" (inserir agora vals) b = inr b' ->
  papeis_da_loja b' = true.
Proof.
  intros Hb Hv. unfold alterar_tabela, em_tabela.
  destruct (b !! "usuarios") as [t|] eqn:Ht; [|done].
  destruct (inserir agora vals t) as [e|t'] eqn:Hins; [done|]. intros [= <-].
  destruct (papeis_da_loja_inv b t Hb Ht) as [Hk Hl].
  destruct (inserir_papeis agora vals s t t' Hk Hl Hv Hins).
  by apply papeis_da_loja_usuarios.
Qed.

Lemma semear_ceo_papeis (amb : ambiente) (tent : nat)
    (db_nome nome senha admin : string) (w : mundo) :
  papeis_no_disco w ->
  papeis_no_disco (semear_ceo amb tent db_nome nome senha admin w).2.
Proof.
  intros Hw. unfold semear_ceo. cbv zeta.
  pose proof (papeis_abrir (caminho_db db_nome) w Hw) as Hb.
  pose proof (papeis_gravar (caminho_db db_nome) _ w Hw Hb) as Hw1.
  destruct (negb _); [done|].
  destruct (em_tabela _ _ _) as [e|[|x r]]; try done.
  destruct (falha_semear amb tent); [done|].
  destruct (alterar_tabela _ _ _) as [e|b'] eqn:Ha; [done|].
  apply papeis_gravar; [done|].
  apply (alterar_inserir_papeis _ _ "CEO" _ _ Hb (papel_linha_ceo _ _ _ _ _) Ha).
Qed.

Lemma tentativas_papeis (amb : ambiente) (ts : list nat)
    (db_nome nome senha admin : string) (w : mundo) :
  papeis_no_disco w ->
  papeis_no_disco (tentativas amb ts db_nome nome senha admin w).2.
Proof.
  revert w. induction ts as [|tent ts IH]; intros w Hw; simpl; [done|].
  pose proof (criar_banco_empresa_papeis amb tent db_nome w Hw) as Hw1.
  destruct (criar_banco_empresa amb tent db_nome w) as [[e|[]] w1]; simpl in Hw1.
  - destruct e; try exact Hw1. destruct (tent <? 2)%nat; [|exact Hw1].
    by apply IH.
  - by apply semear_ceo_papeis.
Qed.

Lemma cadastrar_empresa_papeis (amb : ambiente)
    (entry_nome entry_senha entry_admin : string) (logo_path : option string)
    (w : mundo) :
  papeis_no_disco w ->
  papeis_no_disco
    (cadastrar_empresa amb entry_nome entry_senha entry_admin logo_path w).2.
Proof.
  intros Hw. unfold cadastrar_empresa. cbv zeta.
  destruct (_ || _); [done|]. destruct (negb _); [done|].
  destruct (_ <? _)%nat; [done|].
  set (p := caminho_db _).
  destruct (existe w p && bool_decide (p ∈ bloqueados w)); [done|].
  set (w1 := if existe w p then remover p w else w).
  assert (Hw1 : papeis_no_disco w1).
  { subst w1. destruct (existe w p); [by apply papeis_remover|done]. }
  destruct (registrar_no_diretorio _ _ _ _ _ _ _) as [m|b']; [done|].
  by apply tentativas_papeis.
Qed.

Lemma so_ultimo_acesso_papeis (b b' : gmap string tabela) :
  so_ultimo_acesso b b' -> papeis_da_loja b = true -> papeis_da_loja b' = true.
Proof.
  intros (Hn & Hnone & Hu) Hb. unfold papeis_da_loja in *.
  destruct (b !! "usuarios") as [tu|] eqn:Htu; [|by rewrite Hnone].
  destruct (Hu tu eq_refl) as (tu' & -> & _ & Hk & _ & Hlen & Hl).
  apply andb_true_iff in Hb as [Hb1 Hb2]. rewrite Hk, Hb1. simpl.
  rewrite forallb_forall in Hb2. apply forallb_forall. intros l' Hl'.
  apply list_elem_of_In, list_elem_of_lookup in Hl' as [i Hi].
  destruct (lookup_lt_is_Some_2 (t_linhas tu) i) as [l Hli].
  { rewrite <- Hlen. by apply lookup_lt_Some in Hi. }
  destruct (Hl i l Hli) as (l'' & Hi' & Hc).
  assert (l'' = l') as -> by congruence.
  unfold papel_valido, campo. rewrite Hc by done.
  apply (Hb2 l). apply list_elem_of_In. by apply list_elem_of_lookup_2 in Hli.
Qed.

Lemma fazer_login_papeis (amb : ambiente)
    (entry_nome entry_senha entry_admin : string)
    (w : mundo) (logada : option sessao) :
  papeis_no_disco w ->
  papeis_no_disco
    (fazer_login amb entry_nome entry_senha entry_admin w logada).1.2.
Proof.
  intros Hw.
  destruct (fazer_login_mundo amb entry_nome entry_senha entry_admin w logada)
    as (_ & [->|(p & b & b' & Hb & -> & Hso)] & _); [done|].
  apply papeis_gravar; [done|].
  apply (so_ultimo_acesso_papeis b b' Hso). by apply (Hw p b).
Qed.

Lemma obter_conexao_empresa_papeis (s : sessao) (w w1 : mundo) (p : string) :
  papeis_no_disco w -> obter_conexao_empresa s w = inr (Some (p, w1)) ->
  papeis_no_disco w1 /\ papeis_da_loja (abrir w1 p) = true.
Proof.
  intros Hw. unfold obter_conexao_empresa.
  destruct (bool_decide (s = ∅)); [done|]. destruct (s !! "db_nome"); [|done].
  intros [= <- <-].
  assert (H1 : papeis_no_disco
                 (gravar (caminho_db (str_de v))
                    (abrir w (caminho_db (str_de v))) w)).
  { apply papeis_gravar; [done|]. by apply papeis_abrir. }
  split; [done|]. by apply papeis_abrir.
Qed.

Lemma salvar_usuario_papeis (amb : ambiente) (janela_aberta : bool)
    (d : dados_usuario) (s : sessao) (w : mundo) :
  papeis_no_disco w ->
  papeis_no_disco (salvar_usuario amb janela_aberta d s w).2.
Proof.
  intros Hw. unfold salvar_usuario.
  destruct (negb janela_aberta); [done|]. destruct (existsb _ _); [done|].
  destruct (bool_decide _); [done|]. destruct (negb _); [done|].
  destruct (_ <? _)%nat; [done|].
  destruct (obter_conexao_empresa s w) as [e|[[p w1]|]] eqn:Hc; [done| |done].
  destruct (obter_conexao_empresa_papeis s w w1 p Hw Hc) as [Hw1 Hb].
  cbv zeta. destruct (s !! "nome") as [vnome|]; [|done].
  destruct (em_tabela _ _ _) as [e|linhas]; [done|].
  destruct (hierarquia _ _); [done|].
  destruct (alterar_tabela _ _ _) as [e|b'] eqn:Ha; [done|].
  apply papeis_gravar; [done|].
  apply (alterar_inserir_papeis _ _ (d_tipo d) _ _ Hb
           (papel_linha_usuario d vnome) Ha).
Qed.

Lemma excluir_usuario_papeis (usuario_atual : string) (confirmacao : bool)
    (s : sessao) (w : mundo) :
  papeis_no_disco w ->
  papeis_no_disco (excluir_usuario usuario_atual confirmacao s w).2.
Proof.
  intros Hw. unfold excluir_usuario.
  destruct (Texto.vazio _); [done|]. destruct (bool_decide _); [done|].
  destruct (negb confirmacao); [done|].
  destruct (obter_conexao_empresa s w) as [e|[[p w1]|]] eqn:Hc; [done| |done].
  destruct (obter_conexao_empresa_papeis s w w1 p Hw Hc) as [Hw1 Hb].
  destruct (alterar_tabela _ _ _) as [e|b'] eqn:Ha; [done|].
  apply papeis_gravar; [done|].
  unfold alterar_tabela, em_tabela in Ha.
  destruct (abrir w1 p !! "usuarios") as [t|] eqn:Ht; [|done].
  unfold apagar in Ha. destruct (forallb _ _); [|done].
  injection Ha as <-.
  destruct (papeis_da_loja_inv _ t Hb Ht) as [Hk Hl].
  apply papeis_da_loja_usuarios; [done|]. cbn [t_linhas].
  by apply forallb_filter_sub.
Qed.

(** X11.  Registering a company, logging in, registering a user and deleting
    one keep this of the files on disk, whatever they answer and whatever
    the environment raises: every [usuarios] table carries the [CHECK] of
    the source and every row of it one of the four access levels. *)
Theorem papeis_validos_sempre (amb : ambiente) (w : mundo)
    (entry_nome entry_senha entry_admin : string) (logo_path : option string)
    (logada : option sessao) (janela_aberta confirmacao : bool)
    (d : dados_usuario) (s : sessao) (usuario_atual : string) :
  papeis_no_disco w ->
  papeis_no_disco
    (cadastrar_empresa amb entry_nome entry_senha entry_admin logo_path w).2
  /\ papeis_no_disco
       (fazer_login amb entry_nome entry_senha entry_admin w logada).1.2
  /\ papeis_no_disco (salvar_usuario amb janela_aberta d s w).2
  /\ papeis_no_disco (excluir_usuario usuario_atual confirmacao s w).2.
Proof.
  intros Hw. split; [by apply cadastrar_empresa_papeis|].
  split; [by apply fazer_login_papeis|].
  split; [by apply salvar_usuario_papeis|by apply excluir_usuario_papeis].
Qed.

(** The theorem at Acme with its three users: the operator deletes the
    administrator and the levels on disk are still the declared ones. *)
Lemma papeis_validos_sempre_acme :
  papeis_no_disco Cenario.acme3_logada
  /\ papeis_no_disco
       (excluir_usuario "adm" true (Cenario.sessao_de Cenario.login_op)
          Cenario.acme3_logada).2.
Proof.
  assert (Hw : papeis_no_disco Cenario.acme3_logada) by calcular.
  split; [exact Hw|].
  exact (proj2 (proj2 (proj2
    (papeis_validos_sempre Cenario.amb0 Cenario.acme3_logada
       "Acme" "senha-op" "op" None None true true Cenario.dados_op
       (Cenario.sessao_de Cenario.login_op) "adm" Hw)))).
Defined.

(** ** The store name *)

Lemma todos_app (p : ascii -> bool) (s1 s2 : string) :
  Texto.todos p (s1 +:+ s2) = Texto.todos p s1 && Texto.todos p s2.
Proof.
  induction s1 as [|c s1 IH]; [done|]. simpl.
  by rewrite IH, andb_assoc.
Qed.

Lemma todos_prefixo (p : ascii -> bool) (n : nat) (s : string) :
  Texto.todos p s = true -> Texto.todos p (Texto.prefixo n s) = true.
Proof.
  revert s. induction n as [|n IH]; intros [|c s]; simpl; try done.
  intros [Hc Hs]%andb_true_iff. by rewrite Hc, IH.
Qed.

Lemma todos_string_of_list (p : ascii -> bool) (l : list ascii) :
  forallb p l = true -> Texto.todos p (string_of_list_ascii l) = true.
Proof.
  induction l as [|c l IH]; simpl; [done|].
  intros [Hc Hl]%andb_true_iff. by rewrite Hc, IH.
Qed.

Lemma lower_palavra_identificador (c : ascii) :
  Texto.eh_palavra (Texto.lower_c c) = true ->
  eh_identificador (Texto.lower_c c) = true.
Proof. destruct c as [[] [] [] [] [] [] [] []]; vm_compute; done. Qed.

Lemma sub_nao_palavra_identificador (em_seq : bool) (s : string) :
  Texto.todos eh_identificador (Texto.sub_nao_palavra em_seq (Texto.lower s))
  = true.
Proof.
  revert em_seq. induction s as [|c s IH]; intros em_seq; [done|].
  unfold Texto.lower. cbn [Texto.mapear Texto.sub_nao_palavra].
  fold (Texto.lower s).
  destruct (Texto.eh_palavra (Texto.lower_c c)) eqn:Hc.
  - cbn [Texto.todos]. by rewrite lower_palavra_identificador, IH.
  - destruct em_seq; [apply IH|]. cbn [Texto.todos]. by rewrite IH.
Qed.

Lemma hex_c_identificador (x : Z) :
  eh_identificador (Sha256.hex_c (Z.land x 15)) = true.
Proof.
  change 15%Z with (Z.ones 4). rewrite Z.land_ones by done.
  pose proof (Z.mod_pos_bound x (2 ^ 4) eq_refl) as [H0 H16].
  set (y := (x mod 2 ^ 4)%Z) in *. clearbody y.
  assert (Hy : y ∈ (Z.of_nat <$> seq 0 16)).
  { apply list_elem_of_fmap. exists (Z.to_nat y). split; [lia|].
    apply list_elem_of_In, in_seq. lia. }
  simpl in Hy. rewrite !elem_of_cons, elem_of_nil in Hy.
  repeat (destruct Hy as [->|Hy]; [reflexivity|]). done.
Qed.

Lemma hex_palavra_identificador (w : Z) :
  Texto.todos eh_identificador (Sha256.hex_palavra w) = true.
Proof.
  unfold Sha256.hex_palavra. apply todos_string_of_list.
  apply forallb_forall. intros c Hc. apply in_map_iff in Hc as (i & <- & _).
  apply hex_c_identificador.
Qed.

Lemma hexdigest_identificador (s : string) :
  Texto.todos eh_identificador (Sha256.hexdigest s) = true.
Proof.
  unfold Sha256.hexdigest. induction (Sha256.digest _) as [|w ws IH]; [done|].
  cbn [map fold_right].
  by rewrite todos_app, hex_palavra_identificador, IH.
Qed.

(** X12.  The store name derived from a company name in ASCII is made of
    lower-case letters, digits and underscores only, whatever the name:
    the path [deposito_empresas/{db_nome}.db] built from it has no
    separator and no dot of the name's. *)
Theorem db_nome_de_identificador (nome : string) :
  Texto.todos eh_ascii nome = true ->
  Texto.todos eh_identificador (db_nome_de nome) = true.
Proof.
  intros _. unfold db_nome_de. rewrite !todos_app.
  rewrite sub_nao_palavra_identificador. cbn [Texto.todos andb].
  change (eh_identificador "_") with true. cbn [andb].
  apply todos_prefixo, hexdigest_identificador.
Qed.

(** The theorem at a name with spaces, dots and a hyphen. *)
Lemma db_nome_de_identificador_filial :
  db_nome_de "Acme S.A. - Filial 2" = "acme_s_a_filial_2_3b44a9"
  /\ Texto.todos eh_identificador (db_nome_de "Acme S.A. - Filial 2") = true.
Proof.
  split; [vm_compute; reflexivity|].
  apply (db_nome_de_identificador "Acme S.A. - Filial 2"). reflexivity.
Defined.

(** ** Registering, then logging in *)

Lemma vazio_ne (s : string) : Texto.vazio s = false -> s ≠ EmptyString.
Proof. by destruct s. Qed.

(** X13.  After a registration under a name in ASCII answered "Empresa
    cadastrada com sucesso!", a login with the same three fields is
    answered with the main menu, at any later time and whatever session
    was there: the session it leaves is the new company's, with the
    owner's login and the access level CEO. *)
Theorem cadastro_depois_login (amb amb' : ambiente)
    (entry_nome entry_senha entry_admin : string) (logo_path : option string)
    (w w' : mundo) (logada : option sessao) :
  let nome := Texto.strip entry_nome in
  let admin := Texto.strip entry_admin in
  Texto.todos eh_ascii nome = true ->
  cadastrar_empresa amb entry_nome entry_senha entry_admin logo_path w
  = (CadastradaComSucesso, w') ->
  exists w'' s,
    fazer_login amb' entry_nome entry_senha entry_admin w' logada
    = (MenuPrincipal, w'', Some s)
    /\ s !! "nome" = Some (VTexto nome)
    /\ s !! "db_nome" = Some (VTexto (db_nome_de nome))
    /\ s !! "usuario" = Some (VTexto admin)
    /\ s !! "tipo_acesso" = Some (VTexto "CEO").
Proof.
  intros nome admin _ H. subst nome admin.
  apply cadastro_sucesso_inv in H
    as (Hv & te & e & b & l & _ & Hte' & Hfil & Hcols & He1 & _ & He3 & _
        & Hb & Hu & Hins).
  apply orb_false_iff in Hv as [Hv Hv3]. apply orb_false_iff in Hv as [Hv1 Hv2].
  destruct (inserir_ceo amb (db_nome_de (Texto.strip entry_nome))
              (Texto.strip entry_nome) (Texto.strip entry_senha)
              (Texto.strip entry_admin))
    as (l0 & Hl0 & _ & Hl1 & Hl2 & Hl3 & _).
  rewrite Hl0 in Hins. injection Hins as ->.
  set (te' := Tabela (t_colunas te) (t_check te) (t_linhas te ++ [e])
                (t_seq te + 1)) in *.
  assert (Hdir : diretorio_legivel te' = true).
  { unfold diretorio_legivel. simpl in Hcols |- *.
    apply andb_true_iff in Hcols as [Hid Hcols].
    apply andb_true_iff in Hcols as [Hn Hcols].
    apply andb_true_iff in Hcols as [_ Hcols].
    apply andb_true_iff in Hcols as [Hlg Hcols].
    apply andb_true_iff in Hcols as [Hd _].
    unfold tem_coluna, nomes in *. simpl. by rewrite Hid, Hn, Hlg, Hd. }
  rewrite (login_resolve amb' w' logada _ _ _ te')
    by (try apply vazio_ne; done).
  assert (Hsel : filter (fun l => igual "nome" (VTexto (Texto.strip entry_nome)) l
                                  = true) (t_linhas te') = [e]).
  { subst te'. cbn [t_linhas]. rewrite filter_app, Hfil. simpl.
    rewrite filter_cons_True, filter_nil; [done|].
    unfold igual. rewrite He1. by apply bool_decide_eq_true. }
  rewrite Hsel. cbv zeta. rewrite He3. cbn [str_de]. rewrite Hb.
  set (tu := Tabela usuarios check_usuarios [l] 1) in *.
  assert (Hdecl : usuarios_declarada tu = true) by reflexivity.
  rewrite (autenticar_usuario_eq amb' w' logada _ b te' e _ _ tu Hu Hdecl).
  assert (Hid : filter (fun l => identifica (Texto.strip entry_admin) l = true)
                  (t_linhas tu) = [l]).
  { subst tu. cbn [t_linhas]. rewrite filter_cons_True, filter_nil; [done|].
    unfold identifica, igual. rewrite Hl1.
    by rewrite bool_decide_eq_true_2. }
  rewrite Hid, Hl2, bool_decide_eq_true_2 by done.
  destruct (concluir_login_ok amb' w' logada
              (caminho_db (db_nome_de (Texto.strip entry_nome)))
              b te' e tu l "CEO" Hdir Hdecl Hl3 eq_refl)
    as (s & -> & Hs1 & Hs2 & _ & Hs4 & Hs5 & _).
  eexists _, s. split; [reflexivity|].
  rewrite Hs4, Hs5, Hs1, Hs2, He1, He3, Hl1. repeat split.
Qed.

(** The theorem at the registration of Acme on a fresh installation. *)
Lemma cadastro_depois_login_acme :
  (fazer_login Cenario.amb0 "Acme" "segredo1" "dono" Cenario.acme None).1.1
  = MenuPrincipal.
Proof.
  destruct (cadastro_depois_login Cenario.amb0 Cenario.amb0 "Acme" "segredo1"
              "dono" None Cenario.inicial Cenario.acme None
              ltac:(calcular) ltac:(calcular))
    as (w'' & s & H & _).
  rewrite H. reflexivity.
Defined.

(** ** Deposits *)

Lemma obter_conexao_empresa_ok (s : sessao) (w : mundo) (vdb : valor)
    (b : gmap string tabela) :
  s !! "db_nome" = Some vdb ->
  arquivos w !! caminho_db (str_de vdb) = Some b ->
  obter_conexao_empresa s w = inr (Some (caminho_db (str_de vdb), w))
  /\ abrir w (caminho_db (str_de vdb)) = b.
Proof.
  intros Hdb Hb. unfold obter_conexao_empresa.
  rewrite bool_decide_eq_false_2
    by (intros ->; by rewrite lookup_empty in Hdb).
  rewrite Hdb. rewrite (abrir_existente _ b w Hb), (gravar_id _ b w Hb). done.
Qed.

(** Parameters that fit are bound, and the statement runs. *)
Lemma com_parametros_cabe {A : Type} (params : list valor) (r : res A) :
  forallb cabe params = true -> com_parametros params r = r.
Proof. intros H. unfold com_parametros. rewrite H. by destruct r as [[]|]. Qed.

(** An exception of the statement is one of the method. *)
Lemma com_parametros_inl {A : Type} (params : list valor) (e : excecao) :
  exists e', com_parametros params (inl e : res A) = inl e'.
Proof.
  unfold com_parametros. destruct e; destruct (forallb cabe params); eauto.
Qed.

Lemma guardado_cabe (ty : tipo) (v : valor) :
  guardado_como_dado ty v = true -> cabe v = true.
Proof. by destruct v, ty. Qed.

Lemma bem_tipados_cabem (cs : list coluna) (vals : list (string * valor)) :
  bem_tipados cs vals = true -> forallb cabe vals.*2 = true.
Proof.
  unfold bem_tipados. induction vals as [|[k v] vals IH]; [done|].
  cbn [forallb fmap list_fmap snd]. intros [Hv Hvs]%andb_true_iff.
  rewrite (IH Hvs), andb_true_r.
  apply existsb_exists in Hv as (c & _ & Hc).
  apply andb_true_iff in Hc as [_ Hc]. exact (guardado_cabe _ _ Hc).
Qed.

Lemma cabe_int64 (n : Z) : int64 n = true -> forallb cabe [VInt n] = true.
Proof. intros H. simpl. by rewrite H. Qed.

Lemma declarada_inv (cs : list coluna) (t : tabela) :
  declarada cs t = true -> t_colunas t = cs /\ t_check t = [].
Proof.
  intros [H1 H2]%andb_true_iff.
  by apply bool_decide_eq_true in H1; apply bool_decide_eq_true in H2.
Qed.

(** An [UPDATE] of columns without [NOT NULL], [UNIQUE] or [CHECK] goes
    through. *)
Lemma atualizar_sem_restricoes (cols : list string)
    (sets : list (string * valor)) (p : gmap string valor -> bool)
    (t : tabela) :
  forallb (tem_coluna t) (sets.*1 ++ cols) = true ->
  forallb (fun c => negb (c_nao_nulo c))
    (filter (fun c => c_nome c ∈ sets.*1) (t_colunas t)) = true ->
  forallb (fun c => negb (c_unico c))
    (filter (fun c => c_nome c ∈ sets.*1) (t_colunas t)) = true ->
  filter (fun ch : string * list string => ch.1 ∈ sets.*1) (t_check t) = [] ->
  atualizar cols sets p t
  = inr (Tabela (t_colunas t) (t_check t)
           ((fun l => if p l then aplicar sets l else l) <$> t_linhas t)
           (t_seq t)).
Proof.
  intros Hc Hn Hu Hk. unfold atualizar. rewrite Hc. simpl negb. cbv iota zeta.
  rewrite Hk, (linhas_unicas_livre _ _ Hu), andb_true_r.
  match goal with |- (if forallb ?f ?ls then _ else _) = _ =>
    assert (Hf : forallb f ls = true) end.
  { apply forallb_forall. intros l _. by rewrite (nao_nulos_livre _ _ Hn). }
  by rewrite Hf.
Qed.

Lemma dicionario_lookup (cols : list string) (l : gmap string valor)
    (c : string) :
  c ∈ cols -> dicionario cols l !! c = Some (campo l c).
Proof.
  unfold dicionario. induction cols as [|c0 cols IH]; [by intros ?%elem_of_nil|].
  intros Hc. rewrite fmap_cons. cbn [list_to_map foldr uncurry fst snd].
  destruct (decide (c0 = c)) as [->|Hne].
  - by rewrite lookup_insert_eq.
  - rewrite lookup_insert_ne by done. apply IH.
    apply elem_of_cons in Hc as [Hc|Hc]; [congruence|done].
Qed.

Lemma inativar_inativar (deposito_id : Z) (l : gmap string valor) :
  inativar deposito_id (inativar deposito_id l) = inativar deposito_id l.
Proof.
  unfold inativar. destruct (igual "id" _ l) eqn:Hi; [|by rewrite Hi].
  assert (Hi' : igual "id" (VInt deposito_id)
                  (<["status" := VTexto "inativo"]> l) = true).
  { unfold igual, campo in *. by rewrite lookup_insert_ne. }
  by rewrite Hi', insert_insert_eq.
Qed.

Lemma atualizar_status (deposito_id : Z) (td : tabela) :
  declarada depositos td = true ->
  atualizar ["id"] [("status", VTexto "inativo")]
    (igual "id" (VInt deposito_id)) td
  = inr (Tabela (t_colunas td) (t_check td)
           (inativar deposito_id <$> t_linhas td) (t_seq td)).
Proof.
  intros [Hc Hk]%declarada_inv.
  rewrite atualizar_sem_restricoes; [done|..].
  - simpl. by rewrite !(tem_coluna_declarada td depositos).
  - rewrite Hc. reflexivity.
  - rewrite Hc. reflexivity.
  - by rewrite Hk.
Qed.

Lemma filter_inativar (deposito_id : Z) (ls : list (gmap string valor)) :
  filter (fun l => igual "id" (VInt deposito_id) l = true)
    (inativar deposito_id <$> ls)
  = (fun l => <["status" := VTexto "inativo"]> l)
      <$> filter (fun l => igual "id" (VInt deposito_id) l = true) ls.
Proof.
  induction ls as [|x xs IH]; [done|].
  rewrite fmap_cons. unfold inativar at 1.
  destruct (igual "id" (VInt deposito_id) x) eqn:Hx.
  - rewrite filter_cons_True.
    2:{ unfold igual, campo in *. by rewrite lookup_insert_ne. }
    rewrite filter_cons_True by done. by rewrite fmap_cons, IH.
  - rewrite !filter_cons_False by (by rewrite Hx). exact IH.
Qed.

Lemma colunas_deposito_declaradas (td : tabela) :
  declarada depositos td = true ->
  forallb (tem_coluna td) colunas_deposito = true.
Proof.
  intros [Hc _]%declarada_inv. unfold colunas_deposito. simpl.
  by rewrite !(tem_coluna_declarada td depositos).
Qed.

Lemma dicionario_inativo (l : gmap string valor) :
  dicionario colunas_deposito (<["status" := VTexto "inativo"]> l)
  = <["status" := VTexto "inativo"]> (dicionario colunas_deposito l).
Proof.
  apply map_eq. intros c. destruct (decide (c = "status")) as [->|Hc].
  - rewrite lookup_insert_eq.
    rewrite dicionario_lookup by (by apply (bool_decide_unpack _)).
    unfold campo. by rewrite lookup_insert_eq.
  - rewrite lookup_insert_ne by done.
    destruct (decide (c ∈ colunas_deposito)) as [Hin|Hnin].
    + rewrite !dicionario_lookup by done.
      unfold campo. by rewrite lookup_insert_ne.
    + unfold dicionario.
      rewrite !not_elem_of_list_to_map_1; [done|..];
        rewrite <- list_fmap_compose; by rewrite list_fmap_id.
Qed.

Section ExcluirDeposito.

Context (deposito_id : Z) (s : sessao) (w : mundo) (vdb : valor)
        (b : gmap string tabela) (td tl : tabela).

Hypothesis Hid : int64 deposito_id = true.
Hypothesis Hdb : s !! "db_nome" = Some vdb.
Hypothesis Hb : arquivos w !! caminho_db (str_de vdb) = Some b.
Hypothesis Htd : b !! "depositos" = Some td.
Hypothesis Hdecl : declarada depositos td = true.
Hypothesis Htl : b !! "localizacao_produtos" = Some tl.
Hypothesis Hcol : tem_coluna tl "deposito_id" = true.

Lemma excluir_deposito_eq :
  excluir_deposito deposito_id s w
  = if existsb (igual "deposito_id" (VInt deposito_id)) (t_linhas tl)
    then (inr false, w)
    else (inr true,
          gravar (caminho_db (str_de vdb))
            (<["depositos" :=
                 Tabela (t_colunas td) (t_check td)
                   (inativar deposito_id <$> t_linhas td) (t_seq td)]> b) w).
Proof.
  unfold excluir_deposito.
  destruct (obter_conexao_empresa_ok s w vdb b Hdb Hb) as [-> ->]. cbv zeta.
  rewrite com_parametros_cabe by (by apply cabe_int64).
  unfold em_tabela at 1. rewrite Htl.
  rewrite selecionar_ok by (simpl; by rewrite Hcol).
  destruct (existsb _ (t_linhas tl)) eqn:Hex.
  - apply existsb_exists in Hex as (l & Hl & Hi).
    destruct (filter _ (t_linhas tl)) as [|x r] eqn:Hf; [|done].
    assert (Hin : l ∈ filter (fun l => igual "deposito_id" (VInt deposito_id) l
                                       = true) (t_linhas tl)).
    { apply list_elem_of_filter. split; [done|]. by apply list_elem_of_In. }
    rewrite Hf in Hin. by apply elem_of_nil in Hin.
  - destruct (filter _ (t_linhas tl)) as [|x r] eqn:Hf.
    + unfold alterar_tabela, em_tabela. rewrite Htd.
      by rewrite atualizar_status.
    + apply filter_cons_elem in Hf as [Hx Hi].
      assert (existsb (igual "deposito_id" (VInt deposito_id)) (t_linhas tl)
              = true); [|congruence].
      apply existsb_exists. exists x. split; [|done]. by apply list_elem_of_In.
Qed.

End ExcluirDeposito.

(** X14.  [excluir_deposito] on a store with its tables, for an identifier
    of 64 bits.  While a product is located in the deposit it answers
    [False] and changes nothing.
    Otherwise it answers [True], also when no deposit has the
    identifier, and removes no row: the rows of [depositos] with that
    [id] get the status [inativo], everything else stays; the deposit is
    still the one [obter_deposito] returns; it is no longer among those
    [listar_depositos] returns for the status [ativo]; and excluding it
    again answers [True] and changes nothing more. *)
Theorem excluir_deposito_logica (deposito_id : Z) (s : sessao) (w : mundo)
    (vdb : valor) (b : gmap string tabela) (td tl : tabela) :
  let p := caminho_db (str_de vdb) in
  let r := excluir_deposito deposito_id s w in
  int64 deposito_id = true ->
  s !! "db_nome" = Some vdb ->
  arquivos w !! p = Some b ->
  b !! "depositos" = Some td ->
  declarada depositos td = true ->
  b !! "localizacao_produtos" = Some tl ->
  tem_coluna tl "deposito_id" = true ->
  if existsb (igual "deposito_id" (VInt deposito_id)) (t_linhas tl)
  then r = (inr false, w)
  else
    r.1 = inr true
    /\ (exists td',
          r.2 = gravar p (<["depositos" := td']> b) w
          /\ t_colunas td' = t_colunas td
          /\ length (t_linhas td') = length (t_linhas td)
          /\ forall (i : nat) (l : gmap string valor),
               t_linhas td !! i = Some l ->
               t_linhas td' !! i
               = Some (if igual "id" (VInt deposito_id) l
                       then <["status" := VTexto "inativo"]> l else l))
    /\ (forall l,
          head (filter (fun l => igual "id" (VInt deposito_id) l = true)
                       (t_linhas td)) = Some l ->
          (obter_deposito deposito_id s r.2).1
          = inr (Some (<["status" := VTexto "inativo"]>
                         (dicionario colunas_deposito l))))
    /\ (forall ds d,
          (listar_depositos {[ "status" := VTexto "ativo" ]} s r.2).1 = inr ds ->
          d ∈ ds -> d !! "id" ≠ Some (VInt deposito_id))
    /\ excluir_deposito deposito_id s r.2 = r.
Proof.
  intros p r Hcabe Hdb Hb Htd Hdecl Htl Hcol. subst r.
  rewrite (excluir_deposito_eq deposito_id s w vdb b td tl) by done.
  destruct (existsb _ (t_linhas tl)) eqn:Hex; [done|]. fold p.
  set (td' := Tabela (t_colunas td) (t_check td)
                (inativar deposito_id <$> t_linhas td) (t_seq td)).
  set (b' := <["depositos" := td']> b).
  set (w' := gravar p b' w).
  assert (Hb' : arquivos w' !! p = Some b')
    by (subst w'; unfold gravar; simpl; apply lookup_insert_eq).
  assert (Htd' : b' !! "depositos" = Some td') by apply lookup_insert_eq.
  assert (Hdecl' : declarada depositos td' = true) by exact Hdecl.
  cbn [fst snd]. split; [done|]. split; [|split; [|split]].
  - exists td'. split; [done|]. split; [done|].
    split; [subst td'; cbn [t_linhas]; by rewrite length_fmap|].
    intros i l Hl. subst td'. cbn [t_linhas]. by rewrite list_lookup_fmap, Hl.
  - intros l Hl. unfold obter_deposito.
    destruct (obter_conexao_empresa_ok s w' vdb b' Hdb Hb') as [-> ->].
    rewrite com_parametros_cabe by (by apply cabe_int64).
    unfold em_tabela. rewrite Htd'.
    rewrite selecionar_ok by (by apply colunas_deposito_declaradas).
    subst td'. cbn [t_linhas]. rewrite filter_inativar.
    destruct (filter _ (t_linhas td)) as [|x xs]; [done|].
    simpl in Hl. injection Hl as ->. rewrite fmap_cons.
    by rewrite dicionario_inativo.
  - intros ds d Hds Hd. unfold listar_depositos in Hds.
    destruct (obter_conexao_empresa_ok s w' vdb b' Hdb Hb') as [Hc1 Hc2].
    rewrite Hc1, Hc2 in Hds.
    rewrite com_parametros_cabe in Hds by reflexivity.
    unfold em_tabela in Hds. rewrite Htd' in Hds.
    rewrite selecionar_ok in Hds by (by apply colunas_deposito_declaradas).
    cbn [fst] in Hds. injection Hds as <-.
    apply list_elem_of_fmap in Hd as (l' & -> & Hl').
    apply list_elem_of_filter in Hl' as [Hf Hl'].
    subst td'. cbn [t_linhas] in Hl'.
    apply list_elem_of_fmap in Hl' as (l & -> & Hl).
    rewrite dicionario_lookup by (by apply (bool_decide_unpack _)).
    intros [= Hid].
    unfold filtro_depositos in Hf. cbn [forallb] in Hf.
    rewrite lookup_singleton_eq in Hf.
    rewrite !lookup_singleton_ne in Hf by done.
    rewrite !andb_true_r in Hf.
    unfold inativar in Hf, Hid.
    destruct (igual "id" (VInt deposito_id) l) eqn:Hi.
    + unfold igual, campo in Hf. rewrite lookup_insert_eq in Hf.
      simpl in Hf. discriminate Hf.
    + unfold igual in Hi. apply bool_decide_eq_false in Hi. done.
  - rewrite (excluir_deposito_eq deposito_id s w' vdb b' td' tl);
      [|done|done|done|done|done| |done].
    2:{ subst b'. rewrite lookup_insert_ne by done. exact Htl. }
    rewrite Hex. f_equal. subst w' b' td'. cbn [t_colunas t_check t_linhas t_seq].
    rewrite gravar_gravar, insert_insert_eq. do 3 f_equal.
    rewrite <- list_fmap_compose. apply list_fmap_ext. intros i l _.
    apply inativar_inativar.
Qed.

Lemma ids_contados_novo (t : tabela) :
  ids_contados t ->
  existsb (igual "id" (VInt (t_seq t + 1))) (t_linhas t) = false.
Proof.
  unfold ids_contados. induction 1 as [|l ls (n & Hn & Hle) _ IH]; [done|].
  simpl. rewrite IH, orb_false_r. unfold igual. rewrite Hn.
  apply bool_decide_eq_false. intros [= ->]. lia.
Qed.

Lemma filter_existsb_false {A : Type} (p : A -> bool) (ls : list A) :
  existsb p ls = false -> filter (fun l => p l = true) ls = [].
Proof.
  induction ls as [|x xs IH]; [done|]. simpl.
  intros [Hx Hxs]%orb_false_iff.
  rewrite filter_cons_False by (by rewrite Hx). by apply IH.
Qed.

(** The row [criar_deposito] stores in a table with the declared
    columns. *)
Lemma linha_deposito (agora : string) (td : tabela)
    (nome tipo endereco cidade estado cep responsavel_id capacidade_total : valor) :
  t_colunas td = depositos ->
  montar_linha agora td
    (list_to_map
       [ ("nome", nome); ("tipo", tipo); ("endereco", endereco);
         ("cidade", cidade); ("estado", estado); ("cep", cep);
         ("responsavel_id", responsavel_id);
         ("capacidade_total", capacidade_total) ])
  = list_to_map
      [ ("id", VInt (t_seq td + 1)); ("nome", nome); ("tipo", tipo);
        ("endereco", endereco); ("cidade", cidade); ("estado", estado);
        ("cep", cep); ("responsavel_id", responsavel_id);
        ("capacidade_total", capacidade_total); ("status", VTexto "ativo") ].
Proof.
  intros Hc. unfold montar_linha. rewrite Hc. generalize (t_seq td). intros sq.
  vm_compute. reflexivity.
Qed.

Lemma inserir_deposito (agora : string) (td : tabela)
    (nome tipo endereco cidade estado cep responsavel_id capacidade_total : valor) :
  declarada depositos td = true -> ids_contados td ->
  nome ≠ VNull -> tipo ≠ VNull ->
  let l := list_to_map
      [ ("id", VInt (t_seq td + 1)); ("nome", nome); ("tipo", tipo);
        ("endereco", endereco); ("cidade", cidade); ("estado", estado);
        ("cep", cep); ("responsavel_id", responsavel_id);
        ("capacidade_total", capacidade_total); ("status", VTexto "ativo") ] in
  inserir agora
    [ ("nome", nome); ("tipo", tipo); ("endereco", endereco);
      ("cidade", cidade); ("estado", estado); ("cep", cep);
      ("responsavel_id", responsavel_id);
      ("capacidade_total", capacidade_total) ] td
  = inr (Tabela (t_colunas td) (t_check td) (t_linhas td ++ [l]) (t_seq td + 1)).
Proof.
  intros [Hc Hk]%declarada_inv Hids Hn Ht l. unfold inserir.
  assert (Hcols : forallb (tem_coluna td)
            [ ("nome", nome); ("tipo", tipo); ("endereco", endereco);
              ("cidade", cidade); ("estado", estado); ("cep", cep);
              ("responsavel_id", responsavel_id);
              ("capacidade_total", capacidade_total) ].*1 = true).
  { simpl. by rewrite !(tem_coluna_declarada td depositos). }
  rewrite Hcols. simpl negb. cbv iota zeta.
  rewrite (linha_deposito agora td) by done. fold l.
  assert (Hnn : nao_nulos_ok (t_colunas td) l = true).
  { rewrite Hc. subst l. generalize (t_seq td). intros sq.
    destruct nome; [done|..]; destruct tipo; try done; vm_compute; reflexivity. }
  assert (Hun : unicos_ok (t_colunas td) (t_linhas td) l = true).
  { rewrite Hc. unfold unicos_ok, depositos.
    cbn [forallb c_unico c_nome col_id col col_nn col_def negb orb andb].
    replace (campo l "id") with (VInt (t_seq td + 1)).
    - by rewrite ids_contados_novo.
    - subst l. generalize (t_seq td). intros sq. vm_compute. reflexivity. }
  rewrite Hnn, Hun, Hk. reflexivity.
Qed.

(** X15.  [criar_deposito] with a name and a kind, on a store with the table
    of deposits whose counter has not run out, for values SQLite stores
    as they are given (a text or [NULL] for the six text columns, an
    integer of 64 bits or [NULL] for [responsavel_id], [NULL] for the
    capacity, a [REAL] column): it returns the next identifier;
    [obter_deposito] of that identifier returns the eight values given,
    the identifier and the status [ativo]; and [obter_deposito] of any
    other identifier returns what it returned before. *)
Theorem criar_obter_deposito (amb : ambiente)
    (nome tipo endereco cidade estado cep responsavel_id capacidade_total : valor)
    (s : sessao) (w : mundo) (vdb : valor) (b : gmap string tabela)
    (td : tabela) :
  let r := criar_deposito amb nome tipo endereco cidade estado cep
             responsavel_id capacidade_total s w in
  let novo := (t_seq td + 1)%Z in
  s !! "db_nome" = Some vdb ->
  arquivos w !! caminho_db (str_de vdb) = Some b ->
  b !! "depositos" = Some td ->
  declarada depositos td = true ->
  ids_contados td ->
  int64 novo = true ->
  bem_tipados depositos
    [ ("nome", nome); ("tipo", tipo); ("endereco", endereco);
      ("cidade", cidade); ("estado", estado); ("cep", cep);
      ("responsavel_id", responsavel_id);
      ("capacidade_total", capacidade_total) ] = true ->
  nome ≠ VNull -> tipo ≠ VNull ->
  r.1 = inr (Some novo)
  /\ (obter_deposito novo s r.2).1
     = inr (Some (list_to_map
          [ ("id", VInt novo); ("nome", nome); ("tipo", tipo);
            ("endereco", endereco); ("cidade", cidade); ("estado", estado);
            ("cep", cep); ("responsavel_id", responsavel_id);
            ("capacidade_total", capacidade_total);
            ("status", VTexto "ativo") ]))
  /\ forall outro : Z,
       outro ≠ novo ->
       (obter_deposito outro s r.2).1 = (obter_deposito outro s w).1.
Proof.
  intros r novo Hdb Hb Htd Hdecl Hids Hnovo Htip Hn Ht. subst r.
  set (l := list_to_map
      [ ("id", VInt novo); ("nome", nome); ("tipo", tipo);
        ("endereco", endereco); ("cidade", cidade); ("estado", estado);
        ("cep", cep); ("responsavel_id", responsavel_id);
        ("capacidade_total", capacidade_total); ("status", VTexto "ativo") ]
      : gmap string valor).
  set (td' := Tabela (t_colunas td) (t_check td) (t_linhas td ++ [l]) novo).
  set (b' := <["depositos" := td']> b).
  set (w' := gravar (caminho_db (str_de vdb)) b' w).
  assert (Hr : criar_deposito amb nome tipo endereco cidade estado cep
                 responsavel_id capacidade_total s w = (inr (Some novo), w')).
  { unfold criar_deposito.
    destruct (obter_conexao_empresa_ok s w vdb b Hdb Hb) as [-> ->]. cbv zeta.
    rewrite Htd.
    rewrite com_parametros_cabe by exact (bem_tipados_cabem depositos _ Htip).
    by rewrite (inserir_deposito (agora amb) td) by done. }
  rewrite Hr. cbn [fst snd]. split; [done|].
  assert (Hb' : arquivos w' !! caminho_db (str_de vdb) = Some b')
    by (subst w'; unfold gravar; simpl; apply lookup_insert_eq).
  assert (Htd' : b' !! "depositos" = Some td') by apply lookup_insert_eq.
  assert (Hdecl' : declarada depositos td' = true) by exact Hdecl.
  assert (Hid : campo l "id" = VInt novo).
  { subst l. generalize novo. intros sq. vm_compute. reflexivity. }
  assert (Hobter : forall i : Z,
            (obter_deposito i s w').1
            = if int64 i
              then match filter (fun l => igual "id" (VInt i) l = true)
                           (t_linhas td ++ [l]) with
                   | x :: _ => inr (Some (dicionario colunas_deposito x))
                   | [] => inr None
                   end
              else inl OverflowError).
  { intros i. unfold obter_deposito.
    destruct (obter_conexao_empresa_ok s w' vdb b' Hdb Hb') as [-> ->].
    unfold em_tabela. rewrite Htd'.
    rewrite selecionar_ok by (by apply colunas_deposito_declaradas).
    unfold com_parametros. cbn [forallb cabe]. rewrite andb_true_r.
    destruct (int64 i); [|done].
    subst td'. cbn [t_linhas]. by destruct (filter _ _). }
  split.
  - rewrite Hobter, Hnovo, filter_app.
    rewrite (filter_existsb_false (igual "id" (VInt novo)) (t_linhas td)
               (ids_contados_novo td Hids)).
    rewrite filter_cons_True, filter_nil.
    + cbn [app]. do 2 f_equal; subst l; generalize novo; intros sq;
        vm_compute; reflexivity.
    + unfold igual. rewrite Hid. by apply bool_decide_eq_true.
  - intros outro Hne. rewrite Hobter, filter_app.
    rewrite filter_cons_False, filter_nil, app_nil_r.
    2:{ unfold igual. rewrite Hid. rewrite bool_decide_eq_false_2; [done|].
        intros [= ?]. done. }
    unfold obter_deposito.
    destruct (obter_conexao_empresa_ok s w vdb b Hdb Hb) as [-> ->].
    unfold em_tabela. rewrite Htd.
    rewrite selecionar_ok by (by apply colunas_deposito_declaradas).
    unfold com_parametros. cbn [forallb cabe]. rewrite andb_true_r.
    destruct (int64 outro); [|done].
    by destruct (filter _ _).
Qed.

(** X16.  [atualizar_deposito] on a store with the table of deposits, whatever
    it answers: no row is added or removed, the columns outside the list
    of allowed fields (the identifier among them) keep their values in
    every row, the rows with another identifier and the other tables stay
    as they were; and without an allowed key in [dados] it answers
    [False] and writes nothing. *)
Theorem atualizar_deposito_permitidos (deposito_id : Z)
    (dados : gmap string valor) (s : sessao) (w : mundo) (vdb : valor)
    (b : gmap string tabela) (td : tabela) :
  let p := caminho_db (str_de vdb) in
  let r := atualizar_deposito deposito_id dados s w in
  s !! "db_nome" = Some vdb ->
  arquivos w !! p = Some b ->
  b !! "depositos" = Some td ->
  ((forall c, c ∈ campos_permitidos -> dados !! c = None) ->
   r = (inr false, w))
  /\ exists b' td',
       r.2 = gravar p b' w
       /\ (forall n, n ≠ "depositos" -> b' !! n = b !! n)
       /\ b' !! "depositos" = Some td'
       /\ t_colunas td' = t_colunas td
       /\ length (t_linhas td') = length (t_linhas td)
       /\ forall (i : nat) (l : gmap string valor),
            t_linhas td !! i = Some l ->
            exists l',
              t_linhas td' !! i = Some l'
              /\ (forall c, c ∉ campos_permitidos -> l' !! c = l !! c)
              /\ (campo l "id" ≠ VInt deposito_id -> l' = l).
Proof.
  intros p r Hdb Hb Htd. subst r. unfold atualizar_deposito.
  destruct (obter_conexao_empresa_ok s w vdb b Hdb Hb) as [-> ->]. fold p.
  cbv zeta.
  set (updates := filter (fun kv : string * valor => kv.1 ∈ campos_permitidos)
                    (map_to_list dados)).
  assert (Hsub : forall c, c ∉ campos_permitidos -> c ∉ updates.*1).
  { intros c Hc Hin. apply list_elem_of_fmap in Hin as ([k v] & -> & Hkv).
    subst updates. by apply list_elem_of_filter in Hkv as [? _]. }
  assert (Hmesmo : exists b' td',
            w = gravar p b' w
            /\ (forall n, n ≠ "depositos" -> b' !! n = b !! n)
            /\ b' !! "depositos" = Some td'
            /\ t_colunas td' = t_colunas td
            /\ length (t_linhas td') = length (t_linhas td)
            /\ forall (i : nat) (l : gmap string valor),
                 t_linhas td !! i = Some l ->
                 exists l',
                   t_linhas td' !! i = Some l'
                   /\ (forall c, c ∉ campos_permitidos -> l' !! c = l !! c)
                   /\ (campo l "id" ≠ VInt deposito_id -> l' = l)).
  { exists b, td. split; [by rewrite gravar_id|].
    repeat split; try done. intros i l Hl. by exists l. }
  split.
  - intros Hnone. replace updates with (@nil (string * valor)); [done|].
    symmetry. subst updates.
    assert (Hf : Forall (fun kv : string * valor => kv.1 ∉ campos_permitidos)
                   (map_to_list dados)).
    { apply Forall_forall. intros [k v] Hkv Hin.
      apply elem_of_map_to_list in Hkv. rewrite (Hnone k Hin) in Hkv.
      discriminate Hkv. }
    clear Hsub Hmesmo. induction Hf as [|kv kvs Hkv _ IH]; [done|].
    rewrite filter_cons_False by exact Hkv. exact IH.
  - destruct updates as [|kv kvs] eqn:Hup; [exact Hmesmo|]. rewrite <- Hup in *.
    unfold alterar_tabela, em_tabela. rewrite Htd.
    destruct (atualizar _ _ _ td) as [e|td'] eqn:Ha.
    { destruct (com_parametros_inl (A := gmap string tabela)
                  (updates.*2 ++ [VInt deposito_id]) e) as [e' ->].
      by destruct e'. }
    unfold com_parametros. destruct (forallb cabe _); [|exact Hmesmo].
    apply atualizar_inr in Ha as [-> _].
    eexists _, _. split; [reflexivity|].
    split; [intros n Hn; by rewrite lookup_insert_ne|].
    split; [apply lookup_insert_eq|]. cbn [t_colunas t_linhas].
    split; [done|]. split; [by rewrite length_fmap|].
    intros i l Hl. rewrite list_lookup_fmap, Hl. eexists. split; [reflexivity|].
    split.
    + intros c Hc. destruct (igual "id" (VInt deposito_id) l); [|done].
      apply aplicar_fora. by apply Hsub.
    + intros Hne. destruct (igual "id" (VInt deposito_id) l) eqn:Hi; [|done].
      destruct Hne. unfold igual in Hi. by apply bool_decide_eq_true in Hi.
Qed.

(** ** Products *)

(** X17.  [excluir_produto] on a store with its tables, for an identifier of
    64 bits.  While a stock movement or an order item names the product
    it answers [False] and changes nothing.  Otherwise it answers [True]
    and the rows of [produtos] with that identifier are gone:
    [obter_produto] finds none, the other products and every other table
    stay as they were, the rows of [localizacao_produtos] that name the
    product included, which the method does not look at. *)
Theorem excluir_produto_guardado (produto_id : Z) (s : sessao) (w : mundo)
    (vdb : valor) (b : gmap string tabela) (tp tm ti : tabela) :
  let p := caminho_db (str_de vdb) in
  let r := excluir_produto produto_id s w in
  int64 produto_id = true ->
  s !! "db_nome" = Some vdb ->
  arquivos w !! p = Some b ->
  b !! "produtos" = Some tp -> tem_coluna tp "id" = true ->
  b !! "movimentacoes_estoque" = Some tm -> tem_coluna tm "produto_id" = true ->
  b !! "itens_pedido" = Some ti -> tem_coluna ti "produto_id" = true ->
  if existsb (igual "produto_id" (VInt produto_id)) (t_linhas tm)
     || existsb (igual "produto_id" (VInt produto_id)) (t_linhas ti)
  then r = (inr false, w)
  else
    r = (inr true,
         gravar p
           (<["produtos" :=
                Tabela (t_colunas tp) (t_check tp)
                  (filter (fun l => igual "id" (VInt produto_id) l = false)
                          (t_linhas tp))
                  (t_seq tp)]> b) w)
    /\ (obter_produto produto_id s r.2).1 = inr None
    /\ (forall n, n ≠ "produtos" ->
          arquivos r.2 !! p ≫= (.!! n) = b !! n)
    /\ (forall outro : Z,
          outro ≠ produto_id ->
          (obter_produto outro s r.2).1 = (obter_produto outro s w).1).
Proof.
  intros p r Hid Hdb Hb Htp Hcp Htm Hcm Hti Hci. subst r.
  assert (Hsel : forall (t : tabela),
            tem_coluna t "produto_id" = true ->
            selecionar ["produto_id"] (igual "produto_id" (VInt produto_id)) t
            = inr (filter (fun l => igual "produto_id" (VInt produto_id) l = true)
                     (t_linhas t))).
  { intros t Ht. apply selecionar_ok. simpl. by rewrite Ht. }
  assert (Hvazio : forall (ls : list (gmap string valor)),
            existsb (igual "produto_id" (VInt produto_id)) ls = true ->
            exists x r, filter (fun l => igual "produto_id" (VInt produto_id) l
                                         = true) ls = x :: r).
  { intros ls (l & Hl & Hi)%existsb_exists.
    destruct (filter _ ls) as [|x r0] eqn:Hf; [|by eauto].
    assert (Hin : l ∈ filter (fun l => igual "produto_id" (VInt produto_id) l
                                       = true) ls).
    { apply list_elem_of_filter. split; [done|]. by apply list_elem_of_In. }
    rewrite Hf in Hin. by apply elem_of_nil in Hin. }
  set (tp' := Tabela (t_colunas tp) (t_check tp)
                (filter (fun l => igual "id" (VInt produto_id) l = false)
                        (t_linhas tp)) (t_seq tp)).
  set (w' := gravar p (<["produtos" := tp']> b) w).
  assert (Heq : excluir_produto produto_id s w
                = if existsb (igual "produto_id" (VInt produto_id)) (t_linhas tm)
                     || existsb (igual "produto_id" (VInt produto_id)) (t_linhas ti)
                  then (inr false, w) else (inr true, w')).
  { unfold excluir_produto.
    destruct (obter_conexao_empresa_ok s w vdb b Hdb Hb) as [-> ->]. cbv zeta.
    fold p. rewrite com_parametros_cabe by (by apply cabe_int64).
    unfold em_tabela. rewrite Htm, Hti, !Hsel by done.
    destruct (existsb _ (t_linhas tm)) eqn:Hem.
    { destruct (Hvazio _ Hem) as (x & r0 & ->). done. }
    rewrite (filter_existsb_false _ _ Hem).
    destruct (existsb _ (t_linhas ti)) eqn:Hei.
    { destruct (Hvazio _ Hei) as (x & r0 & ->). done. }
    rewrite (filter_existsb_false _ _ Hei). cbn [orb].
    unfold alterar_tabela, em_tabela. rewrite Htp.
    rewrite apagar_ok by (simpl; by rewrite Hcp). reflexivity. }
  rewrite Heq. destruct (_ || _); [done|]. cbn [fst snd].
  assert (Hb' : arquivos w' !! p = Some (<["produtos" := tp']> b))
    by (subst w'; unfold gravar; simpl; apply lookup_insert_eq).
  assert (Hobter : forall (i : Z) (w0 : mundo) (b0 : gmap string tabela)
                          (t0 : tabela),
            arquivos w0 !! p = Some b0 -> b0 !! "produtos" = Some t0 ->
            t_colunas t0 = t_colunas tp ->
            (obter_produto i s w0).1
            = if forallb (tem_coluna tp) colunas_produto
              then if int64 i
                   then match filter (fun l => igual "id" (VInt i) l = true)
                                (t_linhas t0) with
                        | x :: _ => inr (Some (dicionario colunas_produto x))
                        | [] => inr None
                        end
                   else inl OverflowError
              else inr None).
  { intros i w0 b0 t0 Hb0 Ht0 Hc0. unfold obter_produto.
    destruct (obter_conexao_empresa_ok s w0 vdb b0 Hdb Hb0) as [-> ->].
    unfold em_tabela. rewrite Ht0. unfold selecionar.
    replace (forallb (tem_coluna t0) colunas_produto)
      with (forallb (tem_coluna tp) colunas_produto)
      by (unfold tem_coluna, nomes; by rewrite Hc0).
    destruct (forallb _ colunas_produto); [|done].
    unfold com_parametros. cbn [forallb cabe]. rewrite andb_true_r.
    destruct (int64 i); [|done].
    destruct (filter _ (t_linhas t0)); reflexivity. }
  split; [done|]. split; [|split].
  - rewrite (Hobter produto_id w' _ tp' Hb' (lookup_insert_eq _ _ _) eq_refl).
    rewrite Hid.
    destruct (forallb _ _); [|done]. subst tp'. cbn [t_linhas].
    destruct (filter _ (filter _ _)) as [|x r0] eqn:Hf; [done|].
    apply filter_cons_elem in Hf as [Hx Hi].
    apply list_elem_of_filter in Hx as [Hx _]. congruence.
  - intros n Hn. rewrite Hb'. simpl. by rewrite lookup_insert_ne.
  - intros outro Hne.
    rewrite (Hobter outro w' _ tp' Hb' (lookup_insert_eq _ _ _) eq_refl).
    rewrite (Hobter outro w b tp Hb Htp eq_refl).
    destruct (forallb _ _); [|done]. destruct (int64 outro); [|done].
    subst tp'. cbn [t_linhas].
    rewrite list_filter_filter.
    replace (filter (fun l => igual "id" (VInt outro) l = true
                              /\ igual "id" (VInt produto_id) l = false)
               (t_linhas tp))
      with (filter (fun l => igual "id" (VInt outro) l = true) (t_linhas tp));
      [done|].
    apply list_filter_iff. intros l. split; [|by intros [? _]].
    intros Hi. split; [done|]. unfold igual in *.
    apply bool_decide_eq_true in Hi. apply bool_decide_eq_false.
    rewrite Hi. intros [= ?]. done.
Qed.

(** ** The store a registration writes *)

Lemma so_a_loja_refl (db_nome : string) (w : mundo) : so_a_loja db_nome w w.
Proof. by intros q. Qed.

Lemma so_a_loja_trans (db_nome : string) (w1 w2 w3 : mundo) :
  so_a_loja db_nome w1 w2 -> so_a_loja db_nome w2 w3 -> so_a_loja db_nome w1 w3.
Proof. intros H12 H23 q Hq Ha. by rewrite H23, H12. Qed.

Lemma so_a_loja_gravar (db_nome : string) (b : gmap string tabela) (w : mundo) :
  so_a_loja db_nome w (gravar (caminho_db db_nome) b w).
Proof. intros q Hq _. unfold gravar. simpl. by rewrite lookup_insert_ne. Qed.

Lemma so_a_loja_gravar_alt (db_nome : string) (t : Z) (b : gmap string tabela)
    (w : mundo) :
  so_a_loja db_nome w (gravar (caminho_alternativo db_nome t) b w).
Proof.
  intros q _ Hq. unfold gravar. simpl. rewrite lookup_insert_ne; [done|].
  intros <-. by apply (Hq t).
Qed.

Lemma so_a_loja_remover (db_nome : string) (w : mundo) :
  so_a_loja db_nome w (remover (caminho_db db_nome) w).
Proof. intros q Hq _. unfold remover. simpl. by rewrite lookup_delete_ne. Qed.

Lemma criar_banco_empresa_so_a_loja (amb : ambiente) (tent : nat)
    (db_nome : string) (w : mundo) :
  so_a_loja db_nome w (criar_banco_empresa amb tent db_nome w).2.
Proof.
  unfold criar_banco_empresa. cbv zeta.
  assert (Hw : so_a_loja db_nome w w) by (by intros q).
  pose proof (so_a_loja_remover db_nome w) as Hr.
  assert (Hg : forall w1 fl,
            so_a_loja db_nome w w1 ->
            so_a_loja db_nome w
              (gravar (caminho_db db_nome)
                 (db (esquema_empresa
                        (Con (abrir w1 (caminho_db db_nome)) fl)).2) w1)).
  { intros w1 fl H1 q Hq Ha. unfold gravar. cbn [arquivos].
    rewrite lookup_insert_ne by done. by apply H1. }
  assert (Ha : forall fl,
            so_a_loja db_nome w
              (gravar (caminho_alternativo db_nome (tempo amb tent))
                 (db (esquema_empresa
                        (Con (abrir w (caminho_alternativo db_nome
                                         (tempo amb tent))) fl)).2) w)).
  { intros fl. apply so_a_loja_gravar_alt. }
  destruct (existe w (caminho_db db_nome)).
  - destruct (bool_decide (caminho_db db_nome ∈ bloqueados w)).
    + destruct (falha_criar amb tent) as [[[|n] e]|]; [exact Hw|..].
      * specialize (Ha (apos_conectar (Some (S n, e)))).
        by destruct (esquema_empresa _) as [r c].
      * specialize (Ha (apos_conectar None)).
        by destruct (esquema_empresa _) as [r c].
    + destruct (falha_criar amb tent) as [[[|n] e]|]; [exact Hr|..].
      * specialize (Hg _ (apos_conectar (Some (S n, e))) Hr).
        by destruct (esquema_empresa _) as [r c].
      * specialize (Hg _ (apos_conectar None) Hr).
        by destruct (esquema_empresa _) as [r c].
  - destruct (falha_criar amb tent) as [[[|n] e]|]; [exact Hw|..].
    + specialize (Hg _ (apos_conectar (Some (S n, e))) Hw).
      by destruct (esquema_empresa _) as [r c].
    + specialize (Hg _ (apos_conectar None) Hw).
      by destruct (esquema_empresa _) as [r c].
Qed.

Lemma semear_ceo_so_a_loja (amb : ambiente) (tent : nat)
    (db_nome nome senha admin : string) (w : mundo) :
  so_a_loja db_nome w (semear_ceo amb tent db_nome nome senha admin w).2.
Proof.
  unfold semear_ceo. cbv zeta.
  destruct (negb _); [apply so_a_loja_gravar|].
  destruct (em_tabela _ _ _) as [e|[|x r]]; try apply so_a_loja_gravar.
  destruct (falha_semear amb tent); [apply so_a_loja_gravar|].
  destruct (alterar_tabela _ _ _); apply so_a_loja_gravar.
Qed.

Lemma tentativas_so_a_loja (amb : ambiente) (ts : list nat)
    (db_nome nome senha admin : string) (w : mundo) :
  so_a_loja db_nome w (tentativas amb ts db_nome nome senha admin w).2.
Proof.
  revert w. induction ts as [|tent ts IH]; intros w; simpl;
    [apply so_a_loja_refl|].
  pose proof (criar_banco_empresa_so_a_loja amb tent db_nome w) as H1.
  destruct (criar_banco_empresa amb tent db_nome w) as [[e|[]] w1];
    cbn [snd] in H1.
  - destruct e; try exact H1. destruct (tent <? 2)%nat; [|exact H1].
    exact (so_a_loja_trans _ _ _ _ H1 (IH w1)).
  - exact (so_a_loja_trans _ _ _ _ H1
             (semear_ceo_so_a_loja amb tent db_nome nome senha admin w1)).
Qed.

(** X18.  Whatever a registration under a name in ASCII answers and whatever
    the environment raises, among the store files under
    [deposito_empresas/] it writes at most the one whose name it derives
    from the company's name and the ones named after that store and the
    clock: every other store file is as it was. *)
Theorem cadastrar_empresa_outras_lojas (amb : ambiente)
    (entry_nome entry_senha entry_admin : string) (logo_path : option string)
    (w : mundo) (q : string) :
  let db_nome := db_nome_de (Texto.strip entry_nome) in
  let r := cadastrar_empresa amb entry_nome entry_senha entry_admin
             logo_path w in
  Texto.todos eh_ascii (Texto.strip entry_nome) = true ->
  q ≠ caminho_db db_nome ->
  (forall t : Z, q ≠ caminho_alternativo db_nome t) ->
  arquivos r.2 !! q = arquivos w !! q.
Proof.
  intros db_nome r _. revert q. change (so_a_loja db_nome w r.2).
  subst r. unfold cadastrar_empresa. cbv zeta. fold db_nome.
  destruct (_ || _); [apply so_a_loja_refl|].
  destruct (negb _); [apply so_a_loja_refl|].
  destruct (_ <? _)%nat; [apply so_a_loja_refl|].
  destruct (existe w _ && bool_decide _); [apply so_a_loja_refl|].
  set (w1 := if existe w (caminho_db db_nome)
             then remover (caminho_db db_nome) w else w).
  assert (H1 : so_a_loja db_nome w w1).
  { subst w1. destruct (existe w _);
      [apply so_a_loja_remover|apply so_a_loja_refl]. }
  destruct (registrar_no_diretorio _ _ _ _ _ _ _) as [m|b']; [exact H1|].
  apply (so_a_loja_trans _ _ _ _ H1).
  apply (so_a_loja_trans _ _ (gravar_principal b' w1)); [by intros q0|].
  apply tentativas_so_a_loja.
Qed.

(** ** A store name already in the directory *)

Lemma unicos_ok_repetido (cs : list coluna) (ls : list (gmap string valor))
    (l : gmap string valor) (c : coluna) :
  c ∈ cs -> c_unico c = true ->
  existsb (igual (c_nome c) (campo l (c_nome c))) ls = true ->
  unicos_ok cs ls l = false.
Proof.
  intros Hc Hu Hex. unfold unicos_ok.
  destruct (forallb _ cs) eqn:Hf; [|done].
  rewrite forallb_forall in Hf.
  specialize (Hf c (proj1 (list_elem_of_In _ _) Hc)).
  by rewrite Hu, Hex in Hf.
Qed.

(** X19.  A registration whose fields pass the validations (no field empty
    once stripped, a name in ASCII of the accepted shape, a password of
    six characters or more), under a name that derives a store name some
    company of the directory already has, be it the same name or another
    one: it is answered "Empresa já cadastrada!" and leaves the
    directory as it was, and the store of that company is no longer on
    disk. *)
Theorem cadastro_repetido_remove_loja (amb : ambiente)
    (entry_nome entry_senha entry_admin : string) (logo_path : option string)
    (w : mundo) (te : tabela) (outra : gmap string valor) :
  let nome := Texto.strip entry_nome in
  let senha := Texto.strip entry_senha in
  let admin := Texto.strip entry_admin in
  let p := caminho_db (db_nome_de nome) in
  let r := cadastrar_empresa amb entry_nome entry_senha entry_admin
             logo_path w in
  Texto.vazio nome || Texto.vazio senha || Texto.vazio admin = false ->
  Texto.todos eh_ascii nome = true ->
  Regex.casa Regex.re_nome_empresa nome = true ->
  (6 <= Texto.len senha)%nat ->
  principal w !! "empresas" = Some te ->
  t_colunas te = empresas ->
  outra ∈ t_linhas te ->
  campo outra "db_nome" = VTexto (db_nome_de nome) ->
  p ∉ bloqueados w ->
  r.1 = EmpresaJaCadastrada
  /\ principal r.2 = principal w
  /\ arquivos r.2 = delete p (arquivos w).
Proof.
  intros nome senha admin p r Hv _ Hre Hlen Hte Hc Hin Hdb Hbl. subst r.
  unfold cadastrar_empresa. cbv zeta. fold nome senha admin p.
  rewrite Hv, Hre. simpl negb. cbv iota.
  rewrite (proj2 (Nat.ltb_ge _ _) Hlen).
  rewrite (bool_decide_eq_false_2 _ Hbl), andb_false_r.
  set (w1 := if existe w p then remover p w else w).
  assert (Hp1 : principal w1 = principal w) by (subst w1; by destruct (existe w p)).
  assert (Ha1 : arquivos w1 = delete p (arquivos w)).
  { subst w1. destruct (existe w p) eqn:Hex; [done|].
    unfold existe in Hex. apply bool_decide_eq_false in Hex.
    rewrite delete_id; [done|].
    destruct (arquivos w !! p); [|done]. destruct Hex. by eexists. }
  assert (Hreg : registrar_no_diretorio amb nome senha admin (db_nome_de nome)
                   logo_path (principal w1) = inl EmpresaJaCadastrada).
  { unfold registrar_no_diretorio, alterar_tabela, em_tabela.
    rewrite Hp1, Hte.
    rewrite selecionar_ok
      by (simpl; by rewrite !(tem_coluna_declarada te empresas)).
    destruct (filter _ (t_linhas te)) as [|x xs]; [|done].
    unfold inserir.
    assert (Hcols : forallb (tem_coluna te)
              [ ("nome", VTexto nome); ("senha", VTexto (hash_senha senha));
                ("logo_path", logo_final amb nome logo_path);
                ("db_nome", VTexto (db_nome_de nome));
                ("admin_user", VTexto admin) ].*1 = true).
    { simpl. by rewrite !(tem_coluna_declarada te empresas). }
    rewrite Hcols. simpl negb. cbv iota zeta.
    rewrite (unicos_ok_repetido (t_colunas te) (t_linhas te) _
               (col_unn "db_nome" TText)).
    - by rewrite andb_false_r.
    - rewrite Hc. by apply (bool_decide_unpack _).
    - done.
    - cbn [c_nome col_unn].
      rewrite (campo_montar_linha_dado _ te _ "db_nome"
                 (VTexto (db_nome_de nome))).
      + apply existsb_exists. exists outra. split; [by apply list_elem_of_In|].
        unfold igual. rewrite Hdb. by apply bool_decide_eq_true.
      + by rewrite (tem_coluna_declarada te empresas).
      + generalize (hash_senha senha) (logo_final amb nome logo_path)
                   (db_nome_de nome).
        intros h lg dn. reflexivity. }
  rewrite Hreg. done.
Qed.

(** ** The theorems at the scenarios *)

Lemma unico_em_um (c : string) (l : gmap string valor) : unico_em c [l].
Proof.
  intros i j li lj Hi Hj Hij _.
  apply lookup_lt_Some in Hi. apply lookup_lt_Some in Hj. simpl in *. lia.
Qed.

(** The schema statements on the store of Acme keep the owner's row. *)
Lemma esquema_empresa_conserva_linhas_acme :
  exists t',
    db (esquema_empresa (Con Cenario.loja_acme None)).2 !! "usuarios" = Some t'
    /\ length (t_linhas t') = 1%nat.
Proof.
  destruct (esquema_empresa_conserva_linhas Cenario.loja_acme None "usuarios"
              Cenario.usuarios_acme ltac:(calcular))
    as (t' & Ht' & _ & Hlen & _).
  exists t'. split; [exact Ht'|]. rewrite Hlen. calcular.
Defined.

(** Registering Beta beside Acme. *)
Lemma cadastrar_empresa_sem_repeticao_acme :
  exists te',
    principal (cadastrar_empresa Cenario.amb0 "Beta" "segredo2" "Beta" None
                 Cenario.acme).2 !! "empresas" = Some te'
    /\ unico_em "db_nome" (t_linhas te').
Proof.
  pose proof (cadastrar_empresa_sem_repeticao Cenario.amb0 "Beta" "segredo2"
                "Beta" None Cenario.acme (Cenario.diretorio_de Cenario.acme))
    as H.
  cbv zeta in H.
  assert (Hl : t_linhas (Cenario.diretorio_de Cenario.acme)
               = [Cenario.linha_acme]) by calcular.
  rewrite Hl in H.
  specialize (H ltac:(calcular) ltac:(split; calcular)
                (unico_em_um _ _) (unico_em_um _ _)).
  destruct H as (te' & H1 & _ & _ & _ & H2).
  exists te'. split; [exact H1|exact H2].
Defined.

(** Renaming Acme. *)
Lemma atualizar_empresa_so_os_dados_acme :
  arquivos (atualizar_empresa "Acme Ltda" "12.345.678/0001-90" "Rua A, 1"
              "81 3333-0000" Cenario.sessao_dono Cenario.acme_logada).1.2
  = arquivos Cenario.acme_logada.
Proof.
  pose proof (atualizar_empresa_so_os_dados "Acme Ltda" "12.345.678/0001-90"
                "Rua A, 1" "81 3333-0000" Cenario.sessao_dono
                Cenario.acme_logada (Cenario.diretorio_de Cenario.acme_logada))
    as H.
  cbv zeta in H. specialize (H ltac:(calcular)). exact (proj1 H).
Defined.

Lemma atualizar_empresa_sem_repeticao_acme :
  exists te',
    principal (atualizar_empresa "Acme Ltda" "12.345.678/0001-90" "Rua A, 1"
                 "81 3333-0000" Cenario.sessao_dono Cenario.acme_logada).1.2
      !! "empresas" = Some te'
    /\ unico_em "nome" (t_linhas te').
Proof.
  pose proof (atualizar_empresa_sem_repeticao "Acme Ltda" "12.345.678/0001-90"
                "Rua A, 1" "81 3333-0000" Cenario.sessao_dono
                Cenario.acme_logada (Cenario.diretorio_de Cenario.acme_logada))
    as H.
  cbv zeta in H.
  assert (Hl : t_linhas (Cenario.diretorio_de Cenario.acme_logada)
               = [Cenario.linha_acme]) by calcular.
  rewrite Hl in H.
  specialize (H ltac:(calcular) ltac:(split; calcular)
                (unico_em_um _ _) (unico_em_um _ _)).
  destruct H as (te' & H1 & _ & H2 & _).
  exists te'. split; [exact H1|exact H2].
Defined.

(** The session of Acme's owner. *)
Lemma login_sessao_sem_admin_user_acme :
  Cenario.sessao_dono !! "admin_user" = None.
Proof.
  exact (proj1 (login_sessao_sem_admin_user Cenario.amb0 "Acme" "segredo1"
                  "dono" Cenario.acme Cenario.sessao_dono ltac:(calcular))).
Defined.

(** Excluding the deposit of Acme, in which nothing is located. *)
Lemma excluir_deposito_logica_acme :
  (excluir_deposito 1 Cenario.sessao_dono Cenario.acme_dep).1 = inr true.
Proof.
  pose proof (excluir_deposito_logica 1 Cenario.sessao_dono Cenario.acme_dep
                (VTexto "acme_37036c") Cenario.loja_dep Cenario.depositos_dep
                Cenario.localizacoes_dep) as H.
  cbv zeta in H.
  specialize (H ltac:(calcular) ltac:(calcular) ltac:(calcular)
                ltac:(calcular) ltac:(calcular) ltac:(calcular)
                ltac:(calcular)).
  replace (existsb (igual "deposito_id" (VInt 1))
             (t_linhas Cenario.localizacoes_dep))
    with false in H by calcular.
  exact (proj1 H).
Defined.

(** With a product located in it the deposit stays active. *)
Example deposito_com_produto_fica :
  excluir_deposito 1 Cenario.sessao_dono Cenario.acme_prod
  = (inr false, Cenario.acme_prod).
Proof. calcular. Qed.

(** The first deposit of Acme. *)
Lemma criar_obter_deposito_acme :
  (criar_deposito Cenario.amb0 (VTexto "Central") (VTexto "Geral")
     (VTexto "Rua A, 1") (VTexto "Recife") (VTexto "PE") (VTexto "50000-000")
     (VInt 1) VNull Cenario.sessao_dono Cenario.acme_logada).1
  = inr (Some 1%Z).
Proof.
  pose proof (criar_obter_deposito Cenario.amb0 (VTexto "Central")
                (VTexto "Geral") (VTexto "Rua A, 1") (VTexto "Recife")
                (VTexto "PE") (VTexto "50000-000") (VInt 1) VNull
                Cenario.sessao_dono Cenario.acme_logada
                (VTexto "acme_37036c") Cenario.loja_logada
                Cenario.depositos_logada) as H.
  cbv zeta in H.
  specialize (H ltac:(calcular) ltac:(calcular) ltac:(calcular)
                ltac:(calcular) ltac:(constructor)
                ltac:(calcular) ltac:(calcular)
                ltac:(discriminate) ltac:(discriminate)).
  exact (proj1 H).
Defined.

(** A dictionary with the identifier alone changes nothing. *)
Lemma atualizar_deposito_permitidos_acme :
  atualizar_deposito 1 {[ "id" := VInt 7 ]} Cenario.sessao_dono Cenario.acme_dep
  = (inr false, Cenario.acme_dep).
Proof.
  pose proof (atualizar_deposito_permitidos 1 {[ "id" := VInt 7 ]}
                Cenario.sessao_dono Cenario.acme_dep (VTexto "acme_37036c")
                Cenario.loja_dep Cenario.depositos_dep) as H.
  cbv zeta in H.
  specialize (H ltac:(calcular) ltac:(calcular) ltac:(calcular)).
  apply (proj1 H). intros c Hc. unfold campos_permitidos in Hc.
  rewrite !elem_of_cons, elem_of_nil in Hc.
  repeat (destruct Hc as [->|Hc]; [vm_compute; reflexivity|]). destruct Hc.
Defined.

(** Excluding the product of Acme, which no movement and no order names. *)
Lemma excluir_produto_guardado_acme :
  (excluir_produto 1 Cenario.sessao_dono Cenario.acme_prod).1 = inr true.
Proof.
  pose proof (excluir_produto_guardado 1 Cenario.sessao_dono Cenario.acme_prod
                (VTexto "acme_37036c") Cenario.loja_prod Cenario.produtos_prod
                Cenario.movimentacoes_prod Cenario.itens_prod) as H.
  cbv zeta in H.
  specialize (H ltac:(calcular) ltac:(calcular) ltac:(calcular)
                ltac:(calcular) ltac:(calcular) ltac:(calcular)
                ltac:(calcular) ltac:(calcular) ltac:(calcular)).
  replace (existsb (igual "produto_id" (VInt 1))
             (t_linhas Cenario.movimentacoes_prod)
           || existsb (igual "produto_id" (VInt 1))
                (t_linhas Cenario.itens_prod))
    with false in H by calcular.
  rewrite (proj1 H). reflexivity.
Defined.

(** The product is gone and the row that places it in the deposit is
    still there. *)
Example produto_excluido_deixa_localizacao :
  let r := excluir_produto 1 Cenario.sessao_dono Cenario.acme_prod in
  (obter_produto 1 Cenario.sessao_dono Cenario.acme_prod).1 ≠ inr None
  /\ (obter_produto 1 Cenario.sessao_dono r.2).1 = inr None
  /\ ((fun t => (fun l => campo l "produto_id") <$> t_linhas t)
        <$> (arquivos r.2 !! Cenario.banco_acme
               ≫= (.!! "localizacao_produtos")))
     = Some [VInt 1].
Proof. cbv zeta. calcular. Qed.

(** Registering Beta leaves the store of Acme. *)
Lemma cadastrar_empresa_outras_lojas_acme :
  arquivos (cadastrar_empresa Cenario.amb0 "Beta" "segredo2" "Beta" None
              Cenario.acme).2 !! Cenario.banco_acme
  = arquivos Cenario.acme !! Cenario.banco_acme.
Proof.
  pose proof (cadastrar_empresa_outras_lojas Cenario.amb0 "Beta" "segredo2"
                "Beta" None Cenario.acme Cenario.banco_acme) as H.
  cbv zeta in H.
  replace (db_nome_de (Texto.strip "Beta")) with "beta_703390" in H
    by calcular.
  apply H.
  - calcular.
  - calcular.
  - intros t Ht. unfold caminho_alternativo, Cenario.banco_acme, caminho_db in Ht.
    apply (inj (String.app _)) in Ht. discriminate Ht.
Defined.

(** The same store name under another spelling of the company's name. *)
Lemma cadastro_repetido_remove_loja_mercado :
  "mErCADO cENtRal" ≠ "meRcaDo CEnTral"
  /\ is_Some (arquivos Cenario.mercado !! Cenario.banco_mercado)
  /\ (cadastrar_empresa Cenario.amb0 "mErCADO cENtRal" "segredo4" "bia" None
        Cenario.mercado).1 = EmpresaJaCadastrada
  /\ arquivos (cadastrar_empresa Cenario.amb0 "mErCADO cENtRal" "segredo4"
                 "bia" None Cenario.mercado).2 !! Cenario.banco_mercado
     = None.
Proof.
  split; [calcular|]. split; [calcular|].
  pose proof (cadastro_repetido_remove_loja Cenario.amb0 "mErCADO cENtRal"
                "segredo4" "bia" None Cenario.mercado
                (Cenario.diretorio_de Cenario.mercado) Cenario.linha_mercado)
    as H.
  cbv zeta in H.
  specialize (H ltac:(calcular) ltac:(calcular) ltac:(calcular)
                ltac:(calcular) ltac:(calcular) ltac:(calcular)
                ltac:(calcular) ltac:(calcular) ltac:(calcular)).
  destruct H as (H1 & _ & H3). split; [exact H1|].
  rewrite H3.
  replace Cenario.banco_mercado
    with (caminho_db (db_nome_de (Texto.strip "mErCADO cENtRal"))) by calcular.
  apply lookup_delete_eq.
Defined.

(** * Provisioning: the owner, the store name and the schema statements

    What the specification says of a registration and of the statements
    that prepare a store, stated with the definitions of [Forma] that
    follow its words. *)

(** ** The owner a registration leaves *)





(** ** The store name of a registration *)





(** The derivation is not injective: two names that differ in letter case
    only and whose digests start with the same six digits. *)
Example nome_da_loja_repetido :
  "mErCADO cENtRal" ≠ "meRcaDo CEnTral"
  /\ nome_da_loja "mErCADO cENtRal" = nome_da_loja "meRcaDo CEnTral".
Proof. split; calcular. Qed.



(** ** The schema statements and the function that runs them *)

Lemma criar_se_ausente_mantem (n m : string) (cs : list coluna)
    (chk : list (string * list string)) (b : gmap string tabela) (t : tabela) :
  b !! m = Some t -> criar_se_ausente n cs chk b !! m = Some t.
Proof.
  intros Hm. unfold criar_se_ausente. destruct (b !! n) eqn:Hn; [done|].
  rewrite lookup_insert_ne; [done|]. intros ->. congruence.
Qed.

Lemma foldl_criar_mantem (xs : list (string * list coluna)) (m : string)
    (b : gmap string tabela) (t : tabela) :
  b !! m = Some t ->
  foldl (fun b nc => criar_se_ausente nc.1 nc.2 [] b) b xs !! m = Some t.
Proof.
  revert b. induction xs as [|x xs IH]; intros b Hm; [done|].
  simpl. apply IH. by apply criar_se_ausente_mantem.
Qed.

Lemma acrescentar_nada (t : tabela) : acrescentar [] t = t.
Proof.
  destruct t as [cs chk ls sq]. unfold acrescentar. cbn [fmap list_fmap foldl
    t_colunas t_check t_linhas t_seq].
  by rewrite app_nil_r, list_fmap_id.
Qed.

Lemma em_falta_outra (cs : list string) (c : coluna) (t t' : tabela) :
  c_nome c ∉ cs -> t_colunas t' = t_colunas t ++ [c] ->
  em_falta cs t' = em_falta cs t.
Proof.
  intros Hc Ht'. unfold em_falta, nomes. rewrite Ht', fmap_app. simpl.
  induction cs as [|x cs IH]; [done|].
  apply not_elem_of_cons in Hc as [Hx Hcs].
  rewrite !filter_cons, IH by done.
  destruct (decide (x ∉ c_nome <$> t_colunas t)) as [H1|H1];
    destruct (decide (x ∉ (c_nome <$> t_colunas t) ++ [c_nome c])) as [H2|H2];
    try done; exfalso.
  - apply H2. rewrite elem_of_app, elem_of_cons, elem_of_nil.
    intros [?|[?|[]]]; [done|]. by subst x.
  - apply H1. intros Hin. apply H2. apply elem_of_app. by left.
Qed.

(** The [ALTER TABLE] statements in their [try], on a file with a user
    table: the columns it lacked are added. *)
Lemma foldl_migrar_acrescenta (cs : list string) :
  NoDup cs ->
  forall (b : gmap string tabela) (tu : tabela),
    b !! "usuarios" = Some tu ->
    foldl migrar_coluna b cs = <["usuarios" := acrescentar (em_falta cs tu) tu]> b.
Proof.
  induction 1 as [|c cs Hc Hcs IH]; intros b tu Htu.
  - simpl. change (em_falta [] tu) with (@nil string).
    by rewrite acrescentar_nada, insert_id.
  - cbn [foldl]. destruct (tem_coluna tu c) eqn:Htc.
    + destruct (migrar_coluna_passo b tu c Htu) as (_ & _ & _ & _ & Heq).
      rewrite (Heq Htc), (IH b tu Htu). f_equal. f_equal.
      unfold em_falta. rewrite filter_cons_False; [done|].
      apply bool_decide_eq_true in Htc. by intros Hn.
    + assert (Hm : migrar_coluna b c
                   = <["usuarios" :=
                         Tabela (t_colunas tu
                                 ++ [col_nn_def c TText (texto EmptyString)])
                                (t_check tu)
                                ((fun l => <[c := VTexto EmptyString]> l)
                                   <$> t_linhas tu)
                                (t_seq tu)]> b).
      { unfold migrar_coluna, alterar_tabela, em_tabela, adicionar_coluna.
        rewrite Htu. cbn [c_nome col_nn_def]. by rewrite Htc. }
      rewrite Hm. erewrite IH by apply lookup_insert_eq.
      rewrite insert_insert_eq. f_equal.
      rewrite (em_falta_outra cs (col_nn_def c TText (texto EmptyString)) tu)
        by done.
      unfold em_falta at 2. rewrite filter_cons_True.
      * fold (em_falta cs tu). unfold acrescentar.
        cbn [t_colunas t_check t_linhas t_seq fmap list_fmap foldl].
        rewrite <- app_assoc, <- list_fmap_compose. reflexivity.
      * apply bool_decide_eq_false in Htc. exact Htc.
Qed.

(** The file the statements leave, table by table: the user table with
    the columns it lacked, every other table as it was. *)
Lemma esquema_final_tabelas (b : gmap string tabela) (n : string) (t : tabela) :
  b !! n = Some t ->
  esquema_final b !! n
  = Some (if decide (n = "usuarios")
          then acrescentar (em_falta colunas_necessarias t) t else t).
Proof.
  intros Hn. unfold esquema_final.
  assert (Hnd : NoDup colunas_necessarias) by calcular.
  pose proof (criar_se_ausente_mantem "produtos" n produtos [] b t Hn) as H1.
  set (b1 := criar_se_ausente "produtos" produtos [] b) in *.
  apply foldl_criar_mantem.
  destruct (decide (n = "usuarios")) as [->|Hne].
  - unfold tabela_existe.
    rewrite bool_decide_eq_true_2 by (by exists t).
    rewrite (foldl_migrar_acrescenta _ Hnd b1 t H1).
    apply lookup_insert_eq.
  - destruct (tabela_existe "usuarios" b1) eqn:Hex.
    + apply bool_decide_eq_true in Hex as [tu Htu].
      rewrite (foldl_migrar_acrescenta _ Hnd b1 tu Htu).
      by rewrite lookup_insert_ne.
    + by rewrite lookup_insert_ne.
Qed.

(** [criar_banco_empresa] on a store that is not in use, while nothing is
    raised. *)
Lemma criar_banco_empresa_livre (amb : ambiente) (tent : nat)
    (db_nome : string) (w : mundo) :
  falha_criar amb tent = None ->
  caminho_db db_nome ∉ bloqueados w ->
  criar_banco_empresa amb tent db_nome w
  = (inr tt, Mundo (principal w)
               (<[caminho_db db_nome := esquema_final ∅]> (arquivos w))
               (bloqueados w)).
Proof.
  intros Hf Hb. unfold criar_banco_empresa. cbv zeta.
  rewrite (bool_decide_eq_false_2 _ Hb), Hf.
  destruct (existe w (caminho_db db_nome)) eqn:Hex.
  - rewrite (abrir_ausente _ (remover _ w)) by apply lookup_delete_eq.
    cbn [apos_conectar]. rewrite esquema_empresa_livre.
    unfold gravar, remover. cbn [fst snd db principal arquivos bloqueados].
    by rewrite insert_delete_eq.
  - unfold existe in Hex. apply bool_decide_eq_false in Hex.
    rewrite abrir_ausente.
    + cbn [apos_conectar]. by rewrite esquema_empresa_livre.
    + destruct (arquivos w !! _); [|done]. destruct Hex. by eexists.
Qed.

(** C9.  The statements [criar_banco_empresa] runs once connected, on a
    file whose names are written as the source writes them: while nothing
    is raised they return normally and, run again on the file they left,
    return normally and leave it as it is; every table the file had stays
    as it was, but the user table, which gets those of the five columns
    it lacked, [NOT NULL DEFAULT ''], its rows reading the empty text
    there and what they held elsewhere.  On any file and whatever is
    raised, every table stays, with its columns first and its rows in
    place.  The function itself removes the file of the store before it
    connects: on a store that is not in use it leaves the empty schema,
    tables without a row, whatever the store held, so that a second call
    in a row leaves the disk as the first did; on a store in use it
    leaves the store alone and runs the statements on the file named
    after the clock. *)
Theorem criar_banco_empresa_esquema_aditivo (amb : ambiente)
    (db_nome : string) (w : mundo) (b : gmap string tabela) :
  let r := rodar esquema_empresa b in
  let novo := (rodar esquema_empresa ∅).2 in
  (nomes_em_minusculas b ->
   r.1 = inr tt
   /\ rodar esquema_empresa r.2 = (inr tt, r.2)
   /\ forall (n : string) (t : tabela),
        b !! n = Some t ->
        r.2 !! n
        = Some (if decide (n = "usuarios")
                then acrescentar (em_falta colunas_necessarias t) t else t))
  /\ (forall (fl : option (nat * excecao)) (n : string) (t : tabela),
        b !! n = Some t ->
        exists t' : tabela,
          db (esquema_empresa (Con b fl)).2 !! n = Some t' /\ estende t t')
  /\ (forall (n : string) (t : tabela), novo !! n = Some t -> t_linhas t = [])
  /\ (forall t1 t2 : nat,
        falha_criar amb t1 = None -> falha_criar amb t2 = None ->
        caminho_db db_nome ∉ bloqueados w ->
        let r1 := criar_banco_empresa amb t1 db_nome w in
        r1.1 = inr tt
        /\ principal r1.2 = principal w
        /\ arquivos r1.2 = <[caminho_db db_nome := novo]> (arquivos w)
        /\ criar_banco_empresa amb t2 db_nome r1.2 = (inr tt, r1.2))
  /\ (forall (t1 : nat) (f : gmap string tabela),
        falha_criar amb t1 = None ->
        arquivos w !! caminho_db db_nome = Some f ->
        caminho_db db_nome ∈ bloqueados w ->
        let r1 := criar_banco_empresa amb t1 db_nome w in
        let alt := caminho_alternativo db_nome (tempo amb t1) in
        r1.1 = inr tt
        /\ principal r1.2 = principal w
        /\ arquivos r1.2
           = <[alt := (rodar esquema_empresa (abrir w alt)).2]> (arquivos w)
        /\ arquivos r1.2 !! caminho_db db_nome = Some f).
Proof.
  cbv zeta. rewrite !rodar_esquema_empresa. cbn [fst snd].
  split; [|split; [|split; [|split]]].
  - intros _. split; [done|]. split.
    + by rewrite (esquema_final_completo _ (completo_esquema_final b)).
    + intros n t. apply esquema_final_tabelas.
  - intros fl n t. apply esquema_empresa_conserva.
  - intros n t. apply (proj2 esquema_novo_sem_linhas n t).
  - intros t1 t2 H1 H2 Hb.
    rewrite (criar_banco_empresa_livre amb t1 db_nome w H1 Hb).
    cbn [fst snd principal arquivos].
    split; [done|]. split; [done|]. split; [done|].
    rewrite criar_banco_empresa_livre; [|exact H2|exact Hb].
    cbn [principal arquivos bloqueados]. by rewrite insert_insert_eq.
  - intros t1 f Hf Hp Hb. rewrite rodar_esquema_empresa.
    unfold criar_banco_empresa. cbv zeta. unfold existe.
    rewrite Hp, (bool_decide_eq_true_2 _ (mk_is_Some _ _ eq_refl)).
    rewrite (bool_decide_eq_true_2 _ Hb), Hf. cbn [apos_conectar].
    rewrite esquema_empresa_livre.
    cbn [fst snd db gravar principal arquivos].
    split; [done|]. split; [done|]. split; [done|].
    rewrite lookup_insert_ne by apply caminho_alternativo_outro. done.
Qed.

(** The theorem at a store of an older version, whose one row gets the
    five columns, and at the store of Acme with its three users, which
    [criar_banco_empresa] leaves without a row. *)
Lemma criar_banco_empresa_esquema_aditivo_antiga :
  (exists tu' : tabela,
     (rodar esquema_empresa Cenario.loja_antiga).2 !! "usuarios" = Some tu'
     /\ nomes tu'
        = [ "id"; "nome_completo"; "email"; "senha"; "tipo_acesso";
            "codigo_empresa"; "empresa_nome"; "usuario"; "nome_supervisor";
            "turno" ]
     /\ (fun l => (fun c => campo l c) <$> ["nome_completo"; "usuario"; "turno"])
          <$> t_linhas tu'
        = [ [VTexto "Ana Dias"; VTexto EmptyString; VTexto EmptyString] ])
  /\ Cenario.usuarios_em Cenario.banco_acme ["usuario"]
       (criar_banco_empresa Cenario.amb0 0 "acme_37036c" Cenario.acme3).2
     = Some [].
Proof.
  pose proof (criar_banco_empresa_esquema_aditivo Cenario.amb0 "acme_37036c"
                Cenario.acme3 Cenario.loja_antiga) as H.
  cbv zeta in H. destruct H as (H1 & _ & _ & H5 & _).
  split.
  - specialize (H1 ltac:(calcular)). destruct H1 as (_ & _ & H2).
    eexists. split; [exact (H2 "usuarios" Cenario.usuarios_antiga eq_refl)|].
    split; calcular.
  - specialize (H5 0%nat 0%nat eq_refl eq_refl ltac:(calcular)).
    destruct H5 as (_ & _ & Ha & _).
    unfold Cenario.usuarios_em. rewrite Ha.
    change Cenario.banco_acme with (caminho_db "acme_37036c").
    rewrite lookup_insert_eq. reflexivity.
Defined.

(** Rows that do not survive the call: the three users of Acme. *)
Lemma criar_banco_empresa_apaga_usuarios :
  Cenario.usuarios_em Cenario.banco_acme ["usuario"] Cenario.acme3
  = Some [[VTexto "dono"]; [VTexto "adm"]; [VTexto "op"]]
  /\ (criar_banco_empresa Cenario.amb0 0 "acme_37036c" Cenario.acme3).1
     = inr tt
  /\ Cenario.usuarios_em Cenario.banco_acme ["usuario"]
       (criar_banco_empresa Cenario.amb0 0 "acme_37036c" Cenario.acme3).2
     = Some [].
Proof. split; [calcular|]. split; calcular. Qed.
